(** * RL-Traffic: the SUMO environments of [DQN_working.py] and [PPO.py]

    Both files define a gymnasium environment [SumoEnv] that drives a SUMO
    traffic simulation through the TraCI client.  The simulator is a black
    box: it is an abstract state with one operation per TraCI call the
    sources make, each of which may answer or raise [TraCIException].
    Under the calls lies the connection: a call made while the connection
    is lost raises [FatalTraCIError], which is not a [TraCIException], so
    the handlers of the sources do not catch it.  Statements made without
    a connection in their context are about a connection that holds
    ([reliable_link]); the others hold for every connection.

    The methods of [SumoEnv] are embedded as computations of a state and
    exception monad over a _world_: the fields of [self], the simulator, and
    the list of TraCI calls issued so far.  A Python exception leaves the
    mutations done before it in place, so a computation returns its outcome
    together with the world it reached.

    Numbers: detector counts, phase indices and step counters are integers
    in the simulator's answers and are kept as [Z]; the sources store them
    in [float32] arrays and Python floats, where such values are exact below
    2^24, and the development reasons about the integer values.  Simulated
    time is a rational.  Where the sources divide two such numbers in
    floating point, the operands are kept and no value is given. *)

From Stdlib Require Import ZArith List String Bool Lia QArith DecimalString.
Import ListNotations.
Open Scope string_scope.
Open Scope list_scope.
Open Scope Z_scope.

Set Implicit Arguments.

(** ** Exceptions and outcomes *)

(** The exceptions the modelled code can meet: the one TraCI raises and the
    sources catch, the [IndexError] of [...[0]] on an empty list, and the
    [FatalTraCIError] of the client on a lost connection. *)
Inductive exn : Type :=
| TraCIException (msg : string)
| IndexError
| FatalTraCIError (msg : string).

Inductive Res (A : Type) : Type :=
| Ok (a : A)
| Raise (e : exn).

Arguments Ok {A} a.
Arguments Raise {A} e.

(** What the simulator answers to a call that reaches it: a value, or the
    message of the [TraCIException] the client raises for its error reply.
    A call that does not reach the simulator is the matter of [Link]
    below. *)
Inductive Reply (A : Type) : Type :=
| Done (a : A)
| Fail (msg : string).

Arguments Done {A} a.
Arguments Fail {A} msg.

Definition lift_reply {A} (r : Reply A) : Res A :=
  match r with
  | Done a => Ok a
  | Fail msg => Raise (TraCIException msg)
  end.

(** ** The TraCI client *)

Record Phase : Type := { duration : Q; state : string }.

(** A program logic as returned by [getAllProgramLogics]; the sources read
    only [program.phases]. *)
Record Logic : Type := { programID : string; phases : list Phase }.

(** One constructor per TraCI call of either source file, plus
    [time.sleep]. *)
Inductive Call : Type :=
| CIsLoaded
| CStart (cmd : list string) (label : option string)
| CClose
| CSimulationStep
| CGetTime
| CGetIDCount
| CTrafficlightGetIDList
| CLaneareaGetIDList
| CGetPhase (tls_id : string)
| CGetAllProgramLogics (tls_id : string)
| CSetPhase (tls_id : string) (phase : Z)
| CGetLastStepVehicleNumber (detector_id : string)
| CSleep (seconds : Z).

(** The connection the calls go through: whether it is lost when a call
    is made on a simulator, and the message of the [FatalTraCIError] the
    client then raises.  Such a call does not reach the simulator. *)
Class Link (Sim : Type) : Type := {
  link_down : Call -> Sim -> option string
}.

(** The connection that is never lost. *)
#[global] Instance reliable_link (Sim : Type) : Link Sim | 100 := {
  link_down := fun _ _ => None
}.

(** No call is lost on this simulator. *)
Definition link_up {Sim : Type} `{Link Sim} (s : Sim) : Prop :=
  forall c : Call, link_down c s = None.

(** Queries read the simulator; commands may change it, also when they
    fail. *)
Class TraCI (Sim : Type) : Type := {
  traci_isLoaded : Sim -> bool;
  traci_start : list string -> option string -> Sim -> Reply unit * Sim;
  traci_close : Sim -> Reply unit * Sim;
  traci_simulationStep : Sim -> Reply unit * Sim;
  simulation_getTime : Sim -> Reply Q;
  vehicle_getIDCount : Sim -> Reply Z;
  trafficlight_getIDList : Sim -> Reply (list string);
  lanearea_getIDList : Sim -> Reply (list string);
  trafficlight_getPhase : string -> Sim -> Reply Z;
  trafficlight_getAllProgramLogics : string -> Sim -> Reply (list Logic);
  trafficlight_setPhase : string -> Z -> Sim -> Reply unit * Sim;
  lanearea_getLastStepVehicleNumber : string -> Sim -> Reply Z
}.

(** ** Worlds and the monad *)

Record World (Env Sim : Type) : Type := mkWorld {
  env : Env;          (* the fields of [self] *)
  sim : Sim;          (* the simulator behind TraCI *)
  calls : list Call   (* TraCI calls issued so far, oldest first *)
}.

Arguments mkWorld {Env Sim} env sim calls.

Section Monad.
Context {Env Sim : Type}.

Definition M (A : Type) : Type := World Env Sim -> Res A * World Env Sim.

Definition ret {A} (a : A) : M A := fun w => (Ok a, w).

Definition raise {A} (e : exn) : M A := fun w => (Raise e, w).

Definition bind {A B} (m : M A) (k : A -> M B) : M B :=
  fun w =>
    match m w with
    | (Ok a, w') => k a w'
    | (Raise e, w') => (Raise e, w')
    end.

(** Reading and assigning fields of [self]. *)
Definition get_env : M Env := fun w => (Ok (env w), w).

Definition modify (f : Env -> Env) : M unit :=
  fun w => (Ok tt, mkWorld (f (env w)) (sim w) (calls w)).

Definition log (c : Call) (w : World Env Sim) : World Env Sim :=
  mkWorld (env w) (sim w) (calls w ++ [c]).

(** [try: body except traci.exceptions.TraCIException as e: handler]:
    any other exception passes through. *)
Definition try_except {A} (body : M A) (handler : string -> M A) : M A :=
  fun w =>
    match body w with
    | (Raise (TraCIException msg), w') => handler msg w'
    | r => r
    end.

(** [try: ... finally: fin]: [fin] runs on every exit, then the outcome of
    the protected part stands. *)
Definition finally {A} (body : M A) (fin : M unit) : M A :=
  fun w =>
    match body w with
    | (r, w') =>
        match fin w' with
        | (Ok _, w'') => (r, w'')
        | (Raise e, w'') => (Raise e, w'')
        end
    end.

(** [xs[0]] *)
Definition index0 {A} (xs : list A) : M A :=
  match xs with
  | x :: _ => ret x
  | [] => raise IndexError
  end.

Definition sleep (seconds : Z) : M unit :=
  fun w => (Ok tt, log (CSleep seconds) w).

Context `{TraCI Sim} {link : Link Sim}.

Definition query {A} (c : Call) (q : Sim -> Reply A) : M A :=
  fun w =>
    match link_down c (sim w) with
    | Some msg => (Raise (FatalTraCIError msg), log c w)
    | None => (lift_reply (q (sim w)), log c w)
    end.

Definition command (c : Call) (k : Sim -> Reply unit * Sim) : M unit :=
  fun w =>
    match link_down c (sim w) with
    | Some msg => (Raise (FatalTraCIError msg), log c w)
    | None =>
        match k (sim w) with
        | (r, s') => (lift_reply r, mkWorld (env w) s' (calls w ++ [c]))
        end
    end.

(** [traci.isLoaded()] looks at the client's table of connections and
    cannot raise. *)
Definition isLoaded : M bool :=
  fun w => (Ok (traci_isLoaded (sim w)), log CIsLoaded w).

End Monad.

Declare Scope monad_scope.
Delimit Scope monad_scope with monad.
Notation "x <- m ;; k" := (bind m (fun x => k))
  (at level 61, m at next level, right associativity) : monad_scope.
Notation "m ;; k" := (bind m (fun _ => k))
  (at level 61, right associativity) : monad_scope.
Open Scope monad_scope.

(** ** Observations and reward, common to both files *)

(** The array [(q_EB_0, q_SB_0, q_SB_1, q_WB_0, q_NB_0, q_NB_1,
    current_phase)]. *)
Definition Observation : Type := list Z.

(** Python's [sum(xs)]: start at 0, add from the left. *)
Definition py_sum (xs : list Z) : Z := fold_left Z.add xs 0.

(** [state[:-1]] *)
Definition all_but_last (state : Observation) : list Z := removelast state.

(** [_get_reward], identical in both files. *)
Definition _get_reward (state : Observation) : Z :=
  let total_queue := py_sum (all_but_last state) in
  - total_queue.

(** [np.zeros(7, dtype=np.float32)] *)
Definition zeros7 : Observation := repeat 0 7.

(** A Python float of the sources: an integer value, or the quotient of
    two integer values as the floating-point division gives it. *)
Inductive Num : Type :=
| Exact (n : Z)
| Div (a b : Z).

(** Values stored in the [info] dictionaries. *)
Inductive InfoVal : Type :=
| VInt (n : Z)
| VNum (x : Num)
| VStr (s : string).

Definition Info : Type := list (string * InfoVal).

Fixpoint info_get (key : string) (info : Info) : option InfoVal :=
  match info with
  | [] => None
  | (k, v) :: rest => if String.eqb k key then Some v else info_get key rest
  end.

(** What [step] returns. *)
Record StepResult : Type := mkStep {
  observation : Observation;
  reward : Z;
  terminated : bool;
  truncated : bool;
  info : Info
}.

(** * DQN_working.py *)

Module DQN.

(** The fields of [self] set by [__init__]. *)
Record SumoEnv : Type := mkEnv {
  config : list string;
  min_green_steps : Z;
  min_yellow_steps : Z;
  min_pedestrian_steps : Z;
  step_count : Z;
  max_steps : Z;
  cumulative_reward : Z;
  total_queue : Z;
  last_switch_step : Z;
  current_simulation_step : Z;
  episode_count : Z;
  episode_history : list Z;
  reward_history : list Z;
  queue_history : list Num;
  braking_history : list Z
}.

Definition Sumo_config : list string :=
  ["sumo"; "-c"; "config/light.sumocfg"; "--delay"; "1000";
   "--lateral-resolution"; "0"].

Definition __init__ (config : list string) : SumoEnv :=
  let min_green_steps := 5 in
  mkEnv config min_green_steps 3 5 0 1000 0 0 (- min_green_steps) 0 0
        [] [] [] [].

(** Assignments to single fields. *)
Definition set_step_count (v : Z) (e : SumoEnv) : SumoEnv :=
  mkEnv (config e) (min_green_steps e) (min_yellow_steps e)
        (min_pedestrian_steps e) v (max_steps e) (cumulative_reward e)
        (total_queue e) (last_switch_step e) (current_simulation_step e)
        (episode_count e) (episode_history e) (reward_history e)
        (queue_history e) (braking_history e).

Definition set_cumulative_reward (v : Z) (e : SumoEnv) : SumoEnv :=
  mkEnv (config e) (min_green_steps e) (min_yellow_steps e)
        (min_pedestrian_steps e) (step_count e) (max_steps e) v
        (total_queue e) (last_switch_step e) (current_simulation_step e)
        (episode_count e) (episode_history e) (reward_history e)
        (queue_history e) (braking_history e).

Definition set_total_queue (v : Z) (e : SumoEnv) : SumoEnv :=
  mkEnv (config e) (min_green_steps e) (min_yellow_steps e)
        (min_pedestrian_steps e) (step_count e) (max_steps e)
        (cumulative_reward e) v (last_switch_step e)
        (current_simulation_step e) (episode_count e) (episode_history e)
        (reward_history e) (queue_history e) (braking_history e).

Definition set_last_switch_step (v : Z) (e : SumoEnv) : SumoEnv :=
  mkEnv (config e) (min_green_steps e) (min_yellow_steps e)
        (min_pedestrian_steps e) (step_count e) (max_steps e)
        (cumulative_reward e) (total_queue e) v (current_simulation_step e)
        (episode_count e) (episode_history e) (reward_history e)
        (queue_history e) (braking_history e).

Definition set_current_simulation_step (v : Z) (e : SumoEnv) : SumoEnv :=
  mkEnv (config e) (min_green_steps e) (min_yellow_steps e)
        (min_pedestrian_steps e) (step_count e) (max_steps e)
        (cumulative_reward e) (total_queue e) (last_switch_step e) v
        (episode_count e) (episode_history e) (reward_history e)
        (queue_history e) (braking_history e).

Definition set_episode_count (v : Z) (e : SumoEnv) : SumoEnv :=
  mkEnv (config e) (min_green_steps e) (min_yellow_steps e)
        (min_pedestrian_steps e) (step_count e) (max_steps e)
        (cumulative_reward e) (total_queue e) (last_switch_step e)
        (current_simulation_step e) v (episode_history e) (reward_history e)
        (queue_history e) (braking_history e).

(** The three [append]s of [step] when an episode is done. *)
Definition append_histories (ep : Z) (rew : Z) (avg : Num) (e : SumoEnv)
  : SumoEnv :=
  mkEnv (config e) (min_green_steps e) (min_yellow_steps e)
        (min_pedestrian_steps e) (step_count e) (max_steps e)
        (cumulative_reward e) (total_queue e) (last_switch_step e)
        (current_simulation_step e) (episode_count e)
        (episode_history e ++ [ep]) (reward_history e ++ [rew])
        (queue_history e ++ [avg]) (braking_history e).

Definition traffic_light_id : string := "41896158".

Section Methods.
Context {Sim : Type} `{TraCI Sim} {link : Link Sim}.

Local Abbreviation M := (@M SumoEnv Sim).

Definition _get_queue_length (detector_id : string) : M Z :=
  query (CGetLastStepVehicleNumber detector_id)
        (lanearea_getLastStepVehicleNumber detector_id).

Definition _get_current_phase (tls_id : string) : M Z :=
  query (CGetPhase tls_id) (trafficlight_getPhase tls_id).

Definition _get_state : M Observation :=
  q_EB_0 <- _get_queue_length "e2_2" ;;
  q_SB_0 <- _get_queue_length "e2_3" ;;
  q_SB_1 <- _get_queue_length "e2_4" ;;
  q_WB_0 <- _get_queue_length "e2_6" ;;
  q_NB_0 <- _get_queue_length "e2_11" ;;
  q_NB_1 <- _get_queue_length "e2_9" ;;
  current_phase <- _get_current_phase traffic_light_id ;;
  ret [q_EB_0; q_SB_0; q_SB_1; q_WB_0; q_NB_0; q_NB_1; current_phase].

(** The body of the [try] of [_apply_action]. *)
Definition switch_phase (tls_id : string) (current_phase : Z) : M unit :=
  logics <- query (CGetAllProgramLogics tls_id)
                  (trafficlight_getAllProgramLogics tls_id) ;;
  program <- index0 logics ;;
  let num_phases := Z.of_nat (List.length (phases program)) in
  if num_phases =? 0 then ret tt
  else
    let next_phase := (current_phase + 1) mod num_phases in
    command (CSetPhase tls_id next_phase)
            (trafficlight_setPhase tls_id next_phase) ;;
    modify (fun e => set_last_switch_step (current_simulation_step e) e).

Definition _apply_action (action : Z) (tls_id : string) : M unit :=
  if action =? 0 then ret tt
  else if action =? 1 then
    e <- get_env ;;
    if current_simulation_step e - last_switch_step e >=? min_green_steps e
    then
      current_phase <- _get_current_phase tls_id ;;
      try_except (switch_phase tls_id current_phase) (fun _ => ret tt)
    else ret tt
  else ret tt.

Definition reset : M (Observation * Info) :=
  loaded <- isLoaded ;;
  (if loaded then command CClose traci_close else ret tt) ;;
  e <- get_env ;;
  command (CStart (config e) None) (traci_start (config e) None) ;;
  modify (set_step_count 0) ;;
  modify (set_cumulative_reward 0) ;;
  modify (set_total_queue 0) ;;
  modify (fun e => set_last_switch_step (- min_green_steps e) e) ;;
  modify (set_current_simulation_step 0) ;;
  modify (fun e => set_episode_count (episode_count e + 1) e) ;;
  state <- _get_state ;;
  e <- get_env ;;
  ret (state, [("episode", VInt (episode_count e))]).

(** [self.total_queue / self.step_count if self.step_count > 0 else 0] *)
Definition avg_queue_of (e : SumoEnv) : Num :=
  if 0 <? step_count e
  then Div (total_queue e) (step_count e)
  else Exact 0.

(** The [if done:] block of [step]; the summary it prints is left out. *)
Definition episode_summary : M Info :=
  e <- get_env ;;
  let avg_queue := avg_queue_of e in
  modify (append_histories (episode_count e - 1) (cumulative_reward e)
                           avg_queue) ;;
  ret [("episode", VInt (episode_count e));
       ("cumulative_reward", VNum (Exact (cumulative_reward e)));
       ("avg_queue_length", VNum avg_queue)].

Definition step (action : Z) : M StepResult :=
  modify (fun e => set_current_simulation_step (step_count e) e) ;;
  _apply_action action traffic_light_id ;;
  command CSimulationStep traci_simulationStep ;;
  new_state <- _get_state ;;
  let reward := _get_reward new_state in
  modify (fun e => set_cumulative_reward (cumulative_reward e + reward) e) ;;
  modify (fun e =>
            set_total_queue (total_queue e + py_sum (all_but_last new_state))
                            e) ;;
  modify (fun e => set_step_count (step_count e + 1) e) ;;
  e <- get_env ;;
  let terminated := false in
  let truncated := step_count e >=? max_steps e in
  let done := terminated || truncated in
  info <- (if done then episode_summary else ret []) ;;
  ret (mkStep new_state reward terminated truncated info).

Definition close : M unit :=
  loaded <- isLoaded ;;
  if loaded then command CClose traci_close else ret tt.

(** [self.current_simulation_step = self.step_count], the first statement
    of [step]. *)
Definition sync_counter (w : World SumoEnv Sim) : World SumoEnv Sim :=
  mkWorld (set_current_simulation_step (step_count (env w)) (env w))
          (sim w) (calls w).

(** The world once the tick has come back. *)
Definition after_tick (w1 : World SumoEnv Sim) (s2 : Sim)
  : World SumoEnv Sim :=
  mkWorld (env w1) s2 (calls w1 ++ [CSimulationStep]).

End Methods.

End DQN.

(** * PPO.py *)

Module PPO.

Definition Sumo_config : list string :=
  ["sumo-gui"; "-c"; "config/light.sumocfg"; "--step-length"; "1";
   "--delay"; "10"].

Definition TOTAL_EPISODES : Z := 50.
Definition STEPS_PER_EPISODE : Z := 1500.
Definition MIN_GREEN_SECONDS : Z := 10.
Definition YELLOW_SECONDS : Z := 3.

(** The fields of [self] set by [__init__]; [self_id] stands for
    [id(self)], which [reset] puts into the connection label. *)
Record SumoEnv : Type := mkEnv {
  self_id : Z;
  tls_id : string;
  min_green_steps : Z;
  yellow_duration : Z;
  last_switch_step : Z;
  phase_start_step : Z;
  current_phase : Z;
  current_simulation_step : Z;
  total_steps : Z;
  connection_active : bool;
  connection_label : string;
  valid_ids : bool;
  max_retries : Z;
  retry_delay : Z
}.

Definition __init__ (self_id : Z) : SumoEnv :=
  let min_green_steps := MIN_GREEN_SECONDS in
  mkEnv self_id "41896158" min_green_steps YELLOW_SECONDS
        (- min_green_steps) 0 0 0 STEPS_PER_EPISODE false "default" false
        5 2.

Definition set_last_switch_step (v : Z) (e : SumoEnv) : SumoEnv :=
  mkEnv (self_id e) (tls_id e) (min_green_steps e) (yellow_duration e) v
        (phase_start_step e) (current_phase e) (current_simulation_step e)
        (total_steps e) (connection_active e) (connection_label e)
        (valid_ids e) (max_retries e) (retry_delay e).

Definition set_phase_start_step (v : Z) (e : SumoEnv) : SumoEnv :=
  mkEnv (self_id e) (tls_id e) (min_green_steps e) (yellow_duration e)
        (last_switch_step e) v (current_phase e) (current_simulation_step e)
        (total_steps e) (connection_active e) (connection_label e)
        (valid_ids e) (max_retries e) (retry_delay e).

Definition set_current_phase (v : Z) (e : SumoEnv) : SumoEnv :=
  mkEnv (self_id e) (tls_id e) (min_green_steps e) (yellow_duration e)
        (last_switch_step e) (phase_start_step e) v
        (current_simulation_step e) (total_steps e) (connection_active e)
        (connection_label e) (valid_ids e) (max_retries e) (retry_delay e).

Definition set_current_simulation_step (v : Z) (e : SumoEnv) : SumoEnv :=
  mkEnv (self_id e) (tls_id e) (min_green_steps e) (yellow_duration e)
        (last_switch_step e) (phase_start_step e) (current_phase e) v
        (total_steps e) (connection_active e) (connection_label e)
        (valid_ids e) (max_retries e) (retry_delay e).

Definition set_connection_active (v : bool) (e : SumoEnv) : SumoEnv :=
  mkEnv (self_id e) (tls_id e) (min_green_steps e) (yellow_duration e)
        (last_switch_step e) (phase_start_step e) (current_phase e)
        (current_simulation_step e) (total_steps e) v (connection_label e)
        (valid_ids e) (max_retries e) (retry_delay e).

Definition set_connection_label (v : string) (e : SumoEnv) : SumoEnv :=
  mkEnv (self_id e) (tls_id e) (min_green_steps e) (yellow_duration e)
        (last_switch_step e) (phase_start_step e) (current_phase e)
        (current_simulation_step e) (total_steps e) (connection_active e) v
        (valid_ids e) (max_retries e) (retry_delay e).

Definition set_valid_ids (v : bool) (e : SumoEnv) : SumoEnv :=
  mkEnv (self_id e) (tls_id e) (min_green_steps e) (yellow_duration e)
        (last_switch_step e) (phase_start_step e) (current_phase e)
        (current_simulation_step e) (total_steps e) (connection_active e)
        (connection_label e) v (max_retries e) (retry_delay e).

(** [str(n)] for an integer. *)
Definition str_of_Z (n : Z) : string := NilZero.string_of_int (Z.to_int n).

(** [f"sumo_{id(self)}_{retry_count}"] *)
Definition label_of (self_id retry_count : Z) : string :=
  ("sumo_" ++ str_of_Z self_id ++ "_" ++ str_of_Z retry_count)%string.

Definition expected_detectors : list string :=
  ["e2_2"; "e2_3"; "e2_4"; "e2_6"; "e2_11"; "e2_9"].

(** [x in xs] on a list of strings. *)
Definition str_in (x : string) (xs : list string) : bool :=
  existsb (String.eqb x) xs.

Section Methods.
Context {Sim : Type} `{TraCI Sim} {link : Link Sim}.

Local Abbreviation M := (@M SumoEnv Sim).

Definition _get_queue_length (detector_id : string) : M Z :=
  try_except
    (query (CGetLastStepVehicleNumber detector_id)
           (lanearea_getLastStepVehicleNumber detector_id))
    (fun _ => ret 0).

Definition _get_current_phase (tls_id : string) : M Z :=
  try_except (query (CGetPhase tls_id) (trafficlight_getPhase tls_id))
             (fun _ => ret 0).

Definition _validate_ids : M unit :=
  try_except
    (traffic_lights <- query CTrafficlightGetIDList trafficlight_getIDList ;;
     detectors <- query CLaneareaGetIDList lanearea_getIDList ;;
     e <- get_env ;;
     if negb (str_in (tls_id e) traffic_lights) then
       modify (set_valid_ids false)
     else if negb (forallb (fun d => str_in d detectors) expected_detectors)
     then modify (set_valid_ids false)
     else modify (set_valid_ids true))
    (fun _ => modify (set_valid_ids false)).

Definition _get_state : M Observation :=
  e <- get_env ;;
  if negb (valid_ids e) then ret zeros7
  else
    try_except
      (q_EB_0 <- _get_queue_length "e2_2" ;;
       q_SB_0 <- _get_queue_length "e2_3" ;;
       q_SB_1 <- _get_queue_length "e2_4" ;;
       q_WB_0 <- _get_queue_length "e2_6" ;;
       q_NB_0 <- _get_queue_length "e2_11" ;;
       q_NB_1 <- _get_queue_length "e2_9" ;;
       e <- get_env ;;
       current_phase <- _get_current_phase (tls_id e) ;;
       ret [q_EB_0; q_SB_0; q_SB_1; q_WB_0; q_NB_0; q_NB_1; current_phase])
      (fun _ => ret zeros7).

(** The body of the [try] of [_apply_action]. *)
Definition switch_phase : M unit :=
  e <- get_env ;;
  logics <- query (CGetAllProgramLogics (tls_id e))
                  (trafficlight_getAllProgramLogics (tls_id e)) ;;
  program <- index0 logics ;;
  let num_phases := Z.of_nat (List.length (phases program)) in
  if num_phases =? 0 then ret tt
  else
    e <- get_env ;;
    phase <- _get_current_phase (tls_id e) ;;
    let next_phase := (phase + 1) mod num_phases in
    e <- get_env ;;
    command (CSetPhase (tls_id e) next_phase)
            (trafficlight_setPhase (tls_id e) next_phase) ;;
    modify (fun e => set_last_switch_step (current_simulation_step e) e).

Definition _apply_action (action : Z) : M unit :=
  e <- get_env ;;
  if negb (valid_ids e) then ret tt
  else if action =? 0 then ret tt
  else if action =? 1 then
    if current_simulation_step e - last_switch_step e >=? min_green_steps e
    then try_except switch_phase (fun _ => ret tt)
    else ret tt
  else ret tt.

(** The first block of [reset]: drop the connection this environment
    believes it holds. *)
Definition close_previous : M unit :=
  e <- get_env ;;
  if connection_active e then
    finally
      (try_except (command CClose traci_close ;;
                   e <- get_env ;;
                   sleep (retry_delay e))
                  (fun _ => ret tt))
      (modify (set_connection_active false))
  else ret tt.

(** The body of the [try] of [reset]. *)
Definition connect (retry_count : Z) : M unit :=
  modify (fun e => set_connection_label (label_of (self_id e) retry_count) e) ;;
  e <- get_env ;;
  command (CStart Sumo_config (Some (connection_label e)))
          (traci_start Sumo_config (Some (connection_label e))) ;;
  modify (set_connection_active true) ;;
  command CSimulationStep traci_simulationStep ;;
  _validate_ids.

(** What [reset] does once a connection stands. *)
Definition start_episode : M (Observation * Info) :=
  modify (set_current_simulation_step 0) ;;
  modify (fun e => set_last_switch_step (- min_green_steps e) e) ;;
  modify (set_phase_start_step 0) ;;
  modify (set_current_phase 0) ;;
  e <- get_env ;;
  command (CSetPhase (tls_id e) 0) (trafficlight_setPhase (tls_id e) 0) ;;
  state <- _get_state ;;
  ret (state, []).

(** [reset(seed, options, retry_count)] calls itself on a failed attempt.
    The recursion is bounded by [fuel]; [None] means the bound was hit
    before the call came back. *)
Fixpoint reset_fuel (fuel : nat) (retry_count : Z) (w : World SumoEnv Sim)
  : option (Res (Observation * Info) * World SumoEnv Sim) :=
  match fuel with
  | O => None
  | S fuel' =>
      match close_previous w with
      | (Raise e, w0) => Some (Raise e, w0)
      | (Ok _, w0) =>
          match connect retry_count w0 with
          | (Raise (TraCIException msg), w1) =>
              if retry_count <? max_retries (env w1) then
                match sleep (retry_delay (env w1)) w1 with
                | (Raise e, w2) => Some (Raise e, w2)
                | (Ok _, w2) => reset_fuel fuel' (retry_count + 1) w2
                end
              else Some (Raise (TraCIException msg), w1)
          | (Raise e, w1) => Some (Raise e, w1)
          | (Ok _, w1) => Some (start_episode w1)
          end
      end
  end.

(** Calls of [reset] nested below one with this [retry_count], itself
    included. *)
Definition reset_depth (retry_count : Z) (w : World SumoEnv Sim) : nat :=
  S (Z.to_nat (max_retries (env w) - retry_count)).

Definition step (action : Z) : M StepResult :=
  modify (fun e => set_current_simulation_step
                     (current_simulation_step e + 1) e) ;;
  _apply_action action ;;
  early <-
    try_except
      (command CSimulationStep traci_simulationStep ;;
       current_time <- query CGetTime simulation_getTime ;;
       vehicle_count <- query CGetIDCount vehicle_getIDCount ;;
       e <- get_env ;;
       if Qlt_le_dec current_time 0 then
         state <- _get_state ;;
         ret (Some (mkStep state 0 true false
                           [("error", VStr "Negative simulation time")]))
       else if (vehicle_count =? 0)
               && (current_simulation_step e <? total_steps e) then
         state <- _get_state ;;
         ret (Some (mkStep state 0 true false
                           [("error", VStr "No vehicles")]))
       else ret None)
      (fun msg =>
         state <- _get_state ;;
         ret (Some (mkStep state 0 true false [("error", VStr msg)]))) ;;
  match early with
  | Some result => ret result
  | None =>
      new_state <- _get_state ;;
      let reward := _get_reward new_state in
      e <- get_env ;;
      let done := current_simulation_step e >=? total_steps e in
      let truncated := false in
      ret (mkStep new_state reward done truncated [])
  end.

Definition close : M unit :=
  e <- get_env ;;
  if connection_active e then
    try_except (command CClose traci_close ;;
                modify (set_connection_active false))
               (fun _ => ret tt)
  else ret tt.

(** The fields [reset] reads and never assigns. *)
Definition same_settings (e e' : SumoEnv) : Prop :=
  self_id e' = self_id e
  /\ max_retries e' = max_retries e
  /\ retry_delay e' = retry_delay e.

(** [reset(seed, options, retry_count)], with the bound its own test
    [retry_count < self.max_retries] implies. *)
Definition reset (retry_count : Z) (w : World SumoEnv Sim)
  : option (Res (Observation * Info) * World SumoEnv Sim) :=
  reset_fuel (reset_depth retry_count w) retry_count w.

(** [self.current_simulation_step += 1], the first statement of [step]. *)
Definition tick_counter (w : World SumoEnv Sim) : World SumoEnv Sim :=
  mkWorld (set_current_simulation_step (current_simulation_step (env w) + 1)
                                       (env w))
          (sim w) (calls w).

(** The failures and degenerate answers [step] looks for around the tick,
    met in world [w1]: the diagnostic, and the world after the calls made
    up to that point. *)
Inductive degenerate_tick (w1 : World SumoEnv Sim)
  : string -> World SumoEnv Sim -> Prop :=
| TickFails msg s2 :
    traci_simulationStep (sim w1) = (Fail msg, s2) ->
    degenerate_tick w1 msg
      (mkWorld (env w1) s2 (calls w1 ++ [CSimulationStep]))
| TimeQueryFails msg s2 :
    traci_simulationStep (sim w1) = (Done tt, s2) ->
    simulation_getTime s2 = Fail msg ->
    degenerate_tick w1 msg
      (mkWorld (env w1) s2 (calls w1 ++ [CSimulationStep; CGetTime]))
| CountQueryFails msg s2 t :
    traci_simulationStep (sim w1) = (Done tt, s2) ->
    simulation_getTime s2 = Done t ->
    vehicle_getIDCount s2 = Fail msg ->
    degenerate_tick w1 msg
      (mkWorld (env w1) s2
               (calls w1 ++ [CSimulationStep; CGetTime; CGetIDCount]))
| NegativeTime s2 t v :
    traci_simulationStep (sim w1) = (Done tt, s2) ->
    simulation_getTime s2 = Done t ->
    vehicle_getIDCount s2 = Done v ->
    (t < 0)%Q ->
    degenerate_tick w1 "Negative simulation time"
      (mkWorld (env w1) s2
               (calls w1 ++ [CSimulationStep; CGetTime; CGetIDCount]))
| NoVehicles s2 t :
    traci_simulationStep (sim w1) = (Done tt, s2) ->
    simulation_getTime s2 = Done t ->
    vehicle_getIDCount s2 = Done 0 ->
    (0 <= t)%Q ->
    current_simulation_step (env w1) < total_steps (env w1) ->
    degenerate_tick w1 "No vehicles"
      (mkWorld (env w1) s2
               (calls w1 ++ [CSimulationStep; CGetTime; CGetIDCount])).

(** [traci.start] raises [TraCIException] [n] times in a row from
    simulator [s], under the labels of the attempts [retry_count],
    [retry_count + 1], ..., the connection holding at each call; the
    simulator is left at [s'] and the last exception carries [msg]. *)
Inductive start_fails (id : Z)
  : nat -> Z -> Sim -> Sim -> string -> Prop :=
| LastFailure retry_count s s' msg :
    link_down (CStart Sumo_config (Some (label_of id retry_count))) s
    = None ->
    traci_start Sumo_config (Some (label_of id retry_count)) s
    = (Fail msg, s') ->
    start_fails id 1 retry_count s s' msg
| EarlierFailure n retry_count s s1 s' msg1 msg :
    link_down (CStart Sumo_config (Some (label_of id retry_count))) s
    = None ->
    traci_start Sumo_config (Some (label_of id retry_count)) s
    = (Fail msg1, s1) ->
    start_fails id (S n) (retry_count + 1) s1 s' msg ->
    start_fails id (S (S n)) retry_count s s' msg.

(** The calls [reset] issues over [n] failed attempts: a start per attempt
    and a sleep between two attempts. *)
Fixpoint attempt_calls (id delay : Z) (n : nat) (retry_count : Z)
  : list Call :=
  match n with
  | O => []
  | S O => [CStart Sumo_config (Some (label_of id retry_count))]
  | S n' =>
      CStart Sumo_config (Some (label_of id retry_count))
      :: CSleep delay :: attempt_calls id delay n' (retry_count + 1)
  end.

End Methods.

End PPO.

(** * A scripted simulator

    A small simulator behind the TraCI interface, to run the methods on
    concrete inputs: it holds a traffic light with a phase and a program,
    detectors with fixed counts, and switches that make single calls
    fail. *)

Module Toy.

Record ToySim : Type := mkToy {
  loaded : bool;                  (* a connection exists *)
  start_failures : nat;           (* [traci.start] fails this many times *)
  tick_fails : bool;              (* [simulationStep] raises *)
  logics_fail : bool;             (* [getAllProgramLogics] raises *)
  setPhase_fails : bool;          (* [setPhase] raises *)
  close_fails : bool;             (* [traci.close] raises *)
  phase : Z;
  programs : list Logic;
  time : Q;
  vehicles : Z;
  queues : list (string * Z);     (* detector id, vehicles on it *)
  tls_ids : list string
}.

Fixpoint lookup (key : string) (kvs : list (string * Z)) : option Z :=
  match kvs with
  | [] => None
  | (k, v) :: rest => if String.eqb k key then Some v else lookup key rest
  end.

Definition start (cmd : list string) (label : option string) (s : ToySim)
  : Reply unit * ToySim :=
  match start_failures s with
  | O =>
      (Done tt,
       mkToy true O (tick_fails s) (logics_fail s) (setPhase_fails s)
             (close_fails s) (phase s) (programs s) (time s) (vehicles s)
             (queues s) (tls_ids s))
  | S n =>
      (Fail "Could not connect",
       mkToy (loaded s) n (tick_fails s) (logics_fail s) (setPhase_fails s)
             (close_fails s) (phase s) (programs s) (time s) (vehicles s)
             (queues s) (tls_ids s))
  end.

Definition close (s : ToySim) : Reply unit * ToySim :=
  if close_fails s then (Fail "Connection already closed", s)
  else
    (Done tt,
     mkToy false (start_failures s) (tick_fails s) (logics_fail s)
           (setPhase_fails s) (close_fails s) (phase s) (programs s)
           (time s) (vehicles s) (queues s) (tls_ids s)).

Definition simulationStep (s : ToySim) : Reply unit * ToySim :=
  if tick_fails s then (Fail "connection closed by SUMO", s)
  else
    (Done tt,
     mkToy (loaded s) (start_failures s) (tick_fails s) (logics_fail s)
           (setPhase_fails s) (close_fails s) (phase s) (programs s)
           (time s + 1)%Q (vehicles s) (queues s) (tls_ids s)).

Definition getPhase (tls_id : string) (s : ToySim) : Reply Z :=
  if existsb (String.eqb tls_id) (tls_ids s) then Done (phase s)
  else Fail "Traffic light is not known".

Definition getAllProgramLogics (tls_id : string) (s : ToySim)
  : Reply (list Logic) :=
  if logics_fail s then Fail "Traffic light is not known"
  else Done (programs s).

Definition setPhase (tls_id : string) (p : Z) (s : ToySim)
  : Reply unit * ToySim :=
  if setPhase_fails s then (Fail "Phase index is not valid", s)
  else
    (Done tt,
     mkToy (loaded s) (start_failures s) (tick_fails s) (logics_fail s)
           (setPhase_fails s) (close_fails s) p (programs s) (time s)
           (vehicles s) (queues s) (tls_ids s)).

Definition getLastStepVehicleNumber (detector_id : string) (s : ToySim)
  : Reply Z :=
  match lookup detector_id (queues s) with
  | Some n => Done n
  | None => Fail "Lane area detector is not known"
  end.

#[global] Instance toy_traci : TraCI ToySim := {
  traci_isLoaded := loaded;
  traci_start := start;
  traci_close := close;
  traci_simulationStep := simulationStep;
  simulation_getTime := fun s => Done (time s);
  vehicle_getIDCount := fun s => Done (vehicles s);
  trafficlight_getIDList := fun s => Done (tls_ids s);
  lanearea_getIDList := fun s => Done (map fst (queues s));
  trafficlight_getPhase := getPhase;
  trafficlight_getAllProgramLogics := getAllProgramLogics;
  trafficlight_setPhase := setPhase;
  lanearea_getLastStepVehicleNumber := getLastStepVehicleNumber
}.

(** A four-phase program, as a two-way junction has. *)
Definition four_phases : Logic :=
  {| programID := "0";
     phases := [ {| duration := 30; state := "GGrr" |};
                 {| duration := 3; state := "yyrr" |};
                 {| duration := 30; state := "rrGG" |};
                 {| duration := 3; state := "rryy" |} ] |}.

(** The six detectors of the sources, with queues [1,0,2,0,1,0]. *)
Definition six_detectors : list (string * Z) :=
  [("e2_2", 1); ("e2_3", 0); ("e2_4", 2); ("e2_6", 0); ("e2_11", 1);
   ("e2_9", 0)].

(** A running simulation of the junction with 12 vehicles, at phase [p]. *)
Definition junction (p : Z) : ToySim :=
  mkToy true O false false false false p [four_phases] 0 12 six_detectors
        ["41896158"].

(** The same junction before any connection, whose next [n] connection
    attempts fail. *)
Definition unreachable (n : nat) : ToySim :=
  mkToy false n false false false false 0 [four_phases] 0 12 six_detectors
        ["41896158"].

(** The junction with a signal that rejects every phase command. *)
Definition stuck_signal (p : Z) : ToySim :=
  mkToy true O false false true false p [four_phases] 0 12 six_detectors
        ["41896158"].

(** The junction on a link that breaks at the next tick. *)
Definition dead_link (p : Z) : ToySim :=
  mkToy true O true false false false p [four_phases] 0 12 six_detectors
        ["41896158"].

(** The junction with no vehicle in the network. *)
Definition empty_road (p : Z) : ToySim :=
  mkToy true O false false false false p [four_phases] 0 0 six_detectors
        ["41896158"].

(** The junction with a clock that reads -4 after the next tick. *)
Definition clock_error (p : Z) : ToySim :=
  mkToy true O false false false false p [four_phases] (-5) 12 six_detectors
        ["41896158"].

(** The junction in a network file that lacks detector [e2_9], before any
    connection. *)
Definition short_of_a_detector : ToySim :=
  mkToy false O false false false false 0 [four_phases] 0 12
        (removelast six_detectors) ["41896158"].

End Toy.

(** * Vocabulary of the further statements *)

(** The value a fail-soft query of [PPO.py] reads from a reply. *)
Definition or_zero (r : Reply Z) : Z :=
  match r with
  | Done n => n
  | Fail _ => 0
  end.

(** The values of the replies before the first failure. *)
Fixpoint answered (replies : list (Reply Z)) : list Z :=
  match replies with
  | Done n :: rest => n :: answered rest
  | _ => []
  end.

(** The message of the first failure among the replies. *)
Fixpoint first_failure (replies : list (Reply Z)) : option string :=
  match replies with
  | [] => None
  | Done _ :: rest => first_failure rest
  | Fail msg :: _ => Some msg
  end.

(** The two queries with which [step] of [PPO.py] looks for a degenerate
    simulation. *)
Definition asks_time_or_count (c : Call) : bool :=
  match c with
  | CGetTime | CGetIDCount => true
  | _ => false
  end.

(** The detectors in the order [_get_state] reads them, in both files. *)
Definition detector_ids : list string :=
  ["e2_2"; "e2_3"; "e2_4"; "e2_6"; "e2_11"; "e2_9"].

(** The calls of one pass of [_get_state] and what the simulator answers
    to them. *)
Definition observation_queries (tls_id : string) : list Call :=
  map CGetLastStepVehicleNumber detector_ids ++ [CGetPhase tls_id].

Definition observation_replies {Sim : Type} `{TraCI Sim} (tls_id : string)
           (s : Sim) : list (Reply Z) :=
  map (fun d => lanearea_getLastStepVehicleNumber d s) detector_ids
  ++ [trafficlight_getPhase tls_id s].

(** ** [EpisodeCallback] of [DQN_working.py] *)

Module Callback.

Record EpisodeCallback : Type := mkCallback {
  total_episodes : Z;
  current_episode : Z
}.

Definition __init__ (total_episodes : Z) : EpisodeCallback :=
  mkCallback total_episodes 0.

(** [_on_step], given the fields of [self.env] at the time of the call:
    whether training goes on, and the callback after the call. *)
Definition _on_step (e : DQN.SumoEnv) (cb : EpisodeCallback)
  : bool * EpisodeCallback :=
  if DQN.step_count e >=? DQN.max_steps e then
    let cb' := mkCallback (total_episodes cb) (current_episode cb + 1) in
    if current_episode cb' >=? total_episodes cb' then (false, cb')
    else (true, cb')
  else (true, cb).

(** Successive calls of [_on_step], one per environment state seen: the
    answers in order and the callback after the last call. *)
Fixpoint on_steps (seen : list DQN.SumoEnv) (cb : EpisodeCallback)
  : list bool * EpisodeCallback :=
  match seen with
  | [] => ([], cb)
  | e :: rest =>
      let (go, cb') := _on_step e cb in
      let (answers, cb'') := on_steps rest cb' in
      (go :: answers, cb'')
  end.

(** Whether an environment has used up its step budget. *)
Definition at_budget (e : DQN.SumoEnv) : bool :=
  DQN.step_count e >=? DQN.max_steps e.

End Callback.

(** ** Further scripted scenes *)

Module Scene.

(** The junction when the simulator reports no program at all. *)
Definition no_program : Toy.ToySim :=
  Toy.mkToy true O false false false false 0 [] 0 12 Toy.six_detectors
            ["41896158"].

(** The junction when its only program has no phase. *)
Definition bare_program : Toy.ToySim :=
  Toy.mkToy true O false false false false 0
            [ {| programID := "0"; phases := [] |} ] 0 12 Toy.six_detectors
            ["41896158"].

(** A network whose traffic light the phase query does not know. *)
Definition unknown_light : Toy.ToySim :=
  Toy.mkToy true O false false false false 0 [Toy.four_phases] 0 12
            Toy.six_detectors [].

(** Before any connection: the start will come back, the first tick will
    raise. *)
Definition half_open : Toy.ToySim :=
  Toy.mkToy false O true false false false 0 [Toy.four_phases] 0 12
            Toy.six_detectors ["41896158"].

(** Before any connection: the signal will reject every phase command. *)
Definition stuck_at_start : Toy.ToySim :=
  Toy.mkToy false O false false true false 0 [Toy.four_phases] 0 12
            Toy.six_detectors ["41896158"].

(** A loaded connection that cannot be closed. *)
Definition jammed : Toy.ToySim :=
  Toy.mkToy true O false false false true 0 [Toy.four_phases] 0 12
            Toy.six_detectors ["41896158"].

(** A loaded connection, with a simulator that will not start again. *)
Definition last_session : Toy.ToySim :=
  Toy.mkToy true 1 false false false false 0 [Toy.four_phases] 0 12
            Toy.six_detectors ["41896158"].

(** The scripted failures as the client reports a lost connection: a
    start the simulator refuses and a tick on a broken link raise
    [FatalTraCIError] instead of [TraCIException]. *)
Definition real_client : Link Toy.ToySim := {|
  link_down := fun c s =>
    match c with
    | CStart _ _ =>
        match Toy.start_failures s with
        | O => None
        | S _ => Some "Could not connect"
        end
    | CSimulationStep =>
        if Toy.tick_fails s then Some "connection closed by SUMO" else None
    | _ => None
    end
|}.

(** Environments as [__init__] leaves them, on a given simulator; for
    [PPO.py] also with the identifiers validated. *)
Definition dqn_on (s : Toy.ToySim) : World DQN.SumoEnv Toy.ToySim :=
  mkWorld (DQN.__init__ DQN.Sumo_config) s [].

Definition ppo_new (s : Toy.ToySim) : World PPO.SumoEnv Toy.ToySim :=
  mkWorld (PPO.__init__ 7) s [].

Definition ppo_on (s : Toy.ToySim) : World PPO.SumoEnv Toy.ToySim :=
  mkWorld (PPO.set_valid_ids true (PPO.__init__ 7)) s [].

End Scene.

(** * Properties of the reward *)

Lemma fold_left_add_shift (xs : list Z) (a : Z) :
  fold_left Z.add xs a = a + fold_left Z.add xs 0.
Proof.
  revert a; induction xs as [|x xs IH]; intro a; simpl.
  - lia.
  - rewrite (IH (a + x)), (IH x). lia.
Qed.

Lemma py_sum_cons (x : Z) (xs : list Z) : py_sum (x :: xs) = x + py_sum xs.
Proof. unfold py_sum; simpl. apply fold_left_add_shift. Qed.

Lemma py_sum_fold_right (xs : list Z) : py_sum xs = fold_right Z.add 0 xs.
Proof.
  induction xs as [|x xs IH]; [reflexivity|].
  rewrite py_sum_cons, IH. reflexivity.
Qed.

Lemma all_but_last_snoc (queues : list Z) (phase : Z) :
  all_but_last (queues ++ [phase]) = queues.
Proof. apply removelast_last. Qed.

Lemma py_sum_nonneg (xs : list Z) :
  Forall (fun q => 0 <= q) xs -> 0 <= py_sum xs.
Proof.
  induction 1 as [|x xs Hx _ IH]; [reflexivity|].
  rewrite py_sum_cons. lia.
Qed.

Lemma py_sum_zero_iff (xs : list Z) :
  Forall (fun q => 0 <= q) xs ->
  (py_sum xs = 0 <-> Forall (fun q => q = 0) xs).
Proof.
  induction 1 as [|x xs Hx Hxs IH].
  - split; [constructor | reflexivity].
  - rewrite py_sum_cons. pose proof (py_sum_nonneg Hxs) as Hs. split.
    + intro Hz. constructor; [lia|]. apply IH. lia.
    + intro Hall. inversion Hall as [|? ? H0 Hrest]; subst.
      apply IH in Hrest. lia.
Qed.

(** C5. The reward of an observation [queues ++ [phase]] is minus the sum of
    its queue fields, the trailing phase field left out; when no queue field
    is negative the reward is at most 0, and it is 0 exactly when every
    queue field is 0. *)
Theorem reward_is_negated_queue_sum (queues : list Z) (phase : Z) :
  _get_reward (queues ++ [phase]) = - fold_right Z.add 0 queues
  /\ (Forall (fun q => 0 <= q) queues ->
      _get_reward (queues ++ [phase]) <= 0
      /\ (_get_reward (queues ++ [phase]) = 0
          <-> Forall (fun q => q = 0) queues)).
Proof.
  unfold _get_reward. rewrite all_but_last_snoc. split.
  - now rewrite py_sum_fold_right.
  - intro Hq. pose proof (py_sum_nonneg Hq) as Hs.
    pose proof (py_sum_zero_iff Hq) as Hz. split; [lia|].
    split; intro Hr.
    + apply Hz. lia.
    + apply Hz in Hr. lia.
Qed.

(** The spec's scenario: queues [1,0,2,0,1,0] at phase 0 give reward -4. *)
Lemma reward_is_negated_queue_sum_witness :
  Forall (fun q => 0 <= q) [1; 0; 2; 0; 1; 0]
  /\ _get_reward ([1; 0; 2; 0; 1; 0] ++ [0]) = - 4
  /\ _get_reward ([1; 0; 2; 0; 1; 0] ++ [0]) <= 0.
Proof.
  assert (Hq : Forall (fun q => 0 <= q) [1; 0; 2; 0; 1; 0])
    by (repeat constructor; lia).
  split; [exact Hq|].
  destruct (reward_is_negated_queue_sum [1; 0; 2; 0; 1; 0] 0) as [Heq Hle].
  split; [exact Heq | exact (proj1 (Hle Hq))].
Defined.

(** * The phase controller: [_apply_action] *)

(** Unfolds the monad down to matches on the simulator's replies. *)
Ltac run :=
  change (1 =? 0) with false in *; change (1 =? 1) with true in *;
  cbv beta iota zeta delta
      [bind ret raise get_env modify query command try_except finally
       index0 sleep isLoaded log lift_reply] in *;
  cbn [env sim calls negb link_down reliable_link] in *.

Lemma nonempty_phases (program : Logic) :
  phases program <> [] ->
  (Z.of_nat (List.length (phases program)) =? 0) = false.
Proof.
  intro Hne. apply Z.eqb_neq. destruct (phases program); [congruence|].
  simpl List.length. lia.
Qed.

Section PhaseController.
Context {Sim : Type} `{TraCI Sim}.

(** C2. When fewer than [min_green_steps] steps have passed since
    [last_switch_step], action 1 returns with the world as it was: phase and
    [last_switch_step] are unchanged and no call reaches the simulator.
    This holds in both files. *)
Theorem advance_before_dwell_is_noop :
  (forall (w : World DQN.SumoEnv Sim) (tls_id : string),
      DQN.current_simulation_step (env w) - DQN.last_switch_step (env w)
      < DQN.min_green_steps (env w) ->
      DQN._apply_action 1 tls_id w = (Ok tt, w))
  /\ (forall w : World PPO.SumoEnv Sim,
         PPO.current_simulation_step (env w) - PPO.last_switch_step (env w)
         < PPO.min_green_steps (env w) ->
         PPO._apply_action 1 w = (Ok tt, w)).
Proof.
  split; intros w; [intros tls_id|]; intro Hdwell.
  - unfold DQN._apply_action. run.
    destruct (_ >=? _) eqn:Hge; [|reflexivity].
    apply Z.geb_le in Hge. lia.
  - unfold PPO._apply_action. run.
    destruct (PPO.valid_ids _); [|reflexivity]. cbv iota.
    destruct (_ >=? _) eqn:Hge; [|reflexivity].
    apply Z.geb_le in Hge. lia.
Qed.

(** C1, as the code has it.  When at least [min_green_steps] steps have
    passed since [last_switch_step], the phase query, the program query and
    the phase command succeed, and the first program has a phase, action 1
    commands phase [(current + 1) mod number_of_phases], the number read
    from that program, and sets [last_switch_step] to the current step.
    In [PPO.py] this needs [valid_ids] to be true: while it is false,
    [_apply_action] returns before the dwell test and leaves the world as
    it is, whatever the action and whatever the connection does. *)
Theorem advance_after_dwell_switches :
  (forall (w : World DQN.SumoEnv Sim) (tls_id : string) (cur : Z)
          (program : Logic) (others : list Logic) (s' : Sim),
      DQN.min_green_steps (env w)
      <= DQN.current_simulation_step (env w) - DQN.last_switch_step (env w) ->
      trafficlight_getPhase tls_id (sim w) = Done cur ->
      trafficlight_getAllProgramLogics tls_id (sim w)
      = Done (program :: others) ->
      phases program <> [] ->
      let next := (cur + 1) mod Z.of_nat (List.length (phases program)) in
      trafficlight_setPhase tls_id next (sim w) = (Done tt, s') ->
      DQN._apply_action 1 tls_id w
      = (Ok tt,
         mkWorld (DQN.set_last_switch_step
                    (DQN.current_simulation_step (env w)) (env w))
                 s'
                 (calls w ++ [CGetPhase tls_id; CGetAllProgramLogics tls_id;
                              CSetPhase tls_id next])))
  /\ (forall (w : World PPO.SumoEnv Sim) (cur : Z) (program : Logic)
             (others : list Logic) (s' : Sim),
         PPO.valid_ids (env w) = true ->
         PPO.min_green_steps (env w)
         <= PPO.current_simulation_step (env w)
            - PPO.last_switch_step (env w) ->
         let tls_id := PPO.tls_id (env w) in
         trafficlight_getAllProgramLogics tls_id (sim w)
         = Done (program :: others) ->
         phases program <> [] ->
         trafficlight_getPhase tls_id (sim w) = Done cur ->
         let next := (cur + 1) mod Z.of_nat (List.length (phases program)) in
         trafficlight_setPhase tls_id next (sim w) = (Done tt, s') ->
         PPO._apply_action 1 w
         = (Ok tt,
            mkWorld (PPO.set_last_switch_step
                       (PPO.current_simulation_step (env w)) (env w))
                    s'
                    (calls w ++ [CGetAllProgramLogics tls_id;
                                 CGetPhase tls_id; CSetPhase tls_id next])))
  /\ (forall (link : Link Sim) (w : World PPO.SumoEnv Sim) (action : Z),
         PPO.valid_ids (env w) = false ->
         PPO._apply_action (link := link) action w = (Ok tt, w)).
Proof.
  split; [|split].
  - intros w tls_id cur program others s' Hdwell Hphase Hlogics Hne next Hset.
    unfold DQN._apply_action, DQN._get_current_phase, DQN.switch_phase. run.
    apply Z.geb_le in Hdwell. rewrite Hdwell, Hphase, Hlogics. run.
    rewrite (nonempty_phases _ Hne). subst next. run. rewrite Hset.
    now rewrite <- !app_assoc.
  - intros w cur program others s' Hvalid Hdwell tls_id Hlogics Hne Hphase
           next Hset.
    unfold PPO._apply_action, PPO.switch_phase, PPO._get_current_phase. run.
    apply Z.geb_le in Hdwell. subst tls_id.
    rewrite Hvalid, Hdwell. run. rewrite Hlogics. run.
    rewrite (nonempty_phases _ Hne). run. rewrite Hphase. subst next. run.
    rewrite Hset.
    now rewrite <- !app_assoc.
  - intros link w action Hinvalid. unfold PPO._apply_action. run.
    now rewrite Hinvalid.
Qed.

(** C7. When action 1 passes the dwell check and the program query or the
    phase command raises [TraCIException], [_apply_action] returns normally
    and every field of [self] is as before; in particular
    [last_switch_step] is not advanced.  This holds in both files; in
    [PPO.py] the phase the command carries comes from
    [_get_current_phase], which reads 0 when its own query fails. *)
Theorem failed_switch_leaves_controller_unchanged :
  (forall (w : World DQN.SumoEnv Sim) (tls_id : string) (cur : Z),
      DQN.min_green_steps (env w)
      <= DQN.current_simulation_step (env w) - DQN.last_switch_step (env w) ->
      trafficlight_getPhase tls_id (sim w) = Done cur ->
      (exists msg,
          trafficlight_getAllProgramLogics tls_id (sim w) = Fail msg)
      \/ (exists program others msg s',
             trafficlight_getAllProgramLogics tls_id (sim w)
             = Done (program :: others)
             /\ phases program <> []
             /\ trafficlight_setPhase
                  tls_id
                  ((cur + 1) mod Z.of_nat (List.length (phases program)))
                  (sim w)
                = (Fail msg, s')) ->
      exists w', DQN._apply_action 1 tls_id w = (Ok tt, w')
                 /\ env w' = env w)
  /\ (forall w : World PPO.SumoEnv Sim,
         PPO.min_green_steps (env w)
         <= PPO.current_simulation_step (env w)
            - PPO.last_switch_step (env w) ->
         let tls_id := PPO.tls_id (env w) in
         let cur := match trafficlight_getPhase tls_id (sim w) with
                    | Done p => p
                    | Fail _ => 0
                    end in
         (exists msg,
             trafficlight_getAllProgramLogics tls_id (sim w) = Fail msg)
         \/ (exists program others msg s',
                trafficlight_getAllProgramLogics tls_id (sim w)
                = Done (program :: others)
                /\ phases program <> []
                /\ trafficlight_setPhase
                     tls_id
                     ((cur + 1) mod Z.of_nat (List.length (phases program)))
                     (sim w)
                   = (Fail msg, s')) ->
         exists w', PPO._apply_action 1 w = (Ok tt, w')
                    /\ env w' = env w).
Proof.
  split.
  - intros w tls_id cur Hdwell Hphase Hfail.
    unfold DQN._apply_action, DQN._get_current_phase, DQN.switch_phase. run.
    apply Z.geb_le in Hdwell. rewrite Hdwell, Hphase. run.
    destruct Hfail as [[msg Hlogics]
                      |(program & others & msg & s' & Hlogics & Hne & Hset)];
      rewrite Hlogics; run.
    + eexists; split; reflexivity.
    + rewrite (nonempty_phases _ Hne). run. rewrite Hset.
      eexists; split; reflexivity.
  - intros w Hdwell tls_id cur Hfail.
    unfold PPO._apply_action, PPO.switch_phase, PPO._get_current_phase. run.
    destruct (PPO.valid_ids (env w)); run;
      [|eexists; split; reflexivity].
    apply Z.geb_le in Hdwell. rewrite Hdwell. subst cur tls_id.
    destruct Hfail as [[msg Hlogics]
                      |(program & others & msg & s' & Hlogics & Hne & Hset)];
      rewrite Hlogics; run.
    + eexists; split; reflexivity.
    + rewrite (nonempty_phases _ Hne). run.
      destruct (trafficlight_getPhase _ _) as [p|m]; run; rewrite Hset;
        eexists; split; reflexivity.
Qed.

End PhaseController.

(** ** The phase controller on the scripted junction *)

(** Three steps after a switch at step 0, with [min_green_steps] 5 (DQN) and
    10 (PPO): action 1 does nothing. *)
Lemma advance_before_dwell_is_noop_witness :
  (let w := mkWorld (DQN.set_current_simulation_step
                       3 (DQN.set_last_switch_step
                            0 (DQN.__init__ DQN.Sumo_config)))
                    (Toy.junction 0) [] in
   DQN._apply_action 1 DQN.traffic_light_id w = (Ok tt, w))
  /\ (let w := mkWorld (PPO.set_current_simulation_step
                          3 (PPO.set_last_switch_step
                               0 (PPO.set_valid_ids true (PPO.__init__ 7))))
                       (Toy.junction 0) [] in
      PPO._apply_action 1 w = (Ok tt, w)).
Proof.
  split; cbv zeta.
  - apply (proj1 advance_before_dwell_is_noop). vm_compute. reflexivity.
  - apply (proj2 advance_before_dwell_is_noop). vm_compute. reflexivity.
Defined.

(** At the first step of an episode the dwell test passes
    ([0 - (-min_green_steps)]); from phase 3 of the four-phase program,
    action 1 commands phase 0 and records the switch. *)
Lemma advance_after_dwell_switches_witness :
  (let w := mkWorld (DQN.__init__ DQN.Sumo_config) (Toy.junction 3) [] in
   DQN._apply_action 1 DQN.traffic_light_id w
   = (Ok tt,
      mkWorld (DQN.set_last_switch_step 0 (env w)) (Toy.junction 0)
              [CGetPhase "41896158"; CGetAllProgramLogics "41896158";
               CSetPhase "41896158" 0]))
  /\ (let w := mkWorld (PPO.set_valid_ids true (PPO.__init__ 7))
                       (Toy.junction 3) [] in
      PPO._apply_action 1 w
      = (Ok tt,
         mkWorld (PPO.set_last_switch_step 0 (env w)) (Toy.junction 0)
                 [CGetAllProgramLogics "41896158"; CGetPhase "41896158";
                  CSetPhase "41896158" 0]))
  /\ (let w := mkWorld (PPO.__init__ 7) (Toy.junction 3) [] in
      PPO._apply_action (link := Scene.real_client) 1 w = (Ok tt, w)).
Proof.
  split; [|split]; cbv zeta.
  - apply (proj1 advance_after_dwell_switches
                 (mkWorld (DQN.__init__ DQN.Sumo_config) (Toy.junction 3) [])
                 DQN.traffic_light_id 3 Toy.four_phases [] (Toy.junction 0)).
    + vm_compute. discriminate.
    + reflexivity.
    + reflexivity.
    + discriminate.
    + reflexivity.
  - apply (proj1 (proj2 advance_after_dwell_switches)
                 (mkWorld (PPO.set_valid_ids true (PPO.__init__ 7))
                          (Toy.junction 3) [])
                 3 Toy.four_phases [] (Toy.junction 0)).
    + reflexivity.
    + vm_compute. discriminate.
    + reflexivity.
    + discriminate.
    + reflexivity.
    + reflexivity.
  - apply (proj2 (proj2 advance_after_dwell_switches) Scene.real_client
                 (mkWorld (PPO.__init__ 7) (Toy.junction 3) []) 1).
    reflexivity.
Defined.

(** The signal rejects the command: [last_switch_step] keeps its value. *)
Lemma failed_switch_leaves_controller_unchanged_witness :
  (exists w',
      DQN._apply_action
        1 DQN.traffic_light_id
        (mkWorld (DQN.__init__ DQN.Sumo_config) (Toy.stuck_signal 3) [])
      = (Ok tt, w')
      /\ env w' = DQN.__init__ DQN.Sumo_config)
  /\ (exists w',
         PPO._apply_action
           1 (mkWorld (PPO.set_valid_ids true (PPO.__init__ 7))
                      (Toy.stuck_signal 3) [])
         = (Ok tt, w')
         /\ env w' = PPO.set_valid_ids true (PPO.__init__ 7)).
Proof.
  split.
  - apply (proj1 failed_switch_leaves_controller_unchanged
                 (mkWorld (DQN.__init__ DQN.Sumo_config)
                          (Toy.stuck_signal 3) [])
                 DQN.traffic_light_id 3).
    + vm_compute. discriminate.
    + reflexivity.
    + right. exists Toy.four_phases, [], "Phase index is not valid",
        (Toy.stuck_signal 3).
      split; [reflexivity|]. split; [discriminate | reflexivity].
  - apply (proj2 failed_switch_leaves_controller_unchanged
                 (mkWorld (PPO.set_valid_ids true (PPO.__init__ 7))
                          (Toy.stuck_signal 3) [])).
    + vm_compute. discriminate.
    + right. exists Toy.four_phases, [], "Phase index is not valid",
        (Toy.stuck_signal 3).
      split; [reflexivity|]. split; [discriminate | reflexivity].
Defined.

(** After [reset] on a network that lacks detector [e2_9], [valid_ids] is
    false.  At the first step the dwell test passes, the program has four
    phases and every call would succeed, yet action 1 leaves the world as
    it is: no phase command, [last_switch_step] still -10. *)
Lemma advance_after_dwell_counterexample :
  match PPO.reset 0 (mkWorld (PPO.__init__ 7) Toy.short_of_a_detector [])
  with
  | Some (Ok _, w1) =>
      let w := PPO.tick_counter w1 in
      let tls_id := PPO.tls_id (env w) in
      PPO.min_green_steps (env w)
      <= PPO.current_simulation_step (env w) - PPO.last_switch_step (env w)
      /\ trafficlight_getAllProgramLogics tls_id (sim w)
         = Done [Toy.four_phases]
      /\ trafficlight_getPhase tls_id (sim w) = Done 0
      /\ fst (trafficlight_setPhase tls_id ((0 + 1) mod 4) (sim w)) = Done tt
      /\ PPO._apply_action 1 w = (Ok tt, w)
      /\ PPO.last_switch_step (env w) <> PPO.current_simulation_step (env w)
  | _ => False
  end.
Proof. vm_compute. repeat split; discriminate. Qed.

(** * Observations and steps *)

(** Splits on the replies the goal or a hypothesis still matches on. *)
Ltac split_replies :=
  repeat match goal with
         | |- context [match ?r with Done _ => _ | Fail _ => _ end] =>
             destruct r; run
         | H : context [match ?r with Done _ => _ | Fail _ => _ end] |- _ =>
             destruct r; run
         | |- context [let (_, _) := ?p in _] =>
             let E := fresh "E" in destruct p eqn:E; run
         | H : context [let (_, _) := ?p in _] |- _ =>
             let E := fresh "E" in destruct p eqn:E; run
         end.

Section Steps.
Context {Sim : Type} `{TraCI Sim}.

Lemma dqn_get_state_env (w w' : World DQN.SumoEnv Sim)
      (r : Res Observation) :
  DQN._get_state w = (r, w') -> env w' = env w.
Proof.
  unfold DQN._get_state, DQN._get_queue_length, DQN._get_current_phase.
  run. intro Hrun. split_replies; inversion Hrun; reflexivity.
Qed.

Lemma ppo_get_state_total (w : World PPO.SumoEnv Sim) :
  exists o w', PPO._get_state w = (Ok o, w')
               /\ env w' = env w /\ sim w' = sim w
               /\ List.length o = 7%nat.
Proof.
  unfold PPO._get_state, PPO._get_queue_length, PPO._get_current_phase.
  run. destruct (PPO.valid_ids (env w)); run.
  - split_replies; eexists; eexists; repeat split; reflexivity.
  - eexists; eexists; repeat split; reflexivity.
Qed.

Lemma dqn_apply_action_env (action : Z) (tls_id : string)
      (w w' : World DQN.SumoEnv Sim) (r : Res unit) :
  DQN._apply_action action tls_id w = (r, w') ->
  env w' = env w
  \/ env w' = DQN.set_last_switch_step (DQN.current_simulation_step (env w))
                                       (env w).
Proof.
  unfold DQN._apply_action, DQN._get_current_phase, DQN.switch_phase.
  run. intro Hrun.
  destruct (action =? 0); run; [inversion Hrun; now left|].
  destruct (action =? 1); run; [|inversion Hrun; now left].
  destruct (_ >=? _); run; [|inversion Hrun; now left].
  destruct (trafficlight_getPhase _ _); run; [|inversion Hrun; now left].
  destruct (trafficlight_getAllProgramLogics _ _) as [[|program others]|];
    run; try (inversion Hrun; now left).
  destruct (_ =? 0); run; [inversion Hrun; now left|].
  destruct (trafficlight_setPhase _ _ _) as [[[]|msg] s']; run;
    inversion Hrun; [now right | now left].
Qed.

Lemma ppo_apply_action_env (action : Z) (w w' : World PPO.SumoEnv Sim)
      (r : Res unit) :
  PPO._apply_action action w = (r, w') ->
  env w' = env w
  \/ env w' = PPO.set_last_switch_step (PPO.current_simulation_step (env w))
                                       (env w).
Proof.
  unfold PPO._apply_action, PPO.switch_phase, PPO._get_current_phase.
  run. intro Hrun.
  destruct (PPO.valid_ids (env w)); run; [|inversion Hrun; now left].
  destruct (action =? 0); run; [inversion Hrun; now left|].
  destruct (action =? 1); run; [|inversion Hrun; now left].
  destruct (_ >=? _); run; [|inversion Hrun; now left].
  destruct (trafficlight_getAllProgramLogics _ _) as [[|program others]|];
    run; try (inversion Hrun; now left).
  destruct (_ =? 0); run; [inversion Hrun; now left|].
  destruct (trafficlight_getPhase _ _); run;
    destruct (trafficlight_setPhase _ _ _) as [[[]|?] s']; run;
    inversion Hrun; solve [now right | now left].
Qed.

(** Projections of the DQN environment through its field assignments. *)
Ltac dqn_fields :=
  cbn [DQN.step_count DQN.max_steps DQN.current_simulation_step
       DQN.last_switch_step DQN.min_green_steps DQN.cumulative_reward
       DQN.total_queue DQN.episode_count DQN.set_step_count
       DQN.set_total_queue DQN.set_cumulative_reward
       DQN.set_last_switch_step DQN.set_current_simulation_step
       DQN.set_episode_count DQN.append_histories orb env sim calls] in *.

(** What every normal return of the DQN [step] looks like. *)
Lemma dqn_step_inv (action : Z) (w w' : World DQN.SumoEnv Sim)
      (r : StepResult) :
  DQN.step action w = (Ok r, w') ->
  terminated r = false
  /\ truncated r = (DQN.step_count (env w') >=? DQN.max_steps (env w'))
  /\ DQN.step_count (env w') = DQN.step_count (env w) + 1
  /\ DQN.max_steps (env w') = DQN.max_steps (env w).
Proof.
  unfold DQN.step, DQN.episode_summary. run.
  destruct (DQN._apply_action _ _ _) as [[[]|e] w1] eqn:Ea; run;
    [|discriminate].
  apply dqn_apply_action_env in Ea. cbn [env] in Ea.
  destruct (traci_simulationStep (sim w1)) as [[[]|msg] s2]; run;
    [|discriminate].
  destruct (DQN._get_state _) as [[o|e] w3] eqn:Es; run; [|discriminate].
  apply dqn_get_state_env in Es. cbn [env] in Es. dqn_fields.
  assert (Hcount : DQN.step_count (env w3) = DQN.step_count (env w)
                   /\ DQN.max_steps (env w3) = DQN.max_steps (env w))
    by (rewrite Es; destruct Ea as [-> | ->]; split; reflexivity).
  destruct Hcount as [Hcount Hmax].
  destruct (_ >=? _) eqn:Hge; intro Hrun; inversion Hrun; subst; clear Hrun;
    dqn_fields; rewrite Hcount, Hmax in *; rewrite Hge; auto.
Qed.

(** The DQN [step] returns once its calls come back. *)
Lemma dqn_step_returns (action : Z) (w w1 w3 : World DQN.SumoEnv Sim)
      (s2 : Sim) (o : Observation) :
  DQN._apply_action action DQN.traffic_light_id (DQN.sync_counter w)
  = (Ok tt, w1) ->
  traci_simulationStep (sim w1) = (Done tt, s2) ->
  DQN._get_state (DQN.after_tick w1 s2) = (Ok o, w3) ->
  exists r w', DQN.step action w = (Ok r, w')
               /\ observation r = o /\ reward r = _get_reward o.
Proof.
  unfold DQN.sync_counter, DQN.after_tick. intros Ha Htick Hstate.
  unfold DQN.step, DQN.episode_summary. run.
  rewrite Ha. run. rewrite Htick. run. rewrite Hstate. run.
  destruct (_ || _); run; eexists; eexists; repeat split; reflexivity.
Qed.

(** C10. In [DQN_working.py], every result [step] returns has
    [terminated] false, so [done] holds only through [truncated], that is
    only once [step_count] has reached [max_steps]; and [step] does return
    whenever the calls it makes come back. *)
Theorem dqn_step_never_terminates :
  (forall (action : Z) (w w' : World DQN.SumoEnv Sim) (r : StepResult),
      DQN.step action w = (Ok r, w') ->
      terminated r = false
      /\ (terminated r || truncated r = true ->
          DQN.max_steps (env w') <= DQN.step_count (env w')))
  /\ (forall (action : Z) (w w1 w3 : World DQN.SumoEnv Sim) (s2 : Sim)
             (o : Observation),
         DQN._apply_action action DQN.traffic_light_id (DQN.sync_counter w)
         = (Ok tt, w1) ->
         traci_simulationStep (sim w1) = (Done tt, s2) ->
         DQN._get_state (DQN.after_tick w1 s2) = (Ok o, w3) ->
         exists r w', DQN.step action w = (Ok r, w')
                      /\ terminated r = false).
Proof.
  split.
  - intros action w w' r Hstep.
    destruct (dqn_step_inv _ _ Hstep) as (Hterm & Htrunc & _ & _).
    split; [exact Hterm|]. rewrite Hterm, Htrunc. cbn [orb].
    intro Hge. now apply Z.geb_le in Hge.
  - intros action w w1 w3 s2 o Ha Htick Hstate.
    destruct (dqn_step_returns _ _ Ha Htick Hstate) as (r & w' & Hstep & _).
    exists r, w'. split; [exact Hstep|].
    exact (proj1 (dqn_step_inv _ _ Hstep)).
Qed.

(** Projections of the PPO environment through its field assignments. *)
Ltac ppo_fields :=
  cbn [PPO.current_simulation_step PPO.total_steps PPO.last_switch_step
       PPO.min_green_steps PPO.valid_ids PPO.connection_active
       PPO.max_retries PPO.retry_delay PPO.set_last_switch_step
       PPO.set_current_simulation_step PPO.set_connection_active
       PPO.set_valid_ids env sim calls] in *.

(** [_get_state] of [PPO.py] always comes back with an observation. *)
Ltac read_state :=
  match goal with
  | |- context [PPO._get_state ?w2] =>
      let o := fresh "o" in
      let w3 := fresh "w" in
      let Hs := fresh "Hs" in
      destruct (ppo_get_state_total w2) as (o & w3 & Hs & _);
      rewrite Hs; run
  end.

(** The PPO [step] never reports truncation. *)
Lemma ppo_step_truncated (action : Z) (w w' : World PPO.SumoEnv Sim)
      (r : StepResult) :
  PPO.step action w = (Ok r, w') -> truncated r = false.
Proof.
  unfold PPO.step. run.
  destruct (PPO._apply_action _ _) as [[[]|e] w1]; run; [|discriminate].
  destruct (traci_simulationStep _) as [[[]|m] s2]; run;
    [destruct (simulation_getTime s2) as [t|m]; run;
     [destruct (vehicle_getIDCount s2) as [v|m]; run;
      [destruct (Qlt_le_dec t 0); run; [|destruct (_ && _); run]|]|]|];
    repeat read_state; intro Hrun; inversion Hrun; reflexivity.
Qed.

(** The PPO [step] on a tick without failure or degenerate answer. *)
Lemma ppo_step_regular (action : Z) (w w1 : World PPO.SumoEnv Sim)
      (s2 : Sim) (t : Q) (v : Z) :
  PPO._apply_action action (PPO.tick_counter w) = (Ok tt, w1) ->
  traci_simulationStep (sim w1) = (Done tt, s2) ->
  simulation_getTime s2 = Done t ->
  vehicle_getIDCount s2 = Done v ->
  (0 <= t)%Q ->
  v <> 0
  \/ PPO.total_steps (env w1) <= PPO.current_simulation_step (env w1) ->
  exists o w',
    PPO.step action w
    = (Ok (mkStep o (_get_reward o)
                  (PPO.current_simulation_step (env w) + 1
                   >=? PPO.total_steps (env w))
                  false []),
       w')
    /\ PPO.current_simulation_step (env w')
       = PPO.current_simulation_step (env w) + 1
    /\ PPO.total_steps (env w') = PPO.total_steps (env w).
Proof.
  intros Ha Htick Htime Hcount Hpos Hlive.
  pose proof (ppo_apply_action_env _ _ Ha) as Henv.
  unfold PPO.step, PPO.tick_counter in *. run. rewrite Ha. run.
  rewrite Htick. run. rewrite Htime. run. rewrite Hcount. run.
  destruct (Qlt_le_dec t 0) as [Hlt|_];
    [exfalso; exact (Qlt_not_le _ _ Hlt Hpos)|]. run.
  assert (Hgo : (v =? 0)
                && (PPO.current_simulation_step (env w1)
                    <? PPO.total_steps (env w1)) = false).
  { destruct Hlive as [Hv|Hb].
    - apply Z.eqb_neq in Hv. now rewrite Hv.
    - apply Z.ltb_ge in Hb. rewrite Hb. apply andb_false_r. }
  rewrite Hgo. run.
  match goal with
  | |- context [PPO._get_state ?w2] =>
      destruct (ppo_get_state_total w2) as (o & w' & Hs & He & _)
  end.
  rewrite Hs. run. exists o, w'. rewrite He. ppo_fields.
  destruct Henv as [-> | ->]; ppo_fields; repeat split; reflexivity.
Qed.

(** C4, as the code has it.  In [DQN_working.py] a returning [step] has
    [terminated] false and [truncated] true exactly when the step counter it
    has just incremented has reached [max_steps].  In [PPO.py] [truncated]
    is false on every return, and a regular step reports through
    [terminated] whether the counter has reached [total_steps]. *)
Theorem budget_ends_episode :
  (forall (action : Z) (w w1 w3 : World DQN.SumoEnv Sim) (s2 : Sim)
          (o : Observation),
      DQN._apply_action action DQN.traffic_light_id (DQN.sync_counter w)
      = (Ok tt, w1) ->
      traci_simulationStep (sim w1) = (Done tt, s2) ->
      DQN._get_state (DQN.after_tick w1 s2) = (Ok o, w3) ->
      exists r w',
        DQN.step action w = (Ok r, w')
        /\ terminated r = false
        /\ truncated r
           = (DQN.step_count (env w') >=? DQN.max_steps (env w'))
        /\ DQN.step_count (env w') = DQN.step_count (env w) + 1
        /\ DQN.max_steps (env w') = DQN.max_steps (env w))
  /\ (forall (action : Z) (w w1 : World PPO.SumoEnv Sim) (s2 : Sim) (t : Q)
             (v : Z),
         PPO._apply_action action (PPO.tick_counter w) = (Ok tt, w1) ->
         traci_simulationStep (sim w1) = (Done tt, s2) ->
         simulation_getTime s2 = Done t ->
         vehicle_getIDCount s2 = Done v ->
         (0 <= t)%Q ->
         v <> 0
         \/ PPO.total_steps (env w1)
            <= PPO.current_simulation_step (env w1) ->
         exists r w',
           PPO.step action w = (Ok r, w')
           /\ truncated r = false
           /\ terminated r
              = (PPO.current_simulation_step (env w')
                 >=? PPO.total_steps (env w'))
           /\ PPO.current_simulation_step (env w')
              = PPO.current_simulation_step (env w) + 1
           /\ PPO.total_steps (env w') = PPO.total_steps (env w))
  /\ (forall (action : Z) (w w' : World PPO.SumoEnv Sim) (r : StepResult),
         PPO.step action w = (Ok r, w') -> truncated r = false).
Proof.
  split; [|split].
  - intros action w w1 w3 s2 o Ha Htick Hstate.
    destruct (dqn_step_returns _ _ Ha Htick Hstate) as (r & w' & Hstep & _).
    exists r, w'. split; [exact Hstep|]. exact (dqn_step_inv _ _ Hstep).
  - intros action w w1 s2 t v Ha Htick Htime Hcount Hpos Hlive.
    destruct (ppo_step_regular _ _ Ha Htick Htime Hcount Hpos Hlive)
      as (o & w' & Hstep & Hcur & Htot).
    eexists; exists w'. split; [exact Hstep|]. cbn [truncated terminated].
    rewrite Hcur, Htot. repeat split; reflexivity.
  - exact ppo_step_truncated.
Qed.

End Steps.

(** ** Steps on the scripted junction *)

(** The last step of an episode.  [DQN_working.py], [step_count] 999 of
    1000: truncated, not terminated.  [PPO.py], [current_simulation_step]
    1499 of 1500: terminated, not truncated. *)
Lemma budget_ends_episode_witness :
  (exists r w',
      DQN.step 0 (mkWorld (DQN.set_step_count
                             999 (DQN.__init__ DQN.Sumo_config))
                          (Toy.junction 0) [])
      = (Ok r, w')
      /\ terminated r = false /\ truncated r = true)
  /\ (exists r w',
         PPO.step 0 (mkWorld (PPO.set_current_simulation_step
                                1499 (PPO.set_valid_ids
                                        true (PPO.__init__ 7)))
                             (Toy.junction 0) [])
         = (Ok r, w')
         /\ truncated r = false /\ terminated r = true).
Proof.
  split.
  - pose (w := mkWorld (DQN.set_step_count
                          999 (DQN.__init__ DQN.Sumo_config))
                       (Toy.junction 0) []).
    destruct (proj1 budget_ends_episode 0 w (DQN.sync_counter w)
                    (snd (DQN._get_state
                            (DQN.after_tick
                               (DQN.sync_counter w)
                               (snd (Toy.simulationStep (Toy.junction 0))))))
                    (snd (Toy.simulationStep (Toy.junction 0)))
                    [1; 0; 2; 0; 1; 0; 0])
      as (r & w' & Hstep & Hterm & Htrunc & Hcount & Hmax);
      [reflexivity | reflexivity | reflexivity |].
    exists r, w'. split; [exact Hstep|]. split; [exact Hterm|].
    rewrite Htrunc, Hcount, Hmax. reflexivity.
  - pose (w := mkWorld (PPO.set_current_simulation_step
                          1499 (PPO.set_valid_ids true (PPO.__init__ 7)))
                       (Toy.junction 0) []).
    destruct (proj1 (proj2 budget_ends_episode) 0 w (PPO.tick_counter w)
                    (snd (Toy.simulationStep (Toy.junction 0))) 1%Q 12)
      as (r & w' & Hstep & Htrunc & Hterm & Hcount & Htotal);
      [reflexivity | reflexivity | reflexivity | reflexivity
       | vm_compute; discriminate | left; lia |].
    exists r, w'. split; [exact Hstep|]. split; [exact Htrunc|].
    rewrite Hterm, Hcount, Htotal. reflexivity.
Defined.

(** [PPO.py] at the step budget: the counter reaches [total_steps] and the
    result has [terminated] true and [truncated] false. *)
Lemma budget_ends_episode_counterexample :
  match PPO.step 0 (mkWorld (PPO.set_current_simulation_step
                               1499 (PPO.set_valid_ids true (PPO.__init__ 7)))
                            (Toy.junction 0) [])
  with
  | (Ok r, w') =>
      PPO.current_simulation_step (env w') = PPO.total_steps (env w')
      /\ terminated r = true
      /\ truncated r = false
      /\ info r = []
  | _ => False
  end.
Proof. vm_compute. repeat split. Qed.

(** [DQN_working.py], first step on the junction: [step] returns, with
    [terminated] false. *)
Lemma dqn_step_never_terminates_witness :
  exists r w',
    DQN.step 1 (mkWorld (DQN.__init__ DQN.Sumo_config) (Toy.junction 0) [])
    = (Ok r, w')
    /\ terminated r = false.
Proof.
  pose (w := mkWorld (DQN.__init__ DQN.Sumo_config) (Toy.junction 0) []).
  pose (w1 := snd (DQN._apply_action 1 DQN.traffic_light_id
                                     (DQN.sync_counter w))).
  pose (s2 := snd (Toy.simulationStep (sim w1))).
  apply (proj2 dqn_step_never_terminates 1 w w1
               (snd (DQN._get_state (DQN.after_tick w1 s2))) s2
               [1; 0; 2; 0; 1; 0; 1]); reflexivity.
Defined.

(** * The session: validation, [close] and [reset] *)

Section Session.
Context {Sim : Type} `{TraCI Sim}.

(** C8. In [PPO.py], while [valid_ids] is false [_get_state] returns the
    vector of seven zeros and leaves the world as it is, so it issues no
    call; and [_validate_ids] never raises: it only assigns [valid_ids],
    true exactly when both identifier lists come back and hold the traffic
    light and the six detectors, and it leaves the connection and the
    simulator alone. *)
Theorem invalid_ids_give_zero_observation :
  (forall w : World PPO.SumoEnv Sim,
      PPO.valid_ids (env w) = false ->
      PPO._get_state w = (Ok zeros7, w))
  /\ zeros7 = [0; 0; 0; 0; 0; 0; 0]
  /\ (forall w : World PPO.SumoEnv Sim,
         let valid :=
           match trafficlight_getIDList (sim w),
                 lanearea_getIDList (sim w) with
           | Done traffic_lights, Done detectors =>
               PPO.str_in (PPO.tls_id (env w)) traffic_lights
               && forallb (fun d => PPO.str_in d detectors)
                          PPO.expected_detectors
           | _, _ => false
           end in
         exists cs,
           PPO._validate_ids w
           = (Ok tt,
              mkWorld (PPO.set_valid_ids valid (env w)) (sim w)
                      (calls w ++ cs))
           /\ ~ In CClose cs).
Proof.
  split; [|split].
  - intros w Hvalid. unfold PPO._get_state. run. now rewrite Hvalid.
  - reflexivity.
  - intros w valid. subst valid. unfold PPO._validate_ids. run.
    destruct (trafficlight_getIDList (sim w)) as [tls|m]; run.
    + destruct (lanearea_getIDList (sim w)) as [dets|m]; run.
      * exists [CTrafficlightGetIDList; CLaneareaGetIDList].
        rewrite <- app_assoc. cbn [app].
        split; [|intros [E|[E|[]]]; discriminate].
        destruct (PPO.str_in _ tls); cbn [negb andb]; run;
          [|reflexivity].
        destruct (forallb _ _); cbn [negb]; run; reflexivity.
      * exists [CTrafficlightGetIDList; CLaneareaGetIDList].
        rewrite <- app_assoc. cbn [app].
        split; [reflexivity | intros [E|[E|[]]]; discriminate].
    + exists [CTrafficlightGetIDList].
      split; [reflexivity | intros [E|[]]; discriminate].
Qed.

(** C9. [close] can be repeated.  In [PPO.py] it never raises, does nothing
    when [connection_active] is false, and after a [traci.close] that came
    back the flag is false, so a second [close] does nothing.  In
    [DQN_working.py] it does nothing but ask [traci.isLoaded] when no
    connection is loaded, which is the case after a [traci.close] that came
    back. *)
Theorem close_is_idempotent :
  (forall w : World PPO.SumoEnv Sim, exists w', PPO.close w = (Ok tt, w'))
  /\ (forall w : World PPO.SumoEnv Sim,
         PPO.connection_active (env w) = false ->
         PPO.close w = (Ok tt, w))
  /\ (forall (w : World PPO.SumoEnv Sim) (s' : Sim),
         PPO.connection_active (env w) = true ->
         traci_close (sim w) = (Done tt, s') ->
         let w' := mkWorld (PPO.set_connection_active false (env w)) s'
                           (calls w ++ [CClose]) in
         PPO.close w = (Ok tt, w') /\ PPO.close w' = (Ok tt, w'))
  /\ (forall w : World DQN.SumoEnv Sim,
         traci_isLoaded (sim w) = false ->
         DQN.close w = (Ok tt, log CIsLoaded w))
  /\ (forall (w : World DQN.SumoEnv Sim) (s' : Sim),
         traci_isLoaded (sim w) = true ->
         traci_close (sim w) = (Done tt, s') ->
         traci_isLoaded s' = false ->
         let w' := mkWorld (env w) s' (calls w ++ [CIsLoaded; CClose]) in
         DQN.close w = (Ok tt, w')
         /\ DQN.close w' = (Ok tt, log CIsLoaded w')).
Proof.
  split; [|split; [|split; [|split]]].
  - intro w. unfold PPO.close. run.
    destruct (PPO.connection_active (env w)); run; [|eexists; reflexivity].
    destruct (traci_close (sim w)) as [[[]|m] s']; run; eexists; reflexivity.
  - intros w Hoff. unfold PPO.close. run. now rewrite Hoff.
  - intros w s' Hon Hclose w'. subst w'. split; unfold PPO.close; run.
    + rewrite Hon. run. rewrite Hclose. reflexivity.
    + reflexivity.
  - intros w Hoff. unfold DQN.close. run. now rewrite Hoff.
  - intros w s' Hon Hclose Hoff w'. subst w'. split; unfold DQN.close; run.
    + rewrite Hon. run. rewrite Hclose. now rewrite <- app_assoc.
    + now rewrite Hoff.
Qed.

End Session.

Section Reset.
Context {Sim : Type} `{TraCI Sim}.

Lemma same_settings_refl (e : PPO.SumoEnv) : PPO.same_settings e e.
Proof. repeat split. Qed.

Lemma same_settings_trans (e1 e2 e3 : PPO.SumoEnv) :
  PPO.same_settings e1 e2 -> PPO.same_settings e2 e3 ->
  PPO.same_settings e1 e3.
Proof.
  unfold PPO.same_settings. intros (Ha & Hb & Hc) (Hd & He & Hf).
  repeat split; congruence.
Qed.

(** The first block of [reset] never raises and leaves no connection
    marked active. *)
Lemma close_previous_frame (w w' : World PPO.SumoEnv Sim) (r : Res unit) :
  PPO.close_previous w = (r, w') ->
  r = Ok tt
  /\ PPO.connection_active (env w') = false
  /\ PPO.same_settings (env w) (env w').
Proof.
  unfold PPO.close_previous. run.
  destruct (PPO.connection_active (env w)) eqn:Hactive; run.
  - destruct (traci_close (sim w)) as [[[]|m] s']; run;
      intro Hrun; inversion Hrun; repeat split.
  - intro Hrun; inversion Hrun; subst. repeat split. exact Hactive.
Qed.

Lemma connect_frame (retry_count : Z) (w w' : World PPO.SumoEnv Sim)
      (r : Res unit) :
  PPO.connect retry_count w = (r, w') ->
  PPO.same_settings (env w) (env w').
Proof.
  unfold PPO.connect, PPO._validate_ids. run.
  destruct (traci_start _ _ _) as [[[]|m] s1]; run;
    [|intro Hrun; inversion Hrun; repeat split].
  destruct (traci_simulationStep _) as [[[]|m] s2]; run;
    [|intro Hrun; inversion Hrun; repeat split].
  destruct (trafficlight_getIDList _); run;
    [|intro Hrun; inversion Hrun; repeat split].
  destruct (lanearea_getIDList _); run;
    [|intro Hrun; inversion Hrun; repeat split].
  destruct (negb _); run; [intro Hrun; inversion Hrun; repeat split|].
  destruct (negb _); run; intro Hrun; inversion Hrun; repeat split.
Qed.

(** [reset] comes back within the bound its retry test gives. *)
Lemma reset_fuel_returns (fuel : nat) :
  forall (retry_count : Z) (w : World PPO.SumoEnv Sim),
    (Z.to_nat (PPO.max_retries (env w) - retry_count) < fuel)%nat ->
    exists r, PPO.reset_fuel fuel retry_count w = Some r.
Proof.
  induction fuel as [|fuel IH]; intros retry_count w Hfuel; [lia|].
  cbn [PPO.reset_fuel].
  destruct (PPO.close_previous w) as [r0 w0] eqn:Hclose.
  destruct (close_previous_frame _ Hclose) as (-> & _ & _ & Hmax0 & _).
  destruct (PPO.connect retry_count w0) as [[[]|[msg| |msg]] w1] eqn:Hconnect;
    try (eexists; reflexivity).
  destruct (connect_frame _ _ Hconnect) as (_ & Hmax1 & _).
  destruct (retry_count <? PPO.max_retries (env w1)) eqn:Hretry;
    [|eexists; reflexivity].
  apply Z.ltb_lt in Hretry. unfold sleep, log. cbn [env sim calls].
  apply IH. cbn [env]. lia.
Qed.

Lemma reset_returns (retry_count : Z) (w : World PPO.SumoEnv Sim) :
  exists r, PPO.reset retry_count w = Some r.
Proof. apply reset_fuel_returns. unfold PPO.reset_depth. lia. Qed.

Lemma close_previous_inactive (w : World PPO.SumoEnv Sim) :
  PPO.connection_active (env w) = false ->
  PPO.close_previous w = (Ok tt, w).
Proof. intro Hoff. unfold PPO.close_previous. run. now rewrite Hoff. Qed.

End Reset.

(** ** The session on the scripted junction *)

(** Before validation, [valid_ids] is false: the observation is seven
    zeros and no detector is queried. *)
Lemma invalid_ids_give_zero_observation_witness :
  PPO._get_state (mkWorld (PPO.__init__ 7) (Toy.junction 0) [])
  = (Ok [0; 0; 0; 0; 0; 0; 0],
     mkWorld (PPO.__init__ 7) (Toy.junction 0) []).
Proof.
  apply (proj1 invalid_ids_give_zero_observation
               (mkWorld (PPO.__init__ 7) (Toy.junction 0) [])).
  reflexivity.
Defined.

(** Closing the junction twice, in both files. *)
Lemma close_is_idempotent_witness :
  (let w := mkWorld (PPO.set_connection_active true (PPO.__init__ 7))
                    (Toy.junction 0) [] in
   let w' := mkWorld (PPO.__init__ 7) (snd (Toy.close (Toy.junction 0)))
                     [CClose] in
   PPO.close w = (Ok tt, w') /\ PPO.close w' = (Ok tt, w'))
  /\ (let w := mkWorld (DQN.__init__ DQN.Sumo_config) (Toy.junction 0) [] in
      let w' := mkWorld (DQN.__init__ DQN.Sumo_config)
                        (snd (Toy.close (Toy.junction 0)))
                        [CIsLoaded; CClose] in
      DQN.close w = (Ok tt, w')
      /\ DQN.close w' = (Ok tt, log CIsLoaded w')).
Proof.
  split; cbv zeta.
  - apply (proj1 (proj2 (proj2 close_is_idempotent))
                 (mkWorld (PPO.set_connection_active true (PPO.__init__ 7))
                          (Toy.junction 0) [])
                 (snd (Toy.close (Toy.junction 0)))); reflexivity.
  - apply (proj2 (proj2 (proj2 (proj2 close_is_idempotent)))
                 (mkWorld (DQN.__init__ DQN.Sumo_config) (Toy.junction 0) [])
                 (snd (Toy.close (Toy.junction 0)))); reflexivity.
Defined.

(** [PPO.py] on a clock that reads -4 after the tick: the episode is
    terminated with reward 0, and [info] holds the diagnostic under
    ["error"]. *)
Example negative_time_is_diagnosed :
  match PPO.step 0 (mkWorld (PPO.set_valid_ids true (PPO.__init__ 7))
                            (Toy.clock_error 0) [])
  with
  | (Ok r, _) =>
      terminated r = true
      /\ truncated r = false
      /\ reward r = 0
      /\ info_get "error" (info r) = Some (VStr "Negative simulation time")
  | _ => False
  end.
Proof. vm_compute. repeat split. Qed.

(** * Further properties of the phase controller *)

(** Field projections through the field assignments of either file. *)
Ltac fields :=
  cbn [DQN.step_count DQN.max_steps DQN.current_simulation_step
       DQN.last_switch_step DQN.min_green_steps DQN.cumulative_reward
       DQN.total_queue DQN.episode_count DQN.episode_history
       DQN.reward_history DQN.queue_history DQN.braking_history DQN.config
       DQN.min_yellow_steps DQN.min_pedestrian_steps
       DQN.set_step_count DQN.set_total_queue DQN.set_cumulative_reward
       DQN.set_last_switch_step DQN.set_current_simulation_step
       DQN.set_episode_count DQN.append_histories
       PPO.self_id PPO.tls_id PPO.current_simulation_step PPO.total_steps
       PPO.last_switch_step PPO.min_green_steps PPO.valid_ids
       PPO.connection_active PPO.connection_label PPO.max_retries
       PPO.retry_delay PPO.phase_start_step PPO.current_phase
       PPO.yellow_duration
       PPO.set_last_switch_step PPO.set_current_simulation_step
       PPO.set_connection_active PPO.set_connection_label
       PPO.set_valid_ids PPO.set_phase_start_step PPO.set_current_phase
       orb andb negb env sim calls] in *.

Section Controller.
Context {Sim : Type} `{TraCI Sim}.

(** X1. Every action other than 1 leaves the world as it is, in both
    files: action 0, and any value outside the action space. *)
Theorem other_actions_do_nothing :
  (forall (w : World DQN.SumoEnv Sim) (tls_id : string) (action : Z),
      action <> 1 -> DQN._apply_action action tls_id w = (Ok tt, w))
  /\ (forall (w : World PPO.SumoEnv Sim) (action : Z),
         action <> 1 -> PPO._apply_action action w = (Ok tt, w)).
Proof.
  split.
  - intros w tls_id action Hother. unfold DQN._apply_action. run.
    destruct (action =? 0); [reflexivity|].
    destruct (action =? 1) eqn:Hone; [|reflexivity].
    apply Z.eqb_eq in Hone. contradiction.
  - intros w action Hother. unfold PPO._apply_action. run.
    destruct (PPO.valid_ids (env w)); run; [|reflexivity].
    destruct (action =? 0); [reflexivity|].
    destruct (action =? 1) eqn:Hone; [|reflexivity].
    apply Z.eqb_eq in Hone. contradiction.
Qed.

(** The phase [_apply_action] computes lies in the program. *)
Lemma next_phase_in_range (x : Z) (program : Logic) :
  (Z.of_nat (List.length (phases program)) =? 0) = false ->
  0 <= x mod Z.of_nat (List.length (phases program))
  < Z.of_nat (List.length (phases program)).
Proof. intro Hne. apply Z.eqb_neq in Hne. apply Z.mod_pos_bound. lia. Qed.

(** X2. Whatever the simulator answers, a phase command [_apply_action]
    issues is for the given traffic light and carries an index of the first
    program the simulator reported: at least 0 and below its number of
    phases. *)
Theorem commanded_phase_is_in_range :
  (forall (w w' : World DQN.SumoEnv Sim) (tls_id : string) (action : Z)
          (r : Res unit),
      DQN._apply_action action tls_id w = (r, w') ->
      exists cs,
        calls w' = calls w ++ cs
        /\ forall tls p,
            In (CSetPhase tls p) cs ->
            tls = tls_id
            /\ exists program others,
                trafficlight_getAllProgramLogics tls_id (sim w)
                = Done (program :: others)
                /\ 0 <= p < Z.of_nat (List.length (phases program)))
  /\ (forall (w w' : World PPO.SumoEnv Sim) (action : Z) (r : Res unit),
         PPO._apply_action action w = (r, w') ->
         exists cs,
           calls w' = calls w ++ cs
           /\ forall tls p,
               In (CSetPhase tls p) cs ->
               tls = PPO.tls_id (env w)
               /\ exists program others,
                   trafficlight_getAllProgramLogics (PPO.tls_id (env w))
                                                    (sim w)
                   = Done (program :: others)
                   /\ 0 <= p < Z.of_nat (List.length (phases program))).
Proof.
  split.
  - intros w w' tls_id action r.
    unfold DQN._apply_action, DQN._get_current_phase, DQN.switch_phase. run.
    destruct (action =? 0); run;
      [intro Hrun; inversion Hrun; exists []; rewrite app_nil_r;
       split; [reflexivity | intros ? ? []]|].
    destruct (action =? 1); run;
      [|intro Hrun; inversion Hrun; exists []; rewrite app_nil_r;
        split; [reflexivity | intros ? ? []]].
    destruct (_ >=? _); run;
      [|intro Hrun; inversion Hrun; exists []; rewrite app_nil_r;
        split; [reflexivity | intros ? ? []]].
    destruct (trafficlight_getPhase _ _) as [cur|m]; run;
      [|intro Hrun; inversion Hrun; exists [CGetPhase tls_id];
        split; [reflexivity | intros ? ? [E|[]]; discriminate]].
    destruct (trafficlight_getAllProgramLogics _ _)
      as [[|program others]|m]; run;
      try (intro Hrun; inversion Hrun;
           exists [CGetPhase tls_id; CGetAllProgramLogics tls_id];
           rewrite <- app_assoc;
           split; [reflexivity | intros ? ? [E|[E|[]]]; discriminate]).
    destruct (_ =? 0) eqn:Hzero; run;
      [intro Hrun; inversion Hrun;
       exists [CGetPhase tls_id; CGetAllProgramLogics tls_id];
       rewrite <- app_assoc;
       split; [reflexivity | intros ? ? [E|[E|[]]]; discriminate]|].
    destruct (trafficlight_setPhase _ _ _) as [[[]|m] s']; run;
      intro Hrun; inversion Hrun;
      (eexists [CGetPhase tls_id; CGetAllProgramLogics tls_id;
                CSetPhase tls_id _];
       rewrite <- !app_assoc; split; [reflexivity|];
       intros tls p [E|[E|[E|[]]]]; try discriminate;
       inversion E; subst; split; [reflexivity|];
       exists program, others; split; [reflexivity|];
       now apply next_phase_in_range).
  - intros w w' action r.
    unfold PPO._apply_action, PPO.switch_phase, PPO._get_current_phase. run.
    destruct (PPO.valid_ids (env w)); run;
      [|intro Hrun; inversion Hrun; exists []; rewrite app_nil_r;
        split; [reflexivity | intros ? ? []]].
    destruct (action =? 0); run;
      [intro Hrun; inversion Hrun; exists []; rewrite app_nil_r;
       split; [reflexivity | intros ? ? []]|].
    destruct (action =? 1); run;
      [|intro Hrun; inversion Hrun; exists []; rewrite app_nil_r;
        split; [reflexivity | intros ? ? []]].
    destruct (_ >=? _); run;
      [|intro Hrun; inversion Hrun; exists []; rewrite app_nil_r;
        split; [reflexivity | intros ? ? []]].
    destruct (trafficlight_getAllProgramLogics _ _)
      as [[|program others]|m]; run;
      try (intro Hrun; inversion Hrun;
           exists [CGetAllProgramLogics (PPO.tls_id (env w))];
           split; [reflexivity | intros ? ? [E|[]]; discriminate]).
    destruct (_ =? 0) eqn:Hzero; run;
      [intro Hrun; inversion Hrun;
       exists [CGetAllProgramLogics (PPO.tls_id (env w))];
       split; [reflexivity | intros ? ? [E|[]]; discriminate]|].
    destruct (trafficlight_getPhase _ _) as [cur|m]; run;
      destruct (trafficlight_setPhase _ _ _) as [[[]|m'] s']; run;
      intro Hrun; inversion Hrun;
      (eexists [CGetAllProgramLogics (PPO.tls_id (env w));
                CGetPhase (PPO.tls_id (env w));
                CSetPhase (PPO.tls_id (env w)) _];
       rewrite <- !app_assoc; split; [reflexivity|];
       intros tls p [E|[E|[E|[]]]]; try discriminate;
       inversion E; subst; split; [reflexivity|];
       exists program, others; split; [reflexivity|];
       now apply next_phase_in_range).
Qed.

End Controller.

Section ControllerEdges.
Context {Sim : Type} `{TraCI Sim}.

(** X3. When action 1 passes the dwell test and the simulator reports no
    program at all, the [IndexError] of [...[0]] is not caught: it leaves
    [_apply_action], with the fields of [self] and the simulator as they
    were and no phase command issued. *)
Theorem empty_program_list_raises_index_error :
  (forall (w : World DQN.SumoEnv Sim) (tls_id : string) (cur : Z),
      DQN.min_green_steps (env w)
      <= DQN.current_simulation_step (env w) - DQN.last_switch_step (env w) ->
      trafficlight_getPhase tls_id (sim w) = Done cur ->
      trafficlight_getAllProgramLogics tls_id (sim w) = Done [] ->
      DQN._apply_action 1 tls_id w
      = (Raise IndexError,
         mkWorld (env w) (sim w)
                 (calls w ++ [CGetPhase tls_id;
                              CGetAllProgramLogics tls_id])))
  /\ (forall w : World PPO.SumoEnv Sim,
         PPO.valid_ids (env w) = true ->
         PPO.min_green_steps (env w)
         <= PPO.current_simulation_step (env w)
            - PPO.last_switch_step (env w) ->
         trafficlight_getAllProgramLogics (PPO.tls_id (env w)) (sim w)
         = Done [] ->
         PPO._apply_action 1 w
         = (Raise IndexError,
            mkWorld (env w) (sim w)
                    (calls w
                     ++ [CGetAllProgramLogics (PPO.tls_id (env w))]))).
Proof.
  split.
  - intros w tls_id cur Hdwell Hphase Hlogics.
    unfold DQN._apply_action, DQN._get_current_phase, DQN.switch_phase. run.
    apply Z.geb_le in Hdwell. rewrite Hdwell, Hphase. run.
    rewrite Hlogics. run. now rewrite <- app_assoc.
  - intros w Hvalid Hdwell Hlogics.
    unfold PPO._apply_action, PPO.switch_phase. run.
    apply Z.geb_le in Hdwell. rewrite Hvalid, Hdwell. run.
    now rewrite Hlogics.
Qed.

(** X4. When action 1 passes the dwell test and the first program the
    simulator reports has no phase, [_apply_action] returns normally without
    a phase command and without recording a switch. *)
Theorem program_without_phases_is_skipped :
  (forall (w : World DQN.SumoEnv Sim) (tls_id : string) (cur : Z)
          (program : Logic) (others : list Logic),
      DQN.min_green_steps (env w)
      <= DQN.current_simulation_step (env w) - DQN.last_switch_step (env w) ->
      trafficlight_getPhase tls_id (sim w) = Done cur ->
      trafficlight_getAllProgramLogics tls_id (sim w)
      = Done (program :: others) ->
      phases program = [] ->
      DQN._apply_action 1 tls_id w
      = (Ok tt,
         mkWorld (env w) (sim w)
                 (calls w ++ [CGetPhase tls_id;
                              CGetAllProgramLogics tls_id])))
  /\ (forall (w : World PPO.SumoEnv Sim) (program : Logic)
             (others : list Logic),
         PPO.valid_ids (env w) = true ->
         PPO.min_green_steps (env w)
         <= PPO.current_simulation_step (env w)
            - PPO.last_switch_step (env w) ->
         trafficlight_getAllProgramLogics (PPO.tls_id (env w)) (sim w)
         = Done (program :: others) ->
         phases program = [] ->
         PPO._apply_action 1 w
         = (Ok tt,
            mkWorld (env w) (sim w)
                    (calls w
                     ++ [CGetAllProgramLogics (PPO.tls_id (env w))]))).
Proof.
  split.
  - intros w tls_id cur program others Hdwell Hphase Hlogics Hnone.
    unfold DQN._apply_action, DQN._get_current_phase, DQN.switch_phase. run.
    apply Z.geb_le in Hdwell. rewrite Hdwell, Hphase. run.
    rewrite Hlogics. run. rewrite Hnone. cbn [List.length Z.of_nat Z.eqb].
    now rewrite <- app_assoc.
  - intros w program others Hvalid Hdwell Hlogics Hnone.
    unfold PPO._apply_action, PPO.switch_phase. run.
    apply Z.geb_le in Hdwell. rewrite Hvalid, Hdwell. run.
    rewrite Hlogics. run. rewrite Hnone. reflexivity.
Qed.

(** X5. A failing phase query under action 1 past the dwell test.  In
    [DQN_working.py] the query stands before the [try], so its
    [TraCIException] leaves [_apply_action] and nothing else is attempted.
    In [PPO.py] [_get_current_phase] reads 0 instead, so the signal is
    commanded to phase [1 mod number_of_phases] and the switch is
    recorded. *)
Theorem failing_phase_query :
  (forall (w : World DQN.SumoEnv Sim) (tls_id : string) (msg : string),
      DQN.min_green_steps (env w)
      <= DQN.current_simulation_step (env w) - DQN.last_switch_step (env w) ->
      trafficlight_getPhase tls_id (sim w) = Fail msg ->
      DQN._apply_action 1 tls_id w
      = (Raise (TraCIException msg),
         mkWorld (env w) (sim w) (calls w ++ [CGetPhase tls_id])))
  /\ (forall (w : World PPO.SumoEnv Sim) (program : Logic)
             (others : list Logic) (msg : string) (s' : Sim),
         PPO.valid_ids (env w) = true ->
         PPO.min_green_steps (env w)
         <= PPO.current_simulation_step (env w)
            - PPO.last_switch_step (env w) ->
         let tls_id := PPO.tls_id (env w) in
         trafficlight_getAllProgramLogics tls_id (sim w)
         = Done (program :: others) ->
         phases program <> [] ->
         trafficlight_getPhase tls_id (sim w) = Fail msg ->
         let next := 1 mod Z.of_nat (List.length (phases program)) in
         trafficlight_setPhase tls_id next (sim w) = (Done tt, s') ->
         PPO._apply_action 1 w
         = (Ok tt,
            mkWorld (PPO.set_last_switch_step
                       (PPO.current_simulation_step (env w)) (env w))
                    s'
                    (calls w ++ [CGetAllProgramLogics tls_id;
                                 CGetPhase tls_id; CSetPhase tls_id next]))).
Proof.
  split.
  - intros w tls_id msg Hdwell Hphase.
    unfold DQN._apply_action, DQN._get_current_phase. run.
    apply Z.geb_le in Hdwell. now rewrite Hdwell, Hphase.
  - intros w program others msg s' Hvalid Hdwell tls_id Hlogics Hne Hphase
           next Hset.
    unfold PPO._apply_action, PPO.switch_phase, PPO._get_current_phase. run.
    apply Z.geb_le in Hdwell. subst tls_id next.
    rewrite Hvalid, Hdwell. run. rewrite Hlogics. run.
    rewrite (nonempty_phases _ Hne). run. rewrite Hphase. run.
    change (0 + 1) with 1. rewrite Hset. now rewrite <- !app_assoc.
Qed.

(** X6. Whatever the action and the simulator's answers, [_apply_action]
    assigns no field of [self] other than [last_switch_step]; it assigns
    that one only after a phase command the simulator accepted, to the
    current step, and then returns normally. *)
Theorem switch_recorded_only_when_accepted :
  (forall (w w' : World DQN.SumoEnv Sim) (tls_id : string) (action : Z)
          (r : Res unit),
      DQN._apply_action action tls_id w = (r, w') ->
      env w' = env w
      \/ (r = Ok tt
          /\ env w' = DQN.set_last_switch_step
                        (DQN.current_simulation_step (env w)) (env w)
          /\ exists p,
              trafficlight_setPhase tls_id p (sim w) = (Done tt, sim w')))
  /\ (forall (w w' : World PPO.SumoEnv Sim) (action : Z) (r : Res unit),
         PPO._apply_action action w = (r, w') ->
         env w' = env w
         \/ (r = Ok tt
             /\ env w' = PPO.set_last_switch_step
                           (PPO.current_simulation_step (env w)) (env w)
             /\ exists p,
                 trafficlight_setPhase (PPO.tls_id (env w)) p (sim w)
                 = (Done tt, sim w'))).
Proof.
  split.
  - intros w w' tls_id action r.
    unfold DQN._apply_action, DQN._get_current_phase, DQN.switch_phase. run.
    destruct (action =? 0); run; [intro Hrun; inversion Hrun; now left|].
    destruct (action =? 1); run; [|intro Hrun; inversion Hrun; now left].
    destruct (_ >=? _); run; [|intro Hrun; inversion Hrun; now left].
    destruct (trafficlight_getPhase _ _); run;
      [|intro Hrun; inversion Hrun; now left].
    destruct (trafficlight_getAllProgramLogics _ _)
      as [[|program others]|]; run;
      try (intro Hrun; inversion Hrun; now left).
    destruct (_ =? 0); run; [intro Hrun; inversion Hrun; now left|].
    destruct (trafficlight_setPhase _ _ _) as [[[]|msg] s'] eqn:Hset; run;
      intro Hrun; inversion Hrun; [right | now left].
    split; [reflexivity|]. split; [reflexivity|]. eexists. exact Hset.
  - intros w w' action r.
    unfold PPO._apply_action, PPO.switch_phase, PPO._get_current_phase. run.
    destruct (PPO.valid_ids (env w)); run;
      [|intro Hrun; inversion Hrun; now left].
    destruct (action =? 0); run; [intro Hrun; inversion Hrun; now left|].
    destruct (action =? 1); run; [|intro Hrun; inversion Hrun; now left].
    destruct (_ >=? _); run; [|intro Hrun; inversion Hrun; now left].
    destruct (trafficlight_getAllProgramLogics _ _)
      as [[|program others]|]; run;
      try (intro Hrun; inversion Hrun; now left).
    destruct (_ =? 0); run; [intro Hrun; inversion Hrun; now left|].
    destruct (trafficlight_getPhase _ _); run;
      destruct (trafficlight_setPhase _ _ _) as [[[]|?] s'] eqn:Hset; run;
      intro Hrun; inversion Hrun; try (now left); right;
      (split; [reflexivity|]; split; [reflexivity|]; eexists; exact Hset).
Qed.

End ControllerEdges.

(** * Further properties of observations *)

Section Observations.
Context {Sim : Type} `{TraCI Sim}.

(** X7. [_get_state] of [DQN_working.py] asks the six detectors and then
    the traffic light, in that order, and stops at the first query that
    raises: it returns the seven answers in order when all come back, and
    otherwise raises the first failure with no later query issued.  It
    changes neither [self] nor the simulator. *)
Theorem dqn_get_state_stops_at_first_failure (w : World DQN.SumoEnv Sim) :
  let replies := observation_replies DQN.traffic_light_id (sim w) in
  DQN._get_state w
  = (match first_failure replies with
     | None => Ok (answered replies)
     | Some msg => Raise (TraCIException msg)
     end,
     mkWorld (env w) (sim w)
             (calls w
              ++ firstn (S (List.length (answered replies)))
                        (observation_queries DQN.traffic_light_id))).
Proof.
  unfold DQN._get_state, DQN._get_queue_length, DQN._get_current_phase,
    observation_replies, observation_queries, detector_ids,
    DQN.traffic_light_id.
  cbn [map app]. run.
  repeat match goal with
         | |- context [match ?r with Done _ => _ | Fail _ => _ end] =>
             destruct r; run;
             cbn [first_failure answered List.length firstn];
             rewrite <- ?app_assoc; cbn [app]; try reflexivity
         end.
Qed.

Lemma dqn_get_state_length (w w' : World DQN.SumoEnv Sim)
      (o : Observation) :
  DQN._get_state w = (Ok o, w') -> List.length o = 7%nat.
Proof.
  unfold DQN._get_state, DQN._get_queue_length, DQN._get_current_phase.
  run. intro Hrun. split_replies; inversion Hrun; reflexivity.
Qed.

End Observations.

(** * Further properties of [step] *)

Section Accounting.
Context {Sim : Type} `{TraCI Sim}.

(** The fields of [self] after a returning DQN [step], from the fields
    [e3] it had when the observation came back. *)
Lemma dqn_step_effect (action : Z) (w w' : World DQN.SumoEnv Sim)
      (r : StepResult) :
  DQN.step action w = (Ok r, w') ->
  exists e3,
    (e3 = DQN.set_current_simulation_step (DQN.step_count (env w)) (env w)
     \/ e3 = DQN.set_last_switch_step
               (DQN.step_count (env w))
               (DQN.set_current_simulation_step (DQN.step_count (env w))
                                                (env w)))
    /\ reward r = _get_reward (observation r)
    /\ List.length (observation r) = 7%nat
    /\ let e4 :=
         DQN.set_step_count
           (DQN.step_count e3 + 1)
           (DQN.set_total_queue
              (DQN.total_queue e3 + py_sum (all_but_last (observation r)))
              (DQN.set_cumulative_reward
                 (DQN.cumulative_reward e3 + reward r) e3)) in
       (truncated r = false /\ env w' = e4 /\ info r = [])
       \/ (truncated r = true
           /\ env w' = DQN.append_histories
                         (DQN.episode_count e4 - 1)
                         (DQN.cumulative_reward e4) (DQN.avg_queue_of e4) e4
           /\ info r
              = [("episode", VInt (DQN.episode_count e4));
                 ("cumulative_reward",
                  VNum (Exact (DQN.cumulative_reward e4)));
                 ("avg_queue_length", VNum (DQN.avg_queue_of e4))]).
Proof.
  unfold DQN.step, DQN.episode_summary. run.
  destruct (DQN._apply_action _ _ _) as [[[]|e] w1] eqn:Ea; run;
    [|discriminate].
  apply dqn_apply_action_env in Ea. cbn [env] in Ea.
  destruct (traci_simulationStep (sim w1)) as [[[]|msg] s2]; run;
    [|discriminate].
  destruct (DQN._get_state _) as [[o|e] w3] eqn:Es; run; [|discriminate].
  pose proof (dqn_get_state_length _ Es) as Hlen.
  apply dqn_get_state_env in Es. cbn [env] in Es.
  cbn [orb]. intro Hrun. exists (env w3). split.
  { rewrite Es. destruct Ea as [-> | ->]; [now left | now right]. }
  destruct (_ >=? _) eqn:Hge; inversion Hrun; subst; clear Hrun;
    cbn [reward observation truncated info];
    (split; [reflexivity|]); (split; [exact Hlen|]);
    [right | left]; repeat split; try reflexivity; exact Hge.
Qed.

(** X9. A returning [step] of [DQN_working.py] books the step: the reward
    is minus the queue sum of the observation it returns,
    [cumulative_reward] grows by the reward and [total_queue] shrinks by
    it, so their sum is kept; [step_count] grows by one and
    [current_simulation_step] is the old [step_count]. *)
Theorem dqn_step_books_reward_and_queue
        (action : Z) (w w' : World DQN.SumoEnv Sim) (r : StepResult) :
  DQN.step action w = (Ok r, w') ->
  reward r = - py_sum (all_but_last (observation r))
  /\ DQN.cumulative_reward (env w')
     = DQN.cumulative_reward (env w) + reward r
  /\ DQN.total_queue (env w') = DQN.total_queue (env w) - reward r
  /\ DQN.cumulative_reward (env w') + DQN.total_queue (env w')
     = DQN.cumulative_reward (env w) + DQN.total_queue (env w)
  /\ DQN.step_count (env w') = DQN.step_count (env w) + 1
  /\ DQN.current_simulation_step (env w') = DQN.step_count (env w).
Proof.
  intro Hstep.
  destruct (dqn_step_effect _ _ Hstep) as (e3 & He3 & Hrew & _ & Hend).
  unfold _get_reward in Hrew. cbv zeta in Hrew, Hend.
  split; [exact Hrew|].
  destruct Hend as [(_ & -> & _) | (_ & -> & _)];
    destruct He3 as [-> | ->]; fields; repeat split; lia.
Qed.

(** X10. The episode record of [DQN_working.py].  A returning [step] whose
    result is truncated appends one entry to each of [episode_history],
    [reward_history] and [queue_history]: the episode number minus one,
    the cumulative reward, and the average queue; [info] carries the
    episode number, the cumulative reward and the same average.  The
    average is the floating-point quotient of [total_queue] by
    [step_count] as the step leaves them, whenever [step_count] was not
    negative before the step; no value is given for it.  A step that is
    not truncated leaves the histories alone and returns an empty [info].
    [braking_history] is never touched. *)
Theorem dqn_step_appends_episode_record
        (action : Z) (w w' : World DQN.SumoEnv Sim) (r : StepResult) :
  DQN.step action w = (Ok r, w') ->
  DQN.braking_history (env w') = DQN.braking_history (env w)
  /\ (truncated r = false ->
      DQN.episode_history (env w') = DQN.episode_history (env w)
      /\ DQN.reward_history (env w') = DQN.reward_history (env w)
      /\ DQN.queue_history (env w') = DQN.queue_history (env w)
      /\ info r = [])
  /\ (truncated r = true ->
      DQN.episode_history (env w')
      = DQN.episode_history (env w) ++ [DQN.episode_count (env w) - 1]
      /\ DQN.reward_history (env w')
         = DQN.reward_history (env w) ++ [DQN.cumulative_reward (env w')]
      /\ DQN.queue_history (env w')
         = DQN.queue_history (env w) ++ [DQN.avg_queue_of (env w')]
      /\ info r
         = [("episode", VInt (DQN.episode_count (env w)));
            ("cumulative_reward",
             VNum (Exact (DQN.cumulative_reward (env w'))));
            ("avg_queue_length", VNum (DQN.avg_queue_of (env w')))])
  /\ (0 <= DQN.step_count (env w) ->
      DQN.avg_queue_of (env w')
      = Div (DQN.total_queue (env w')) (DQN.step_count (env w'))).
Proof.
  intro Hstep.
  destruct (dqn_step_effect _ _ Hstep) as (e3 & He3 & _ & _ & Hend).
  cbv zeta in Hend.
  assert (Hcount : DQN.step_count (env w') = DQN.step_count (env w) + 1)
    by (destruct Hend as [(_ & -> & _) | (_ & -> & _)];
        destruct He3 as [-> | ->]; reflexivity).
  split; [|split; [|split]].
  - destruct Hend as [(_ & -> & _) | (_ & -> & _)];
      destruct He3 as [-> | ->]; reflexivity.
  - intro Hfalse.
    destruct Hend as [(_ & -> & ->) | (Htr & _)]; [|congruence].
    destruct He3 as [-> | ->]; repeat split; reflexivity.
  - intro Htrue.
    destruct Hend as [(Htr & _) | (_ & -> & ->)]; [congruence|].
    destruct He3 as [-> | ->]; repeat split; reflexivity.
  - intro Hpos. unfold DQN.avg_queue_of. rewrite Hcount.
    assert (Hlt : (0 <? DQN.step_count (env w) + 1) = true)
      by (apply Z.ltb_lt; lia).
    now rewrite Hlt.
Qed.

End Accounting.

Section PpoSteps.
Context {Sim : Type} `{TraCI Sim}.

(** Reads the observation in the goal, keeping what the read preserves. *)
Ltac observe :=
  match goal with
  | |- context [PPO._get_state ?w2] =>
      let o := fresh "o" in
      let w3 := fresh "w" in
      let Hs := fresh "Hs" in
      let He := fresh "He" in
      let Hl := fresh "Hl" in
      destruct (ppo_get_state_total w2) as (o & w3 & Hs & He & _ & Hl);
      rewrite Hs; run
  end.

(** Every way the PPO [step] can end, after [_apply_action] left [w1]. *)
Ltac ppo_step_paths w1 :=
  destruct (traci_simulationStep (sim w1)) as [[[]|?] ?s]; run;
  [destruct (simulation_getTime _) as [?t|?]; run;
   [destruct (vehicle_getIDCount _) as [?v|?]; run;
    [destruct (Qlt_le_dec _ 0); run; [|destruct (_ && _); run]|]|]|];
  repeat observe.

(** X12. However [step] of [PPO.py] ends, by a result or by an exception,
    it has advanced [current_simulation_step] by exactly one and kept
    [total_steps], [min_green_steps] and [valid_ids]. *)
Theorem ppo_step_advances_counter
        (action : Z) (w w' : World PPO.SumoEnv Sim) (r : Res StepResult) :
  PPO.step action w = (r, w') ->
  PPO.current_simulation_step (env w')
  = PPO.current_simulation_step (env w) + 1
  /\ PPO.total_steps (env w') = PPO.total_steps (env w)
  /\ PPO.min_green_steps (env w') = PPO.min_green_steps (env w)
  /\ PPO.valid_ids (env w') = PPO.valid_ids (env w).
Proof.
  unfold PPO.step. run.
  destruct (PPO._apply_action _ _) as [[[]|e1] w1] eqn:Ha; run;
    apply ppo_apply_action_env in Ha; cbn [env] in Ha.
  - ppo_step_paths w1; intro Hrun; inversion Hrun; subst;
      repeat match goal with
             | He : env _ = _ |- _ => rewrite He; clear He
             end;
      cbn [env]; destruct Ha as [-> | ->]; repeat split; reflexivity.
  - intro Hrun; inversion Hrun; subst.
    destruct Ha as [-> | ->]; repeat split; reflexivity.
Qed.

(** X13. Every observation a [step] returns has seven fields, in both
    files and on every path, the early returns of [PPO.py] included. *)
Theorem step_observation_has_seven_fields :
  (forall (action : Z) (w w' : World DQN.SumoEnv Sim) (r : StepResult),
      DQN.step action w = (Ok r, w') ->
      List.length (observation r) = 7%nat)
  /\ (forall (action : Z) (w w' : World PPO.SumoEnv Sim) (r : StepResult),
         PPO.step action w = (Ok r, w') ->
         List.length (observation r) = 7%nat).
Proof.
  split.
  - intros action w w' r Hstep.
    destruct (dqn_step_effect _ _ Hstep) as (_ & _ & _ & Hlen & _).
    exact Hlen.
  - intros action w w' r. unfold PPO.step. run.
    destruct (PPO._apply_action _ _) as [[[]|e1] w1]; run; [|discriminate].
    ppo_step_paths w1; intro Hrun; inversion Hrun; subst;
      cbn [observation]; assumption.
Qed.

(** X22. The two shapes of a result of [step] in [PPO.py]: a regular one,
    with an empty [info], the reward of the returned observation and
    [terminated] telling whether [current_simulation_step] has reached
    [total_steps]; or an early one, with reward 0, [terminated] true and
    one diagnostic under ["error"].  [truncated] is false in both. *)
Theorem ppo_step_result_shapes
        (action : Z) (w w' : World PPO.SumoEnv Sim) (r : StepResult) :
  PPO.step action w = (Ok r, w') ->
  truncated r = false
  /\ ((info r = []
       /\ reward r = _get_reward (observation r)
       /\ terminated r
          = (PPO.current_simulation_step (env w')
             >=? PPO.total_steps (env w')))
      \/ (exists msg,
             info r = [("error", VStr msg)]
             /\ reward r = 0
             /\ terminated r = true)).
Proof.
  unfold PPO.step. run.
  destruct (PPO._apply_action _ _) as [[[]|e1] w1]; run; [|discriminate].
  ppo_step_paths w1; intro Hrun; inversion Hrun; subst;
    cbn [truncated info reward terminated observation env];
    (split; [reflexivity|]);
    solve [left; repeat split; reflexivity
          | right; eexists; repeat split; reflexivity].
Qed.

End PpoSteps.

(** * Further properties of [reset] *)

Section DqnReset.
Context {Sim : Type} `{TraCI Sim}.

(** X14. A returning [reset] of [DQN_working.py] starts a fresh episode:
    the counters and sums are 0, [last_switch_step] is
    [-min_green_steps], so action 1 passes the dwell test at the very first
    step, the episode number has grown by one and is reported in [info],
    the observation has seven fields, and the histories and settings are
    kept.  [reset] does return when no connection is loaded and the start
    and the seven queries come back. *)
Theorem dqn_reset_starts_fresh_episode :
  (forall (w w' : World DQN.SumoEnv Sim) (o : Observation) (i : Info),
      DQN.reset w = (Ok (o, i), w') ->
      DQN.step_count (env w') = 0
      /\ DQN.current_simulation_step (env w') = 0
      /\ DQN.cumulative_reward (env w') = 0
      /\ DQN.total_queue (env w') = 0
      /\ DQN.last_switch_step (env w') = - DQN.min_green_steps (env w)
      /\ DQN.min_green_steps (env w')
         <= DQN.step_count (env w') - DQN.last_switch_step (env w')
      /\ DQN.episode_count (env w') = DQN.episode_count (env w) + 1
      /\ i = [("episode", VInt (DQN.episode_count (env w) + 1))]
      /\ List.length o = 7%nat
      /\ DQN.min_green_steps (env w') = DQN.min_green_steps (env w)
      /\ DQN.max_steps (env w') = DQN.max_steps (env w)
      /\ DQN.episode_history (env w') = DQN.episode_history (env w)
      /\ DQN.reward_history (env w') = DQN.reward_history (env w)
      /\ DQN.queue_history (env w') = DQN.queue_history (env w))
  /\ (forall (w w3 : World DQN.SumoEnv Sim) (s1 : Sim) (o : Observation),
         traci_isLoaded (sim w) = false ->
         traci_start (DQN.config (env w)) None (sim w) = (Done tt, s1) ->
         DQN._get_state
           (mkWorld (DQN.set_episode_count
                       (DQN.episode_count (env w) + 1)
                       (DQN.set_current_simulation_step
                          0 (DQN.set_last_switch_step
                               (- DQN.min_green_steps (env w))
                               (DQN.set_total_queue
                                  0 (DQN.set_cumulative_reward
                                       0 (DQN.set_step_count 0 (env w)))))))
                    s1
                    (calls w ++ [CIsLoaded;
                                 CStart (DQN.config (env w)) None]))
         = (Ok o, w3) ->
         exists i, DQN.reset w = (Ok (o, i), w3)).
Proof.
  split.
  - intros w w' o i. unfold DQN.reset. run.
    destruct (traci_isLoaded (sim w)); run.
    + destruct (traci_close (sim w)) as [[[]|m] s0]; run; [|discriminate].
      destruct (traci_start _ _ _) as [[[]|m] s1]; run; [|discriminate].
      destruct (DQN._get_state _) as [[o'|e] w3] eqn:Es; run;
        [|discriminate].
      pose proof (dqn_get_state_length _ Es) as Hlen.
      apply dqn_get_state_env in Es. cbn [env] in Es.
      intro Hrun. inversion Hrun; subst. rewrite Es. fields.
      repeat split; try reflexivity; try assumption; lia.
    + destruct (traci_start _ _ _) as [[[]|m] s1]; run; [|discriminate].
      destruct (DQN._get_state _) as [[o'|e] w3] eqn:Es; run;
        [|discriminate].
      pose proof (dqn_get_state_length _ Es) as Hlen.
      apply dqn_get_state_env in Es. cbn [env] in Es.
      intro Hrun. inversion Hrun; subst. rewrite Es. fields.
      repeat split; try reflexivity; try assumption; lia.
  - intros w w3 s1 o Hoff Hstart Hstate. unfold DQN.reset. run.
    rewrite Hoff. run. rewrite Hstart. run. fields.
    rewrite <- app_assoc. cbn [app]. rewrite Hstate. run.
    eexists. reflexivity.
Qed.

(** X15. [reset] of [DQN_working.py] closes a loaded connection before it
    starts a new one, and the new start goes to the simulator the close
    left.  When the close or the start raises, [reset] raises with it and
    no field of [self] is reset; after a failing close no start is
    attempted. *)
Theorem dqn_reset_closes_loaded_connection_first :
  (forall (w : World DQN.SumoEnv Sim) (s' : Sim) (msg : string),
      traci_isLoaded (sim w) = true ->
      traci_close (sim w) = (Fail msg, s') ->
      DQN.reset w
      = (Raise (TraCIException msg),
         mkWorld (env w) s' (calls w ++ [CIsLoaded; CClose])))
  /\ (forall (w : World DQN.SumoEnv Sim) (s0 s1 : Sim) (msg : string),
         traci_isLoaded (sim w) = true ->
         traci_close (sim w) = (Done tt, s0) ->
         traci_start (DQN.config (env w)) None s0 = (Fail msg, s1) ->
         DQN.reset w
         = (Raise (TraCIException msg),
            mkWorld (env w) s1
                    (calls w ++ [CIsLoaded; CClose;
                                 CStart (DQN.config (env w)) None]))).
Proof.
  split.
  - intros w s' msg Hon Hclose. unfold DQN.reset. run.
    rewrite Hon. run. rewrite Hclose. now rewrite <- app_assoc.
  - intros w s0 s1 msg Hon Hclose Hstart. unfold DQN.reset. run.
    rewrite Hon. run. rewrite Hclose. run. rewrite Hstart.
    now rewrite <- !app_assoc.
Qed.

End DqnReset.

Section PpoReset.
Context {Sim : Type} `{TraCI Sim}.

(** The settings [close_previous] and [connect] leave alone. *)
Lemma close_previous_keeps (w w' : World PPO.SumoEnv Sim) (r : Res unit) :
  PPO.close_previous w = (r, w') ->
  PPO.tls_id (env w') = PPO.tls_id (env w)
  /\ PPO.min_green_steps (env w') = PPO.min_green_steps (env w)
  /\ PPO.total_steps (env w') = PPO.total_steps (env w).
Proof.
  unfold PPO.close_previous. run.
  destruct (PPO.connection_active (env w)); run.
  - destruct (traci_close (sim w)) as [[[]|m] s']; run;
      intro Hrun; inversion Hrun; repeat split.
  - intro Hrun; inversion Hrun; repeat split.
Qed.

Lemma connect_keeps (retry_count : Z) (w w' : World PPO.SumoEnv Sim)
      (r : Res unit) :
  PPO.connect retry_count w = (r, w') ->
  PPO.tls_id (env w') = PPO.tls_id (env w)
  /\ PPO.min_green_steps (env w') = PPO.min_green_steps (env w)
  /\ PPO.total_steps (env w') = PPO.total_steps (env w).
Proof.
  unfold PPO.connect, PPO._validate_ids. run.
  destruct (traci_start _ _ _) as [[[]|m] s1]; run;
    [|intro Hrun; inversion Hrun; repeat split].
  destruct (traci_simulationStep _) as [[[]|m] s2]; run;
    [|intro Hrun; inversion Hrun; repeat split].
  destruct (trafficlight_getIDList _); run;
    [|intro Hrun; inversion Hrun; repeat split].
  destruct (lanearea_getIDList _); run;
    [|intro Hrun; inversion Hrun; repeat split].
  destruct (negb _); run; [intro Hrun; inversion Hrun; repeat split|].
  destruct (negb _); run; intro Hrun; inversion Hrun; repeat split.
Qed.

(** A connection that stands is marked active. *)
Lemma connect_marks_active (retry_count : Z) (w w' : World PPO.SumoEnv Sim) :
  PPO.connect retry_count w = (Ok tt, w') ->
  PPO.connection_active (env w') = true.
Proof.
  unfold PPO.connect, PPO._validate_ids. run.
  destruct (traci_start _ _ _) as [[[]|m] s1]; run; [|discriminate].
  destruct (traci_simulationStep _) as [[[]|m] s2]; run; [|discriminate].
  destruct (trafficlight_getIDList _); run;
    [|intro Hrun; inversion Hrun; reflexivity].
  destruct (lanearea_getIDList _); run;
    [|intro Hrun; inversion Hrun; reflexivity].
  destruct (negb _); run; [intro Hrun; inversion Hrun; reflexivity|].
  destruct (negb _); run; intro Hrun; inversion Hrun; reflexivity.
Qed.

(** What a returning [start_episode] leaves. *)
Lemma start_episode_effect (w1 w' : World PPO.SumoEnv Sim)
      (o : Observation) (i : Info) :
  PPO.start_episode w1 = (Ok (o, i), w') ->
  i = []
  /\ List.length o = 7%nat
  /\ env w' = PPO.set_current_phase
                0 (PPO.set_phase_start_step
                     0 (PPO.set_last_switch_step
                          (- PPO.min_green_steps (env w1))
                          (PPO.set_current_simulation_step 0 (env w1)))).
Proof.
  unfold PPO.start_episode. run. fields.
  destruct (trafficlight_setPhase _ _ _) as [[[]|m] s']; run;
    [|discriminate].
  match goal with
  | |- context [PPO._get_state ?w2] =>
      destruct (ppo_get_state_total w2) as (o' & w3 & Hs & He & _ & Hl)
  end.
  rewrite Hs. run. intro Hrun. inversion Hrun; subst.
  repeat split; [exact Hl | exact He].
Qed.

(** An attempt that connects goes on to start the episode. *)
Lemma reset_connected (retry_count : Z) (w w0 w1 : World PPO.SumoEnv Sim) :
  PPO.close_previous w = (Ok tt, w0) ->
  PPO.connect retry_count w0 = (Ok tt, w1) ->
  PPO.reset retry_count w = Some (PPO.start_episode w1).
Proof.
  intros Hclose Hconnect. unfold PPO.reset, PPO.reset_depth.
  cbn [PPO.reset_fuel]. now rewrite Hclose, Hconnect.
Qed.

(** What a returning [reset] leaves, for every bound on the recursion. *)
Lemma reset_fuel_effect (fuel : nat) :
  forall (retry_count : Z) (w w' : World PPO.SumoEnv Sim) (o : Observation)
         (i : Info),
    PPO.reset_fuel fuel retry_count w = Some (Ok (o, i), w') ->
    i = []
    /\ List.length o = 7%nat
    /\ PPO.current_simulation_step (env w') = 0
    /\ PPO.last_switch_step (env w') = - PPO.min_green_steps (env w)
    /\ PPO.phase_start_step (env w') = 0
    /\ PPO.current_phase (env w') = 0
    /\ PPO.connection_active (env w') = true
    /\ PPO.min_green_steps (env w') = PPO.min_green_steps (env w)
    /\ PPO.total_steps (env w') = PPO.total_steps (env w)
    /\ PPO.tls_id (env w') = PPO.tls_id (env w)
    /\ PPO.max_retries (env w') = PPO.max_retries (env w).
Proof.
  induction fuel as [|fuel IH]; intros retry_count w w' o i;
    cbn [PPO.reset_fuel]; [discriminate|].
  destruct (PPO.close_previous w) as [r0 w0] eqn:Hclose.
  destruct (close_previous_frame _ Hclose) as (-> & _ & _ & Hmax0 & _).
  destruct (close_previous_keeps _ Hclose) as (Htls0 & Hmin0 & Htot0).
  destruct (PPO.connect retry_count w0) as [[[]|[msg| |msg]] w1] eqn:Hconnect;
    destruct (connect_frame _ _ Hconnect) as (_ & Hmax1 & _);
    destruct (connect_keeps _ _ Hconnect) as (Htls1 & Hmin1 & Htot1).
  - intro Hrun. inversion Hrun as [Hstart]; clear Hrun.
    destruct (start_episode_effect _ Hstart) as (-> & Hlen & ->).
    pose proof (connect_marks_active _ _ Hconnect) as Hactive. fields.
    repeat split; try assumption; congruence.
  - destruct (retry_count <? PPO.max_retries (env w1)); [|discriminate].
    unfold sleep, log. cbn [env sim calls]. intro Hrun.
    apply IH in Hrun. cbn [env] in Hrun.
    destruct Hrun as (Hi & Hlen & Hcur & Hlast & Hps & Hcp & Hact & Hmin
                      & Htot & Htls & Hmax).
    repeat split; try assumption; congruence.
  - discriminate.
  - discriminate.
Qed.

(** X16. A returning [reset] of [PPO.py] starts a fresh episode, whatever
    number of attempts it took: [current_simulation_step],
    [phase_start_step] and [current_phase] are 0, [last_switch_step] is
    [-min_green_steps], so action 1 passes the dwell test at the first
    step, the connection is marked active, [info] is empty, the
    observation has seven fields and the settings are kept. *)
Theorem ppo_reset_starts_fresh_episode
        (retry_count : Z) (w w' : World PPO.SumoEnv Sim) (o : Observation)
        (i : Info) :
  PPO.reset retry_count w = Some (Ok (o, i), w') ->
  i = []
  /\ List.length o = 7%nat
  /\ PPO.current_simulation_step (env w') = 0
  /\ PPO.last_switch_step (env w') = - PPO.min_green_steps (env w)
  /\ PPO.min_green_steps (env w')
     <= PPO.current_simulation_step (env w') + 1
        - PPO.last_switch_step (env w')
  /\ PPO.phase_start_step (env w') = 0
  /\ PPO.current_phase (env w') = 0
  /\ PPO.connection_active (env w') = true
  /\ PPO.min_green_steps (env w') = PPO.min_green_steps (env w)
  /\ PPO.total_steps (env w') = PPO.total_steps (env w)
  /\ PPO.tls_id (env w') = PPO.tls_id (env w)
  /\ PPO.max_retries (env w') = PPO.max_retries (env w).
Proof.
  intro Hreset. apply reset_fuel_effect in Hreset.
  destruct Hreset as (Hi & Hlen & Hcur & Hlast & Hps & Hcp & Hact & Hmin
                      & Htot & Htls & Hmax).
  repeat split; try assumption. lia.
Qed.

(** X17. The phase command [reset] of [PPO.py] issues once connected
    stands outside its [try]: when it raises, [reset] raises with it,
    however many retries are left, and the connection stays marked
    active. *)
Theorem ppo_reset_does_not_retry_phase_command
        (retry_count : Z) (w w1 : World PPO.SumoEnv Sim) (s' : Sim)
        (msg : string) :
  PPO.connection_active (env w) = false ->
  PPO.connect retry_count w = (Ok tt, w1) ->
  trafficlight_setPhase (PPO.tls_id (env w1)) 0 (sim w1) = (Fail msg, s') ->
  exists w',
    PPO.reset retry_count w = Some (Raise (TraCIException msg), w')
    /\ PPO.connection_active (env w') = true
    /\ sim w' = s'
    /\ calls w' = calls w1 ++ [CSetPhase (PPO.tls_id (env w1)) 0].
Proof.
  intros Hoff Hconnect Hset.
  rewrite (@reset_connected retry_count w w w1
                             (close_previous_inactive _ Hoff) Hconnect).
  pose proof (connect_marks_active _ _ Hconnect) as Hactive.
  unfold PPO.start_episode. run. fields. rewrite Hset.
  eexists. split; [reflexivity|]. cbn [env sim calls]. fields.
  repeat split. exact Hactive.
Qed.

End PpoReset.

Section PpoRetry.
Context {Sim : Type} `{TraCI Sim}.

(** Dropping the connection first does not change what [reset] does. *)
Lemma reset_after_close (retry_count : Z) (w w0 : World PPO.SumoEnv Sim) :
  PPO.close_previous w = (Ok tt, w0) ->
  PPO.reset retry_count w = PPO.reset retry_count w0.
Proof.
  intro Hclose.
  destruct (close_previous_frame _ Hclose) as (_ & Hoff & _ & Hmax & _).
  unfold PPO.reset, PPO.reset_depth. rewrite Hmax.
  cbn [PPO.reset_fuel]. rewrite Hclose.
  now rewrite (close_previous_inactive _ Hoff).
Qed.

End PpoRetry.

(** * [EpisodeCallback] *)

(** Environments among those seen that had used up their budget. *)
Lemma on_steps_counts_episodes (seen : list DQN.SumoEnv) :
  forall cb : Callback.EpisodeCallback,
    snd (Callback.on_steps seen cb)
    = Callback.mkCallback
        (Callback.total_episodes cb)
        (Callback.current_episode cb
         + Z.of_nat (List.length (filter Callback.at_budget seen))).
Proof.
  induction seen as [|e seen IH]; intro cb; cbn [Callback.on_steps].
  - destruct cb; cbn. now rewrite Z.add_0_r.
  - unfold Callback._on_step, Callback.at_budget in *. cbn [filter].
    destruct (DQN.step_count e >=? DQN.max_steps e).
    + cbv zeta.
      destruct (_ >=? _);
        destruct (Callback.on_steps seen _) as [answers cb''] eqn:Hrest;
        pose proof (IH (Callback.mkCallback
                          (Callback.total_episodes cb)
                          (Callback.current_episode cb + 1))) as Hcb;
        rewrite Hrest in Hcb; cbn [snd] in *; rewrite Hcb;
        cbn [Callback.total_episodes Callback.current_episode List.length];
        f_equal; lia.
    + destruct (Callback.on_steps seen cb) as [answers cb''] eqn:Hrest.
      pose proof (IH cb) as Hcb. rewrite Hrest in Hcb. exact Hcb.
Qed.

(** X20. [EpisodeCallback._on_step] over successive calls.  After any
    number of calls [current_episode] is its initial value plus the number
    of calls that saw [step_count >= max_steps]; and the answer of a call
    is [False], which stops training, exactly when that call sees
    [step_count >= max_steps] and the count including it has reached
    [total_episodes]. *)
Theorem callback_stops_at_total_episodes (seen : list DQN.SumoEnv) :
  forall (cb : Callback.EpisodeCallback),
    snd (Callback.on_steps seen cb)
    = Callback.mkCallback
        (Callback.total_episodes cb)
        (Callback.current_episode cb
         + Z.of_nat (List.length (filter Callback.at_budget seen)))
    /\ forall (k : nat) (e : DQN.SumoEnv),
        nth_error seen k = Some e ->
        nth_error (fst (Callback.on_steps seen cb)) k
        = Some (negb (Callback.at_budget e
                      && (Callback.current_episode cb
                          + Z.of_nat (List.length
                                        (filter Callback.at_budget
                                                (firstn (S k) seen)))
                          >=? Callback.total_episodes cb))).
Proof.
  induction seen as [|e0 seen IH]; intro cb;
    (split; [apply on_steps_counts_episodes|]); intros k e Hk.
  - destruct k; discriminate.
  - cbn [Callback.on_steps].
    destruct (Callback._on_step e0 cb) as [go cb'] eqn:Hon.
    destruct (Callback.on_steps seen cb') as [answers cb''] eqn:Hrest.
    cbn [fst]. unfold Callback._on_step in Hon. fold (Callback.at_budget e0) in Hon.
    destruct k as [|k]; cbn [nth_error firstn filter] in *.
    + inversion Hk; subst e0. clear Hk.
      destruct (Callback.at_budget e); cbn [List.length andb negb].
      * cbv zeta in Hon. cbn [Callback.current_episode Callback.total_episodes] in Hon.
        change (Z.of_nat 1) with 1.
        destruct (_ >=? _); inversion Hon; reflexivity.
      * inversion Hon; reflexivity.
    + destruct (IH cb') as [_ Hnth]. specialize (Hnth k e Hk).
      rewrite Hrest in Hnth. cbn [fst] in Hnth. rewrite Hnth.
      destruct (Callback.at_budget e0); cbn [List.length].
      * cbv zeta in Hon.
        assert (Hcb' : cb' = Callback.mkCallback
                               (Callback.total_episodes cb)
                               (Callback.current_episode cb + 1))
          by (destruct (_ >=? _); inversion Hon; reflexivity).
        rewrite Hcb'. cbn [Callback.current_episode Callback.total_episodes].
        match goal with
        | |- context [Z.of_nat (S ?n)] =>
            replace (Z.of_nat (S n)) with (1 + Z.of_nat n) by lia
        end.
        now rewrite Z.add_assoc.
      * inversion Hon; reflexivity.
Qed.

(** * Further properties of [close] and of failing steps *)

Section Failures.
Context {Sim : Type} `{TraCI Sim}.

(** X21. A [traci.close] that raises.  [close] of [PPO.py] swallows the
    exception and leaves [connection_active] true, so a later [close] or
    [reset] tries again; [close] of [DQN_working.py] lets the exception
    out. *)
Theorem failing_close :
  (forall (w : World PPO.SumoEnv Sim) (s' : Sim) (msg : string),
      PPO.connection_active (env w) = true ->
      traci_close (sim w) = (Fail msg, s') ->
      PPO.close w = (Ok tt, mkWorld (env w) s' (calls w ++ [CClose])))
  /\ (forall (w : World DQN.SumoEnv Sim) (s' : Sim) (msg : string),
         traci_isLoaded (sim w) = true ->
         traci_close (sim w) = (Fail msg, s') ->
         DQN.close w
         = (Raise (TraCIException msg),
            mkWorld (env w) s' (calls w ++ [CIsLoaded; CClose]))).
Proof.
  split.
  - intros w s' msg Hon Hclose. unfold PPO.close. run.
    rewrite Hon. run. now rewrite Hclose.
  - intros w s' msg Hon Hclose. unfold DQN.close. run.
    rewrite Hon. run. rewrite Hclose. now rewrite <- app_assoc.
Qed.

(** X23. A [step] of [DQN_working.py] that raises books nothing:
    [step_count], [cumulative_reward], [total_queue], the episode number
    and the histories are as before; only [current_simulation_step], and
    [last_switch_step] if a switch was accepted before the failure, have
    been assigned. *)
Theorem dqn_failed_step_books_nothing
        (action : Z) (w w' : World DQN.SumoEnv Sim) (e : exn) :
  DQN.step action w = (Raise e, w') ->
  env w' = DQN.set_current_simulation_step (DQN.step_count (env w)) (env w)
  \/ env w' = DQN.set_last_switch_step
                (DQN.step_count (env w))
                (DQN.set_current_simulation_step (DQN.step_count (env w))
                                                 (env w)).
Proof.
  unfold DQN.step, DQN.episode_summary. run.
  destruct (DQN._apply_action _ _ _) as [[[]|e1] w1] eqn:Ea; run;
    apply dqn_apply_action_env in Ea; cbn [env] in Ea;
    [|intro Hrun; inversion Hrun; subst; exact Ea].
  destruct (traci_simulationStep (sim w1)) as [[[]|msg] s2]; run;
    [|intro Hrun; inversion Hrun; subst; exact Ea].
  destruct (DQN._get_state _) as [[o|e2] w3] eqn:Es; run;
    apply dqn_get_state_env in Es; cbn [env] in Es.
  - cbn [orb]. destruct (_ >=? _); discriminate.
  - intro Hrun; inversion Hrun; subst. rewrite Es. exact Ea.
Qed.

End Failures.

(** * The further properties on scripted scenes *)

(** Action 0 in [DQN_working.py] and the stray action 2 in [PPO.py]. *)
Lemma other_actions_do_nothing_witness :
  DQN._apply_action 0 DQN.traffic_light_id (Scene.dqn_on (Toy.junction 3))
  = (Ok tt, Scene.dqn_on (Toy.junction 3))
  /\ PPO._apply_action 2 (Scene.ppo_on (Toy.junction 3))
     = (Ok tt, Scene.ppo_on (Toy.junction 3)).
Proof.
  split.
  - apply (proj1 other_actions_do_nothing). discriminate.
  - apply (proj2 other_actions_do_nothing). discriminate.
Defined.

(** From phase 3 of four, the command issued carries index 0. *)
Lemma commanded_phase_is_in_range_witness :
  (exists cs,
      calls (snd (DQN._apply_action 1 DQN.traffic_light_id
                                    (Scene.dqn_on (Toy.junction 3))))
      = calls (Scene.dqn_on (Toy.junction 3)) ++ cs
      /\ forall tls p,
          In (CSetPhase tls p) cs ->
          tls = DQN.traffic_light_id
          /\ exists program others,
              trafficlight_getAllProgramLogics
                DQN.traffic_light_id (sim (Scene.dqn_on (Toy.junction 3)))
              = Done (program :: others)
              /\ 0 <= p < Z.of_nat (List.length (phases program)))
  /\ (exists cs,
         calls (snd (PPO._apply_action 1 (Scene.ppo_on (Toy.junction 3))))
         = calls (Scene.ppo_on (Toy.junction 3)) ++ cs
         /\ forall tls p,
             In (CSetPhase tls p) cs ->
             tls = PPO.tls_id (env (Scene.ppo_on (Toy.junction 3)))
             /\ exists program others,
                 trafficlight_getAllProgramLogics
                   (PPO.tls_id (env (Scene.ppo_on (Toy.junction 3))))
                   (sim (Scene.ppo_on (Toy.junction 3)))
                 = Done (program :: others)
                 /\ 0 <= p < Z.of_nat (List.length (phases program))).
Proof.
  split.
  - apply (proj1 commanded_phase_is_in_range
                 (Scene.dqn_on (Toy.junction 3))
                 (snd (DQN._apply_action 1 DQN.traffic_light_id
                                         (Scene.dqn_on (Toy.junction 3))))
                 DQN.traffic_light_id 1 (Ok tt)).
    vm_compute. reflexivity.
  - apply (proj2 commanded_phase_is_in_range
                 (Scene.ppo_on (Toy.junction 3))
                 (snd (PPO._apply_action 1 (Scene.ppo_on (Toy.junction 3))))
                 1 (Ok tt)).
    vm_compute. reflexivity.
Defined.

(** No program reported: [IndexError], in both files. *)
Lemma empty_program_list_raises_index_error_witness :
  fst (DQN._apply_action 1 DQN.traffic_light_id
                         (Scene.dqn_on Scene.no_program))
  = Raise IndexError
  /\ fst (PPO._apply_action 1 (Scene.ppo_on Scene.no_program))
     = Raise IndexError.
Proof.
  split.
  - rewrite (proj1 empty_program_list_raises_index_error
                   (Scene.dqn_on Scene.no_program) DQN.traffic_light_id 0);
      [reflexivity | vm_compute; discriminate | reflexivity | reflexivity].
  - rewrite (proj2 empty_program_list_raises_index_error
                   (Scene.ppo_on Scene.no_program));
      [reflexivity | reflexivity | vm_compute; discriminate | reflexivity].
Defined.

(** A program without phases: no command, no switch recorded. *)
Lemma program_without_phases_is_skipped_witness :
  DQN._apply_action 1 DQN.traffic_light_id (Scene.dqn_on Scene.bare_program)
  = (Ok tt,
     mkWorld (DQN.__init__ DQN.Sumo_config) Scene.bare_program
             [CGetPhase "41896158"; CGetAllProgramLogics "41896158"])
  /\ PPO._apply_action 1 (Scene.ppo_on Scene.bare_program)
     = (Ok tt,
        mkWorld (PPO.set_valid_ids true (PPO.__init__ 7)) Scene.bare_program
                [CGetAllProgramLogics "41896158"]).
Proof.
  split.
  - apply (proj1 program_without_phases_is_skipped
                 (Scene.dqn_on Scene.bare_program) DQN.traffic_light_id 0
                 {| programID := "0"; phases := [] |} []);
      [vm_compute; discriminate | reflexivity | reflexivity | reflexivity].
  - apply (proj2 program_without_phases_is_skipped
                 (Scene.ppo_on Scene.bare_program)
                 {| programID := "0"; phases := [] |} []);
      [reflexivity | vm_compute; discriminate | reflexivity | reflexivity].
Defined.

(** A traffic light the phase query does not know: [DQN_working.py]
    raises, [PPO.py] commands phase 1. *)
Lemma failing_phase_query_witness :
  DQN._apply_action 1 DQN.traffic_light_id (Scene.dqn_on Scene.unknown_light)
  = (Raise (TraCIException "Traffic light is not known"),
     mkWorld (DQN.__init__ DQN.Sumo_config) Scene.unknown_light
             [CGetPhase "41896158"])
  /\ PPO._apply_action 1 (Scene.ppo_on Scene.unknown_light)
     = (Ok tt,
        mkWorld (PPO.set_last_switch_step
                   0 (PPO.set_valid_ids true (PPO.__init__ 7)))
                (snd (Toy.setPhase "41896158" 1 Scene.unknown_light))
                [CGetAllProgramLogics "41896158"; CGetPhase "41896158";
                 CSetPhase "41896158" 1]).
Proof.
  split.
  - apply (proj1 failing_phase_query (Scene.dqn_on Scene.unknown_light)
                 DQN.traffic_light_id "Traffic light is not known");
      [vm_compute; discriminate | reflexivity].
  - apply (proj2 failing_phase_query (Scene.ppo_on Scene.unknown_light)
                 Toy.four_phases [] "Traffic light is not known"
                 (snd (Toy.setPhase "41896158" 1 Scene.unknown_light)));
      [reflexivity | vm_compute; discriminate | reflexivity | discriminate
       | reflexivity | reflexivity].
Defined.

(** On the stuck signal the command is rejected and nothing is recorded;
    the conclusion holds through its first alternative. *)
Lemma switch_recorded_only_when_accepted_witness :
  let w := Scene.dqn_on (Toy.stuck_signal 3) in
  let w' := snd (DQN._apply_action 1 DQN.traffic_light_id w) in
  env w' = env w
  \/ (Ok tt = Ok tt
      /\ env w' = DQN.set_last_switch_step
                    (DQN.current_simulation_step (env w)) (env w)
      /\ exists p,
          trafficlight_setPhase DQN.traffic_light_id p (sim w)
          = (Done tt, sim w')).
Proof.
  cbv zeta.
  apply (proj1 switch_recorded_only_when_accepted
               (Scene.dqn_on (Toy.stuck_signal 3))
               (snd (DQN._apply_action 1 DQN.traffic_light_id
                                       (Scene.dqn_on (Toy.stuck_signal 3))))
               DQN.traffic_light_id 1 (Ok tt)).
  vm_compute. reflexivity.
Defined.

(** One step on the junction books reward -4 against queue 4. *)
Lemma dqn_step_books_reward_and_queue_witness :
  let w' := snd (DQN.step 0 (Scene.dqn_on (Toy.junction 0))) in
  DQN.cumulative_reward (env w') = 0 + - 4
  /\ DQN.total_queue (env w') = 0 - - 4.
Proof.
  cbv zeta.
  destruct (@dqn_step_books_reward_and_queue
              _ _ 0 (Scene.dqn_on (Toy.junction 0))
              (snd (DQN.step 0 (Scene.dqn_on (Toy.junction 0))))
              (mkStep [1; 0; 2; 0; 1; 0; 0] (- 4) false false []))
    as (_ & Hcum & Hqueue & _); [vm_compute; reflexivity|].
  split; [exact Hcum | exact Hqueue].
Defined.

(** A step that ends early on a dead link still counts. *)
Lemma ppo_step_advances_counter_witness :
  PPO.current_simulation_step
    (env (snd (PPO.step 0 (Scene.ppo_on (Toy.dead_link 0)))))
  = 0 + 1.
Proof.
  apply (@ppo_step_advances_counter
           _ _ 0 (Scene.ppo_on (Toy.dead_link 0))
           (snd (PPO.step 0 (Scene.ppo_on (Toy.dead_link 0))))
           (fst (PPO.step 0 (Scene.ppo_on (Toy.dead_link 0))))).
  vm_compute. reflexivity.
Defined.

(** Seven fields, on the junction and on the early return of a dead
    link. *)
Lemma step_observation_has_seven_fields_witness :
  List.length [1; 0; 2; 0; 1; 0; 0] = 7%nat
  /\ List.length
       (observation
          (mkStep [1; 0; 2; 0; 1; 0; 0] 0 true false
                  [("error", VStr "connection closed by SUMO")]))
     = 7%nat.
Proof.
  split.
  - apply (proj1 step_observation_has_seven_fields 0
                 (Scene.dqn_on (Toy.junction 0))
                 (snd (DQN.step 0 (Scene.dqn_on (Toy.junction 0))))
                 (mkStep [1; 0; 2; 0; 1; 0; 0] (- 4) false false [])).
    vm_compute. reflexivity.
  - apply (proj2 step_observation_has_seven_fields 0
                 (Scene.ppo_on (Toy.dead_link 0))
                 (snd (PPO.step 0 (Scene.ppo_on (Toy.dead_link 0))))).
    vm_compute. reflexivity.
Defined.

(** The two shapes: regular on the junction, early on the dead link. *)
Lemma ppo_step_result_shapes_witness :
  truncated (mkStep [1; 0; 2; 0; 1; 0; 0] (- 4) false false []) = false
  /\ truncated (mkStep [1; 0; 2; 0; 1; 0; 0] 0 true false
                       [("error", VStr "connection closed by SUMO")])
     = false.
Proof.
  split.
  - apply (@ppo_step_result_shapes
             _ _ 0 (Scene.ppo_on (Toy.junction 0))
             (snd (PPO.step 0 (Scene.ppo_on (Toy.junction 0))))).
    vm_compute. reflexivity.
  - apply (@ppo_step_result_shapes
             _ _ 0 (Scene.ppo_on (Toy.dead_link 0))
             (snd (PPO.step 0 (Scene.ppo_on (Toy.dead_link 0))))).
    vm_compute. reflexivity.
Defined.

(** First [reset] of [DQN_working.py] on a simulator that starts. *)
Lemma dqn_reset_starts_fresh_episode_witness :
  exists i w',
    DQN.reset (Scene.dqn_on (Toy.unreachable 0))
    = (Ok ([1; 0; 2; 0; 1; 0; 0], i), w')
    /\ DQN.episode_count (env w') = 0 + 1
    /\ DQN.step_count (env w') = 0.
Proof.
  pose (w := Scene.dqn_on (Toy.unreachable 0)).
  destruct (proj2 dqn_reset_starts_fresh_episode w (snd (DQN.reset w))
                  (snd (Toy.start DQN.Sumo_config None (Toy.unreachable 0)))
                  [1; 0; 2; 0; 1; 0; 0])
    as [i Hreset];
    [reflexivity | reflexivity | vm_compute; reflexivity|].
  exists i, (snd (DQN.reset w)). split; [exact Hreset|].
  destruct (proj1 dqn_reset_starts_fresh_episode _ _ _ _ Hreset)
    as (Hcount & _ & _ & _ & _ & _ & Hepisode & _).
  split; [exact Hepisode | exact Hcount].
Defined.

(** A connection that cannot be closed, and one after which the simulator
    does not start again: [reset] raises either way. *)
Lemma dqn_reset_closes_loaded_connection_first_witness :
  DQN.reset (Scene.dqn_on Scene.jammed)
  = (Raise (TraCIException "Connection already closed"),
     mkWorld (DQN.__init__ DQN.Sumo_config) Scene.jammed
             [CIsLoaded; CClose])
  /\ fst (DQN.reset (Scene.dqn_on Scene.last_session))
     = Raise (TraCIException "Could not connect").
Proof.
  split.
  - apply (proj1 dqn_reset_closes_loaded_connection_first
                 (Scene.dqn_on Scene.jammed) Scene.jammed
                 "Connection already closed"); reflexivity.
  - rewrite (proj2 dqn_reset_closes_loaded_connection_first
                   (Scene.dqn_on Scene.last_session)
                   (snd (Toy.close Scene.last_session))
                   (snd (Toy.start DQN.Sumo_config None
                                   (snd (Toy.close Scene.last_session))))
                   "Could not connect");
      reflexivity.
Defined.

(** After two failed starts the third attempt connects, and the episode
    starts fresh. *)
Lemma ppo_reset_starts_fresh_episode_witness :
  let w' := match PPO.reset 0 (Scene.ppo_new (Toy.unreachable 2)) with
            | Some (_, w') => w'
            | None => Scene.ppo_new (Toy.unreachable 2)
            end in
  PPO.current_simulation_step (env w') = 0
  /\ PPO.last_switch_step (env w') = - 10
  /\ PPO.connection_active (env w') = true.
Proof.
  cbv zeta.
  destruct (@ppo_reset_starts_fresh_episode
              _ _ 0 (Scene.ppo_new (Toy.unreachable 2))
              (match PPO.reset 0 (Scene.ppo_new (Toy.unreachable 2)) with
               | Some (_, w') => w'
               | None => Scene.ppo_new (Toy.unreachable 2)
               end)
              [1; 0; 2; 0; 1; 0; 0] [])
    as (_ & _ & Hcur & Hlast & _ & _ & _ & Hactive & _);
    [vm_compute; reflexivity|].
  split; [exact Hcur|]. split; [exact Hlast | exact Hactive].
Defined.

(** The signal rejects the first phase command: [reset] raises at attempt
    0 of 5 and the connection stays marked active. *)
Lemma ppo_reset_does_not_retry_phase_command_witness :
  exists w',
    PPO.reset 0 (Scene.ppo_new Scene.stuck_at_start)
    = Some (Raise (TraCIException "Phase index is not valid"), w')
    /\ PPO.connection_active (env w') = true.
Proof.
  pose (w := Scene.ppo_new Scene.stuck_at_start).
  destruct (@ppo_reset_does_not_retry_phase_command
              _ _ 0 w (snd (PPO.connect 0 w)) (sim (snd (PPO.connect 0 w)))
              "Phase index is not valid")
    as (w' & Hreset & Hactive & _);
    [reflexivity | vm_compute; reflexivity | vm_compute; reflexivity|].
  exists w'. split; [exact Hreset | exact Hactive].
Defined.

(** Two episodes wanted: of three calls, the second and third see a used
    up budget, and the third answers [False]. *)
Lemma callback_stops_at_total_episodes_witness :
  let running := DQN.set_step_count 5 (DQN.__init__ DQN.Sumo_config) in
  let over := DQN.set_step_count 1000 (DQN.__init__ DQN.Sumo_config) in
  nth_error (fst (Callback.on_steps [running; over; over]
                                    (Callback.__init__ 2))) 2
  = Some false.
Proof.
  cbv zeta.
  apply (proj2 (callback_stops_at_total_episodes
                  [DQN.set_step_count 5 (DQN.__init__ DQN.Sumo_config);
                   DQN.set_step_count 1000 (DQN.__init__ DQN.Sumo_config);
                   DQN.set_step_count 1000 (DQN.__init__ DQN.Sumo_config)]
                  (Callback.__init__ 2))
               2%nat
               (DQN.set_step_count 1000 (DQN.__init__ DQN.Sumo_config))).
  reflexivity.
Defined.

(** A connection that cannot be closed, in both files. *)
Lemma failing_close_witness :
  PPO.close (mkWorld (PPO.set_connection_active true (PPO.__init__ 7))
                     Scene.jammed [])
  = (Ok tt,
     mkWorld (PPO.set_connection_active true (PPO.__init__ 7)) Scene.jammed
             [CClose])
  /\ DQN.close (Scene.dqn_on Scene.jammed)
     = (Raise (TraCIException "Connection already closed"),
        mkWorld (DQN.__init__ DQN.Sumo_config) Scene.jammed
                [CIsLoaded; CClose]).
Proof.
  split.
  - apply (proj1 failing_close
                 (mkWorld (PPO.set_connection_active true (PPO.__init__ 7))
                          Scene.jammed [])
                 Scene.jammed "Connection already closed"); reflexivity.
  - apply (proj2 failing_close (Scene.dqn_on Scene.jammed) Scene.jammed
                 "Connection already closed"); reflexivity.
Defined.

(** A tick that raises after an accepted switch: the switch is recorded,
    the step is not booked. *)
Lemma dqn_failed_step_books_nothing_witness :
  let w := Scene.dqn_on (Toy.dead_link 3) in
  let w' := snd (DQN.step 1 w) in
  DQN.step_count (env w') = 0
  /\ DQN.cumulative_reward (env w') = 0
  /\ DQN.episode_history (env w') = [].
Proof.
  cbv zeta.
  destruct (@dqn_failed_step_books_nothing
              _ _ 1 (Scene.dqn_on (Toy.dead_link 3))
              (snd (DQN.step 1 (Scene.dqn_on (Toy.dead_link 3))))
              (TraCIException "connection closed by SUMO"))
    as [-> | ->]; [vm_compute; reflexivity | |]; repeat split.
Defined.

(** * Every connection

    The statements of this part hold whatever the connection does: a call
    may answer, raise [TraCIException], or find the connection lost and
    raise [FatalTraCIError]. *)

Section AnyLinkSteps.
Context {Sim : Type} `{TraCI Sim} {link : Link Sim}.

(** With the connection up, [_get_state] of [PPO.py] comes back. *)
Lemma ppo_get_state_connected (w : World PPO.SumoEnv Sim) :
  link_up (sim w) ->
  exists o w', PPO._get_state w = (Ok o, w')
               /\ env w' = env w /\ sim w' = sim w
               /\ List.length o = 7%nat.
Proof.
  intro Hup. unfold link_up in Hup.
  unfold PPO._get_state, PPO._get_queue_length, PPO._get_current_phase.
  run. destruct (PPO.valid_ids (env w)); run;
    [|eexists; eexists; repeat split; reflexivity].
  repeat (rewrite Hup; run;
          match goal with
          | |- context [match ?r with Done _ => _ | Fail _ => _ end] =>
              destruct r; run
          end);
    eexists; eexists; repeat split; reflexivity.
Qed.

(** Closes a goal about the calls of one finished run. *)
Ltac quiet_calls :=
  intro Hrun; inversion Hrun; subst; cbn [calls];
  first [ exists []; rewrite app_nil_r; split; [reflexivity | constructor]
        | eexists; rewrite <- ?app_assoc; cbn [app];
          split; [reflexivity | repeat constructor] ].

(** Neither the phase controller nor the observation of
    [DQN_working.py] asks for the time or the vehicle count. *)
Lemma dqn_apply_action_quiet (action : Z) (tls_id : string)
      (w w' : World DQN.SumoEnv Sim) (r : Res unit) :
  DQN._apply_action action tls_id w = (r, w') ->
  exists cs, calls w' = calls w ++ cs
             /\ Forall (fun c => asks_time_or_count c = false) cs.
Proof.
  unfold DQN._apply_action, DQN._get_current_phase, DQN.switch_phase. run.
  destruct (action =? 0); run; [quiet_calls|].
  destruct (action =? 1); run; [|quiet_calls].
  destruct (_ >=? _); run; [|quiet_calls].
  destruct (link_down _ _); run; [quiet_calls|].
  destruct (trafficlight_getPhase _ _); run; [|quiet_calls].
  destruct (link_down _ _); run; [quiet_calls|].
  destruct (trafficlight_getAllProgramLogics _ _)
    as [[|program others]|]; run; try quiet_calls.
  destruct (_ =? 0); run; [quiet_calls|].
  destruct (link_down _ _); run; [quiet_calls|].
  destruct (trafficlight_setPhase _ _ _) as [[[]|msg] s']; run; quiet_calls.
Qed.

Lemma dqn_get_state_quiet (w w' : World DQN.SumoEnv Sim)
      (r : Res Observation) :
  DQN._get_state w = (r, w') ->
  env w' = env w
  /\ exists cs, calls w' = calls w ++ cs
                /\ Forall (fun c => asks_time_or_count c = false) cs.
Proof.
  unfold DQN._get_state, DQN._get_queue_length, DQN._get_current_phase.
  run.
  repeat (destruct (link_down _ _); run;
          [intro Hrun; split; [inversion Hrun; reflexivity
                              | revert Hrun; quiet_calls]|];
          match goal with
          | |- context [match ?q with Done _ => _ | Fail _ => _ end] =>
              destruct q; run;
              [|intro Hrun; split; [inversion Hrun; reflexivity
                                   | revert Hrun; quiet_calls]]
          end).
  intro Hrun; split; [inversion Hrun; reflexivity | revert Hrun; quiet_calls].
Qed.

Lemma dqn_step_quiet (action : Z) (w w' : World DQN.SumoEnv Sim)
      (r : Res StepResult) :
  DQN.step action w = (r, w') ->
  exists cs, calls w' = calls w ++ cs
             /\ Forall (fun c => asks_time_or_count c = false) cs.
Proof.
  unfold DQN.step, DQN.episode_summary. run.
  destruct (DQN._apply_action _ _ _) as [[[]|e] w1] eqn:Ea; run;
    apply dqn_apply_action_quiet in Ea; cbn [calls] in Ea;
    destruct Ea as (cs1 & Hcs1 & Hq1);
    [|intro Hrun; inversion Hrun; subst; exists cs1; now split].
  assert (Htick : Forall (fun c => asks_time_or_count c = false)
                         (cs1 ++ [CSimulationStep]))
    by (apply Forall_app; split; [exact Hq1 | repeat constructor]).
  destruct (link_down _ _); run;
    [intro Hrun; inversion Hrun; subst; cbn [calls];
     exists (cs1 ++ [CSimulationStep]); rewrite Hcs1, app_assoc;
     now split|].
  destruct (traci_simulationStep (sim w1)) as [[[]|msg] s2]; run;
    [|intro Hrun; inversion Hrun; subst; cbn [calls];
      exists (cs1 ++ [CSimulationStep]); rewrite Hcs1, app_assoc;
      now split].
  destruct (DQN._get_state _) as [[o|e] w3] eqn:Es; run;
    apply dqn_get_state_quiet in Es; cbn [calls] in Es;
    destruct Es as (_ & cs3 & Hcs3 & Hq3);
    assert (Hall : Forall (fun c => asks_time_or_count c = false)
                          ((cs1 ++ [CSimulationStep]) ++ cs3))
      by (apply Forall_app; now split).
  - cbn [orb]. destruct (_ >=? _); intro Hrun; inversion Hrun; subst;
      cbn [calls]; exists ((cs1 ++ [CSimulationStep]) ++ cs3);
      rewrite Hcs3, Hcs1, !app_assoc; now split.
  - intro Hrun; inversion Hrun; subst.
    exists ((cs1 ++ [CSimulationStep]) ++ cs3).
    rewrite Hcs3, Hcs1, !app_assoc; now split.
Qed.

(** No result of the DQN [step] is terminated or carries a diagnostic. *)
Lemma dqn_step_never_flags (action : Z) (w w' : World DQN.SumoEnv Sim)
      (r : StepResult) :
  DQN.step action w = (Ok r, w') ->
  terminated r = false /\ info_get "error" (info r) = None.
Proof.
  unfold DQN.step, DQN.episode_summary. run.
  destruct (DQN._apply_action _ _ _) as [[[]|e] w1]; run; [|discriminate].
  destruct (link_down _ _); run; [discriminate|].
  destruct (traci_simulationStep (sim w1)) as [[[]|msg] s2]; run;
    [|discriminate].
  destruct (DQN._get_state _) as [[o|e] w3]; run; [|discriminate].
  cbn [orb]. destruct (_ >=? _); intro Hrun; inversion Hrun; subst;
    split; reflexivity.
Qed.

(** C3, as the code has it.  In [PPO.py], once [_apply_action] has
    returned and while the connection holds: when the tick or one of the
    two queries after it raises [TraCIException], or the simulator reports
    a negative time, or it reports no vehicle while
    [current_simulation_step] is below [total_steps], [step] returns at
    once the observation read at that point with reward 0, [terminated]
    true, [truncated] false and the diagnostic under ["error"] in [info];
    reading the observation changes neither [self] nor the simulator.
    [DQN_working.py] has none of this: its [step] never asks for the time
    or the vehicle count, no result it returns is terminated or carries
    ["error"], and a tick that raises makes [step] raise. *)
Theorem degenerate_tick_terminates_episode :
  (forall (action : Z) (w w1 w2 : World PPO.SumoEnv Sim) (msg : string),
      PPO._apply_action action (PPO.tick_counter w) = (Ok tt, w1) ->
      link_up (sim w1) ->
      link_up (sim w2) ->
      PPO.degenerate_tick w1 msg w2 ->
      exists o w',
        PPO._get_state w2 = (Ok o, w')
        /\ PPO.step action w
           = (Ok (mkStep o 0 true false [("error", VStr msg)]), w')
        /\ env w' = env w2 /\ sim w' = sim w2)
  /\ (forall (action : Z) (w w' : World DQN.SumoEnv Sim)
             (r : Res StepResult),
         DQN.step action w = (r, w') ->
         exists cs,
           calls w' = calls w ++ cs
           /\ forall c, In c cs -> asks_time_or_count c = false)
  /\ (forall (action : Z) (w w' : World DQN.SumoEnv Sim) (r : StepResult),
         DQN.step action w = (Ok r, w') ->
         terminated r = false /\ info_get "error" (info r) = None)
  /\ (forall (action : Z) (w w1 w2 : World DQN.SumoEnv Sim) (e : exn),
         DQN._apply_action action DQN.traffic_light_id (DQN.sync_counter w)
         = (Ok tt, w1) ->
         command CSimulationStep traci_simulationStep w1 = (Raise e, w2) ->
         DQN.step action w = (Raise e, w2)).
Proof.
  split; [|split; [|split]].
  - intros action w w1 w2 msg Ha Hup1 Hup2 Hdeg.
    destruct (ppo_get_state_connected w2 Hup2)
      as (o & w' & Hs & Henv & Hsim & _).
    exists o, w'. split; [exact Hs|]. split; [|now split].
    unfold link_up in Hup1, Hup2.
    unfold PPO.step, PPO.tick_counter in *. run. rewrite Ha. run.
    rewrite Hup1.
    inversion Hdeg as [m s2 Htick | m s2 Htick Htime
                      | m s2 t Htick Htime Hcount
                      | s2 t v Htick Htime Hcount Hneg
                      | s2 t Htick Htime Hcount Hpos Hbudget];
      subst; cbn [sim] in Hup2; rewrite Htick; run;
      rewrite <- ?app_assoc; cbn [app].
    + now rewrite Hs.
    + rewrite Hup2, Htime. run. rewrite <- ?app_assoc; cbn [app].
      now rewrite Hs.
    + rewrite Hup2, Htime. run. rewrite Hup2, Hcount. run.
      rewrite <- ?app_assoc; cbn [app]. now rewrite Hs.
    + rewrite Hup2, Htime. run. rewrite Hup2, Hcount. run.
      rewrite <- ?app_assoc; cbn [app].
      destruct (Qlt_le_dec t 0) as [_|Hle]; run.
      * now rewrite Hs.
      * exfalso. exact (Qlt_not_le _ _ Hneg Hle).
    + rewrite Hup2, Htime. run. rewrite Hup2, Hcount. run.
      rewrite <- ?app_assoc; cbn [app].
      destruct (Qlt_le_dec t 0) as [Hlt|_]; run.
      * exfalso. exact (Qlt_not_le _ _ Hlt Hpos).
      * apply Z.ltb_lt in Hbudget. rewrite Hbudget. cbn [Z.eqb andb]. run.
        now rewrite Hs.
  - intros action w w' r Hstep.
    destruct (dqn_step_quiet _ _ Hstep) as (cs & Hcs & Hquiet).
    exists cs. split; [exact Hcs|].
    intros c Hin. rewrite Forall_forall in Hquiet. exact (Hquiet c Hin).
  - intros action w w' r. apply dqn_step_never_flags.
  - intros action w w1 w2 e Ha Htick.
    unfold DQN.step, DQN.sync_counter in *. run. rewrite Ha. run.
    destruct (link_down _ _); run;
      [inversion Htick; reflexivity|].
    destruct (traci_simulationStep (sim w1)) as [[[]|msg] s2]; run;
      [discriminate | inversion Htick; reflexivity].
Qed.

(** X8. With [valid_ids] true and the connection up, [_get_state] of
    [PPO.py] returns normally and issues all seven queries: every field
    holds the simulator's answer, or 0 where that one query raised
    [TraCIException].  It changes neither [self] nor the simulator. *)
Theorem ppo_get_state_fails_soft_per_field (w : World PPO.SumoEnv Sim) :
  PPO.valid_ids (env w) = true ->
  link_up (sim w) ->
  PPO._get_state w
  = (Ok (map or_zero (observation_replies (PPO.tls_id (env w)) (sim w))),
     mkWorld (env w) (sim w)
             (calls w ++ observation_queries (PPO.tls_id (env w)))).
Proof.
  intros Hvalid Hup. unfold link_up in Hup.
  unfold PPO._get_state, PPO._get_queue_length, PPO._get_current_phase,
    observation_replies, observation_queries, detector_ids.
  cbn [map app]. run. rewrite Hvalid. run.
  repeat (rewrite Hup; run;
          match goal with
          | |- context [match ?r with Done _ => _ | Fail _ => _ end] =>
              destruct r; run
          end);
    cbn [or_zero]; rewrite <- ?app_assoc; reflexivity.
Qed.

(** The only exception [_get_state] of [PPO.py] lets out is the one of a
    lost connection. *)
Lemma ppo_get_state_exception (w w' : World PPO.SumoEnv Sim) (e : exn) :
  PPO._get_state w = (Raise e, w') -> exists msg, e = FatalTraCIError msg.
Proof.
  unfold PPO._get_state, PPO._get_queue_length, PPO._get_current_phase.
  run. destruct (PPO.valid_ids (env w)); run; [|discriminate].
  repeat (destruct (link_down _ _); run;
          [intro Hrun; inversion Hrun; eexists; reflexivity|];
          match goal with
          | |- context [match ?r with Done _ => _ | Fail _ => _ end] =>
              destruct r; run
          end);
    discriminate.
Qed.

(** What [_apply_action] of [PPO.py] can raise, and when. *)
Lemma ppo_apply_action_exception (action : Z) (w w' : World PPO.SumoEnv Sim)
      (e : exn) :
  PPO._apply_action action w = (Raise e, w') ->
  (forall msg, e <> TraCIException msg)
  /\ (e = IndexError ->
      action = 1
      /\ PPO.valid_ids (env w) = true
      /\ link_down (CGetAllProgramLogics (PPO.tls_id (env w))) (sim w) = None
      /\ trafficlight_getAllProgramLogics (PPO.tls_id (env w)) (sim w)
         = Done []).
Proof.
  unfold PPO._apply_action, PPO.switch_phase, PPO._get_current_phase. run.
  destruct (PPO.valid_ids (env w)); run; [|discriminate].
  destruct (action =? 0); run; [discriminate|].
  destruct (action =? 1) eqn:Hone; run; [|discriminate].
  apply Z.eqb_eq in Hone.
  destruct (_ >=? _); run; [|discriminate].
  destruct (link_down _ _) eqn:Hlink; run;
    [intro Hrun; inversion Hrun; split; [discriminate | discriminate]|].
  destruct (trafficlight_getAllProgramLogics _ _)
    as [[|program others]|] eqn:Hlogics; run; try discriminate.
  - intro Hrun. inversion Hrun. split; [discriminate|].
    intros _. repeat split. exact Hone.
  - destruct (_ =? 0); run; [discriminate|].
    destruct (link_down (CGetPhase _) _); run;
      [intro Hrun; inversion Hrun; split; discriminate|].
    destruct (trafficlight_getPhase _ _); run;
      (destruct (link_down (CSetPhase _ _) _); run;
       [intro Hrun; inversion Hrun; split; discriminate|]);
      destruct (trafficlight_setPhase _ _ _) as [[[]|?] s']; run;
      discriminate.
Qed.

(** X11. Whatever the connection does, [step] of [PPO.py] lets no
    [TraCIException] out; and it raises [IndexError] only when action 1,
    with [valid_ids] true, meets an empty program list. *)
Theorem ppo_step_lets_no_traci_exception_out
        (action : Z) (w w' : World PPO.SumoEnv Sim) (e : exn) :
  PPO.step action w = (Raise e, w') ->
  (forall msg, e <> TraCIException msg)
  /\ (e = IndexError ->
      action = 1
      /\ PPO.valid_ids (env w) = true
      /\ link_down (CGetAllProgramLogics (PPO.tls_id (env w))) (sim w) = None
      /\ trafficlight_getAllProgramLogics (PPO.tls_id (env w)) (sim w)
         = Done []).
Proof.
  assert (Hfatal : forall m, (forall msg, FatalTraCIError m
                                          <> TraCIException msg)
                             /\ (FatalTraCIError m = IndexError ->
                                 action = 1
                                 /\ PPO.valid_ids (env w) = true
                                 /\ link_down
                                      (CGetAllProgramLogics
                                         (PPO.tls_id (env w))) (sim w)
                                    = None
                                 /\ trafficlight_getAllProgramLogics
                                      (PPO.tls_id (env w)) (sim w)
                                    = Done []))
    by (intro m; split; discriminate).
  unfold PPO.step. run.
  destruct (PPO._apply_action _ _) as [[[]|e1] w1] eqn:Ha; run;
    [|intro Hrun; inversion Hrun; subst;
      exact (ppo_apply_action_exception _ _ Ha)].
  clear Ha.
  repeat match goal with
         | |- context [match link_down ?c ?s with _ => _ end] =>
             destruct (link_down c s); run
         | |- context [match ?r with Done _ => _ | Fail _ => _ end] =>
             destruct r; run
         | |- context [let (_, _) := traci_simulationStep ?s in _] =>
             destruct (traci_simulationStep s) as [[[]|?] ?]; run
         | |- context [Qlt_le_dec ?t 0] => destruct (Qlt_le_dec t 0); run
         | |- context [if ?b && ?c then _ else _] => destruct (b && c); run
         | |- context [PPO._get_state ?w2] =>
             let Hs := fresh "Hs" in
             destruct (PPO._get_state w2) as [[?|?] ?] eqn:Hs; run;
             [|apply ppo_get_state_exception in Hs; destruct Hs as [? ->]]
         end;
    intro Hrun; inversion Hrun; subst; apply Hfatal.
Qed.

End AnyLinkSteps.

(** ** Starting a session, whatever the connection does *)

Section AnyLinkReset.
Context {Sim : Type} `{TraCI Sim} {link : Link Sim}.

(** With no connection marked active, the first block of [reset] does
    nothing. *)
Lemma close_previous_idle (w : World PPO.SumoEnv Sim) :
  PPO.connection_active (env w) = false ->
  PPO.close_previous w = (Ok tt, w).
Proof. intro Hoff. unfold PPO.close_previous. run. now rewrite Hoff. Qed.

(** A first block of [reset] that comes back leaves no connection marked
    active and keeps the retry settings. *)
Lemma close_previous_done (w w0 : World PPO.SumoEnv Sim) :
  PPO.close_previous w = (Ok tt, w0) ->
  PPO.connection_active (env w0) = false
  /\ PPO.max_retries (env w0) = PPO.max_retries (env w).
Proof.
  unfold PPO.close_previous. run.
  destruct (PPO.connection_active (env w)) eqn:Hactive; run.
  - destruct (link_down _ _); run; [discriminate|].
    destruct (traci_close (sim w)) as [[[]|m] s']; run;
      intro Hrun; inversion Hrun; split; reflexivity.
  - intro Hrun. inversion Hrun; subst. split; [exact Hactive | reflexivity].
Qed.

(** An attempt whose [traci.start] raises [TraCIException] stops there. *)
Lemma connect_refused (retry_count : Z) (w : World PPO.SumoEnv Sim)
      (s' : Sim) (msg : string) :
  link_down (CStart PPO.Sumo_config
                    (Some (PPO.label_of (PPO.self_id (env w)) retry_count)))
            (sim w)
  = None ->
  traci_start PPO.Sumo_config
              (Some (PPO.label_of (PPO.self_id (env w)) retry_count)) (sim w)
  = (Fail msg, s') ->
  PPO.connect retry_count w
  = (Raise (TraCIException msg),
     mkWorld (PPO.set_connection_label
                (PPO.label_of (PPO.self_id (env w)) retry_count) (env w))
             s'
             (calls w
              ++ [CStart PPO.Sumo_config
                         (Some (PPO.label_of (PPO.self_id (env w))
                                             retry_count))])).
Proof.
  intros Hlink Hstart. unfold PPO.connect. run. fields.
  now rewrite Hlink, Hstart.
Qed.

(** The recursion of [reset]: an attempt that raises [TraCIException] with
    retries left is [reset] with the next [retry_count], after the
    sleep. *)
Lemma reset_goes_on (retry_count : Z) (w w1 : World PPO.SumoEnv Sim)
      (msg : string) :
  PPO.connection_active (env w) = false ->
  PPO.connect retry_count w = (Raise (TraCIException msg), w1) ->
  PPO.max_retries (env w1) = PPO.max_retries (env w) ->
  retry_count < PPO.max_retries (env w) ->
  PPO.reset retry_count w
  = PPO.reset (retry_count + 1)
              (mkWorld (env w1) (sim w1)
                       (calls w1 ++ [CSleep (PPO.retry_delay (env w1))])).
Proof.
  intros Hoff Hconnect Hmax Hretry.
  unfold PPO.reset, PPO.reset_depth. cbn [env]. rewrite Hmax.
  replace (Z.to_nat (PPO.max_retries (env w) - retry_count))
    with (S (Z.to_nat (PPO.max_retries (env w) - (retry_count + 1))))
    by lia.
  cbn [PPO.reset_fuel]. rewrite (@close_previous_idle _ Hoff), Hconnect.
  assert (Hlt : (retry_count <? PPO.max_retries (env w1)) = true)
    by (apply Z.ltb_lt; lia).
  rewrite Hlt. unfold sleep, log. cbn [env sim calls]. reflexivity.
Qed.

(** Dropping a connection first does not change what [reset] does. *)
Lemma reset_once_closed (retry_count : Z) (w w0 : World PPO.SumoEnv Sim) :
  PPO.close_previous w = (Ok tt, w0) ->
  PPO.reset retry_count w = PPO.reset retry_count w0.
Proof.
  intro Hclose.
  destruct (@close_previous_done _ _ Hclose) as (Hoff & Hmax).
  unfold PPO.reset, PPO.reset_depth. rewrite Hmax.
  cbn [PPO.reset_fuel]. rewrite Hclose.
  now rewrite (@close_previous_idle _ Hoff).
Qed.

(** An attempt that connects goes on to start the episode. *)
Lemma reset_moves_on (retry_count : Z) (w w1 : World PPO.SumoEnv Sim) :
  PPO.connection_active (env w) = false ->
  PPO.connect retry_count w = (Ok tt, w1) ->
  PPO.reset retry_count w = Some (PPO.start_episode w1).
Proof.
  intros Hoff Hconnect. unfold PPO.reset, PPO.reset_depth.
  cbn [PPO.reset_fuel].
  now rewrite (@close_previous_idle _ Hoff), Hconnect.
Qed.

(** No attempt changes [max_retries], however it ends. *)
Lemma connect_keeps_max_retries (retry_count : Z)
      (w w1 : World PPO.SumoEnv Sim) (r : Res unit) :
  PPO.connect retry_count w = (r, w1) ->
  PPO.max_retries (env w1) = PPO.max_retries (env w).
Proof.
  unfold PPO.connect, PPO._validate_ids. run.
  repeat match goal with
         | |- context [match link_down ?c ?s with _ => _ end] =>
             destruct (link_down c s); run
         | |- context [let (_, _) := traci_start ?a ?b ?s in _] =>
             destruct (traci_start a b s) as [[[]|?] ?]; run
         | |- context [let (_, _) := traci_simulationStep ?s in _] =>
             destruct (traci_simulationStep s) as [[[]|?] ?]; run
         | |- context [match ?q with Done _ => _ | Fail _ => _ end] =>
             destruct q; run
         | |- context [if negb ?b then _ else _] => destruct (negb b); run
         end;
    intro Hrun; inversion Hrun; reflexivity.
Qed.

(** [reset] comes back within the bound its retry test gives, whatever
    the connection does. *)
Lemma reset_fuel_comes_back (fuel : nat) :
  forall (retry_count : Z) (w : World PPO.SumoEnv Sim),
    (Z.to_nat (PPO.max_retries (env w) - retry_count) < fuel)%nat ->
    exists r, PPO.reset_fuel fuel retry_count w = Some r.
Proof.
  induction fuel as [|fuel IH]; intros retry_count w Hfuel; [lia|].
  cbn [PPO.reset_fuel].
  destruct (PPO.close_previous w) as [[[]|e0] w0] eqn:Hclose;
    [|eexists; reflexivity].
  destruct (@close_previous_done _ _ Hclose) as (_ & Hmax0).
  destruct (PPO.connect retry_count w0) as [[[]|[msg| |msg]] w1] eqn:Hconnect;
    try (eexists; reflexivity).
  pose proof (@connect_keeps_max_retries _ _ _ _ Hconnect) as Hmax1.
  destruct (retry_count <? PPO.max_retries (env w1)) eqn:Hretry;
    [|eexists; reflexivity].
  apply Z.ltb_lt in Hretry. unfold sleep, log. cbn [env sim calls].
  apply IH. cbn [env]. lia.
Qed.

Lemma reset_comes_back (retry_count : Z) (w : World PPO.SumoEnv Sim) :
  exists r, PPO.reset retry_count w = Some r.
Proof. apply reset_fuel_comes_back. unfold PPO.reset_depth. lia. Qed.


(** [n + 1] starts that raise [TraCIException] with a retry left, then an
    attempt that connects. *)
Lemma reset_after_refusals (n : nat) :
  forall (retry_count : Z) (w w1 : World PPO.SumoEnv Sim) (s_n : Sim)
         (msg : string),
    PPO.connection_active (env w) = false ->
    PPO.start_fails (PPO.self_id (env w)) (S n) retry_count (sim w) s_n
                    msg ->
    retry_count + Z.of_nat n < PPO.max_retries (env w) ->
    PPO.connect
      (retry_count + Z.of_nat n + 1)
      (mkWorld (PPO.set_connection_label
                  (PPO.label_of (PPO.self_id (env w))
                                (retry_count + Z.of_nat n))
                  (env w))
               s_n
               (calls w
                ++ PPO.attempt_calls (PPO.self_id (env w))
                                     (PPO.retry_delay (env w)) (S n)
                                     retry_count
                ++ [CSleep (PPO.retry_delay (env w))]))
    = (Ok tt, w1) ->
    PPO.reset retry_count w = Some (PPO.start_episode w1).
Proof.
  induction n as [|n IH];
    intros retry_count w w1 s_n msg Hoff Hfails Hleft Hconnect.
  - inversion Hfails as [rc s0 s1 m Hlink Hstart|]; subst.
    rewrite (@reset_goes_on
               retry_count w _ _ Hoff
               (@connect_refused retry_count w _ _ Hlink Hstart))
      by (reflexivity || lia).
    cbn [env sim calls]. fields.
    apply reset_moves_on; [cbn [env]; fields; exact Hoff|].
    replace (retry_count + Z.of_nat 0) with retry_count in Hconnect by lia.
    cbn [PPO.attempt_calls app] in Hconnect.
    rewrite <- app_assoc. exact Hconnect.
  - inversion Hfails as [|n' rc s0 s1 s2 m1 m Hlink Hstart Hrest]; subst.
    rewrite (@reset_goes_on
               retry_count w _ _ Hoff
               (@connect_refused retry_count w _ _ Hlink Hstart))
      by (reflexivity || lia).
    cbn [env sim calls]. fields.
    apply IH with (s_n := s_n) (msg := msg); cbn [env sim calls]; fields;
      [exact Hoff | exact Hrest | lia |].
    replace (retry_count + 1 + Z.of_nat n)
      with (retry_count + Z.of_nat (S n)) by lia.
    rewrite <- Hconnect. f_equal. f_equal.
    rewrite <- !app_assoc. reflexivity.
Qed.


(** X18. [reset] of [PPO.py], called with no connection marked active,
    keeps trying after [TraCIException]: when [traci.start] raises it [n]
    times in a row with [n] at most [max_retries] and the next attempt
    connects, [reset] goes on to start the episode from the world that
    attempt left, having slept [retry_delay] after each failure. *)
Theorem ppo_reset_connects_on_a_later_attempt
        (n : nat) (w w1 : World PPO.SumoEnv Sim) (s_n : Sim) (msg : string) :
  PPO.connection_active (env w) = false ->
  PPO.start_fails (PPO.self_id (env w)) (S n) 0 (sim w) s_n msg ->
  Z.of_nat (S n) <= PPO.max_retries (env w) ->
  PPO.connect
    (Z.of_nat (S n))
    (mkWorld (PPO.set_connection_label
                (PPO.label_of (PPO.self_id (env w)) (Z.of_nat n)) (env w))
             s_n
             (calls w
              ++ PPO.attempt_calls (PPO.self_id (env w))
                                   (PPO.retry_delay (env w)) (S n) 0
              ++ [CSleep (PPO.retry_delay (env w))]))
  = (Ok tt, w1) ->
  PPO.reset 0 w = Some (PPO.start_episode w1).
Proof.
  intros Hoff Hfails Hleft Hconnect.
  apply reset_after_refusals with (n := n) (s_n := s_n) (msg := msg);
    [exact Hoff | exact Hfails | lia |].
  replace (0 + Z.of_nat n + 1) with (Z.of_nat (S n)) by lia.
  exact Hconnect.
Qed.

(** X19. A half-open session is closed before the retry.  [reset] of
    [PPO.py] is called with no connection marked active; [traci.start]
    comes back, the first tick raises [TraCIException] with a retry left,
    and the close that follows reaches the simulator.  Then [reset]
    sleeps, closes that connection, sleeps again if the close came back,
    marks the connection inactive and only then makes the next attempt. *)
Theorem ppo_reset_closes_half_open_session
        (retry_count : Z) (w : World PPO.SumoEnv Sim) (s1 s2 s3 : Sim)
        (msg : string) (closed : Reply unit) :
  let label := PPO.label_of (PPO.self_id (env w)) retry_count in
  let delay := PPO.retry_delay (env w) in
  PPO.connection_active (env w) = false ->
  link_down (CStart PPO.Sumo_config (Some label)) (sim w) = None ->
  traci_start PPO.Sumo_config (Some label) (sim w) = (Done tt, s1) ->
  link_down CSimulationStep s1 = None ->
  traci_simulationStep s1 = (Fail msg, s2) ->
  retry_count < PPO.max_retries (env w) ->
  link_down CClose s2 = None ->
  traci_close s2 = (closed, s3) ->
  PPO.reset retry_count w
  = PPO.reset
      (retry_count + 1)
      (mkWorld (PPO.set_connection_active
                  false (PPO.set_connection_label label (env w)))
               s3
               (calls w
                ++ [CStart PPO.Sumo_config (Some label); CSimulationStep;
                    CSleep delay; CClose]
                ++ match closed with
                   | Done _ => [CSleep delay]
                   | Fail _ => []
                   end)).
Proof.
  intros label delay Hoff Hl0 Hstart Hl1 Htick Hleft Hl2 Hclose.
  subst label delay.
  assert (Hconnect :
            PPO.connect retry_count w
            = (Raise (TraCIException msg),
               mkWorld (PPO.set_connection_active
                          true
                          (PPO.set_connection_label
                             (PPO.label_of (PPO.self_id (env w))
                                           retry_count) (env w)))
                       s2
                       (calls w
                        ++ [CStart PPO.Sumo_config
                                   (Some (PPO.label_of (PPO.self_id (env w))
                                                       retry_count));
                            CSimulationStep]))).
  { unfold PPO.connect. run. fields. rewrite Hl0, Hstart. run.
    rewrite Hl1, Htick. now rewrite <- app_assoc. }
  rewrite (@reset_goes_on retry_count w _ _ Hoff Hconnect)
    by (reflexivity || exact Hleft).
  cbn [env sim calls]. fields.
  apply reset_once_closed. unfold PPO.close_previous. run. fields.
  rewrite Hl2, Hclose. destruct closed as [[]|m]; run;
    rewrite <- !app_assoc; reflexivity.
Qed.

End AnyLinkReset.

(** ** The statements on the scripted junction *)

(** [PPO.py], first step on a road without vehicles, through the client
    that reports lost connections: the episode is terminated with reward 0
    and the diagnostic ["No vehicles"]. *)
Lemma degenerate_tick_terminates_episode_witness :
  exists o w',
    PPO.step (link := Scene.real_client) 0
             (mkWorld (PPO.set_valid_ids true (PPO.__init__ 7))
                      (Toy.empty_road 0) [])
    = (Ok (mkStep o 0 true false [("error", VStr "No vehicles")]), w').
Proof.
  pose (w := mkWorld (PPO.set_valid_ids true (PPO.__init__ 7))
                     (Toy.empty_road 0) []).
  assert (Ha : PPO._apply_action (link := Scene.real_client)
                                 0 (PPO.tick_counter w)
               = (Ok tt, PPO.tick_counter w)) by reflexivity.
  pose (w2 := mkWorld (env (PPO.tick_counter w))
                      (snd (Toy.simulationStep (Toy.empty_road 0)))
                      (calls (PPO.tick_counter w)
                       ++ [CSimulationStep; CGetTime; CGetIDCount])).
  assert (Hdeg : PPO.degenerate_tick (PPO.tick_counter w) "No vehicles" w2).
  { apply PPO.NoVehicles with (t := 1%Q).
    - reflexivity.
    - reflexivity.
    - reflexivity.
    - vm_compute. discriminate.
    - vm_compute. reflexivity. }
  destruct (proj1 (@degenerate_tick_terminates_episode
                     Toy.ToySim _ Scene.real_client)
                  0 w (PPO.tick_counter w) w2 "No vehicles" Ha)
    as (o & w' & _ & Hstep & _);
    [intros []; reflexivity | intros []; reflexivity | exact Hdeg|].
  exists o, w'. exact Hstep.
Defined.

(** The failures of the claim, met by the code.  [DQN_working.py]: with no
    vehicle at step 0 of 1000 the step is an ordinary one, reward -4,
    [terminated] false and an empty [info]; and a tick that raises is not
    caught, so [step] raises.  [PPO.py]: a tick on a lost connection
    raises [FatalTraCIError], which the handler of [step] does not catch,
    so [step] raises and returns no result. *)
Lemma degenerate_tick_counterexample :
  vehicle_getIDCount (Toy.empty_road 0) = Done 0
  /\ DQN.step_count (DQN.__init__ DQN.Sumo_config)
     < DQN.max_steps (DQN.__init__ DQN.Sumo_config)
  /\ (exists w',
         DQN.step 0 (mkWorld (DQN.__init__ DQN.Sumo_config)
                             (Toy.empty_road 0) [])
         = (Ok (mkStep [1; 0; 2; 0; 1; 0; 0] (-4) false false []), w'))
  /\ fst (traci_simulationStep (Toy.dead_link 0))
     = Fail "connection closed by SUMO"
  /\ fst (DQN.step 0 (mkWorld (DQN.__init__ DQN.Sumo_config)
                              (Toy.dead_link 0) []))
     = Raise (TraCIException "connection closed by SUMO")
  /\ link_down (Link := Scene.real_client) CSimulationStep (Toy.dead_link 0)
     = Some "connection closed by SUMO"
  /\ PPO.step (link := Scene.real_client) 0 (Scene.ppo_on (Toy.dead_link 0))
     = (Raise (FatalTraCIError "connection closed by SUMO"),
        mkWorld (PPO.set_current_simulation_step
                   1 (PPO.set_valid_ids true (PPO.__init__ 7)))
                (Toy.dead_link 0) [CSimulationStep]).
Proof.
  split; [reflexivity|]. split; [reflexivity|].
  split; [eexists; vm_compute; reflexivity|].
  split; [reflexivity|]. split; [reflexivity|].
  split; [reflexivity|]. vm_compute. reflexivity.
Qed.



(** With detector [e2_9] unknown its field reads 0 and the others are
    read. *)
Lemma ppo_get_state_fails_soft_per_field_witness :
  let s := Toy.mkToy true O false false false false 2 [Toy.four_phases] 0 12
                     (removelast Toy.six_detectors) ["41896158"] in
  PPO._get_state (link := Scene.real_client) (Scene.ppo_on s)
  = (Ok [1; 0; 2; 0; 1; 0; 2],
     mkWorld (PPO.set_valid_ids true (PPO.__init__ 7)) s
             (observation_queries "41896158")).
Proof.
  cbv zeta.
  refine (eq_trans
            (@ppo_get_state_fails_soft_per_field
               Toy.ToySim _ Scene.real_client
               (Scene.ppo_on
                  (Toy.mkToy true O false false false false 2
                             [Toy.four_phases] 0 12
                             (removelast Toy.six_detectors) ["41896158"]))
               _ _)
            _).
  - reflexivity.
  - intros []; reflexivity.
  - reflexivity.
Defined.

(** With no program reported, the [step] of [PPO.py] raises [IndexError],
    and the cause is the one the property names. *)
Lemma ppo_step_lets_no_traci_exception_out_witness :
  PPO.valid_ids (env (Scene.ppo_on Scene.no_program)) = true
  /\ trafficlight_getAllProgramLogics
       (PPO.tls_id (env (Scene.ppo_on Scene.no_program)))
       (sim (Scene.ppo_on Scene.no_program))
     = Done [].
Proof.
  destruct (@ppo_step_lets_no_traci_exception_out
              Toy.ToySim _ Scene.real_client 1
              (Scene.ppo_on Scene.no_program)
              (snd (PPO.step (link := Scene.real_client) 1
                             (Scene.ppo_on Scene.no_program)))
              IndexError)
    as (_ & Hcause); [vm_compute; reflexivity|].
  destruct (Hcause eq_refl) as (_ & Hvalid & _ & Hlogics).
  split; [exact Hvalid | exact Hlogics].
Defined.

(** Two starts that raise [TraCIException], then the attempt with
    [retry_count] 2 connects. *)
Lemma ppo_reset_connects_on_a_later_attempt_witness :
  exists w1,
    PPO.reset 0 (Scene.ppo_new (Toy.unreachable 2))
    = Some (PPO.start_episode w1)
    /\ PPO.connection_label (env w1) = "sumo_7_2".
Proof.
  pose (w := Scene.ppo_new (Toy.unreachable 2)).
  pose (w1 := snd (PPO.connect
                     2 (mkWorld (PPO.set_connection_label
                                   "sumo_7_1" (PPO.__init__ 7))
                                (Toy.unreachable 0)
                                [CStart PPO.Sumo_config (Some "sumo_7_0");
                                 CSleep 2;
                                 CStart PPO.Sumo_config (Some "sumo_7_1");
                                 CSleep 2]))).
  exists w1. split; [|vm_compute; reflexivity].
  apply (@ppo_reset_connects_on_a_later_attempt
           Toy.ToySim _ _ 1 w w1 (Toy.unreachable 0) "Could not connect").
  - reflexivity.
  - eapply PPO.EarlierFailure; [reflexivity | reflexivity|].
    apply PPO.LastFailure; reflexivity.
  - vm_compute. discriminate.
  - vm_compute. reflexivity.
Defined.

(** The start comes back, the first tick raises [TraCIException]: the next
    attempt is made on a closed connection, after two sleeps and a
    close. *)
Lemma ppo_reset_closes_half_open_session_witness :
  let s1 := snd (Toy.start PPO.Sumo_config (Some "sumo_7_0")
                           Scene.half_open) in
  PPO.reset 0 (Scene.ppo_new Scene.half_open)
  = PPO.reset
      1 (mkWorld (PPO.set_connection_active
                    false (PPO.set_connection_label
                             "sumo_7_0" (PPO.__init__ 7)))
                 (snd (Toy.close s1))
                 [CStart PPO.Sumo_config (Some "sumo_7_0"); CSimulationStep;
                  CSleep 2; CClose; CSleep 2]).
Proof.
  cbv zeta.
  apply (@ppo_reset_closes_half_open_session
           Toy.ToySim _ _ 0 (Scene.ppo_new Scene.half_open)
           (snd (Toy.start PPO.Sumo_config (Some "sumo_7_0")
                           Scene.half_open))
           (snd (Toy.start PPO.Sumo_config (Some "sumo_7_0")
                           Scene.half_open))
           (snd (Toy.close
                   (snd (Toy.start PPO.Sumo_config (Some "sumo_7_0")
                                   Scene.half_open))))
           "connection closed by SUMO" (Done tt)).
  - reflexivity.
  - reflexivity.
  - reflexivity.
  - reflexivity.
  - reflexivity.
  - vm_compute. reflexivity.
  - reflexivity.
  - reflexivity.
Defined.

(** The thousandth step of the first episode appends its record: the
    average queue is the quotient of 4 by 1000. *)
Lemma dqn_step_appends_episode_record_witness :
  let w := mkWorld (DQN.set_step_count 999 (DQN.__init__ DQN.Sumo_config))
                   (Toy.junction 0) [] in
  let w' := snd (DQN.step 0 w) in
  DQN.episode_history (env w') = [] ++ [0 - 1]
  /\ DQN.reward_history (env w') = [] ++ [DQN.cumulative_reward (env w')]
  /\ DQN.queue_history (env w') = [] ++ [DQN.avg_queue_of (env w')]
  /\ DQN.avg_queue_of (env w') = Div 4 1000.
Proof.
  cbv zeta.
  pose (w := mkWorld (DQN.set_step_count 999 (DQN.__init__ DQN.Sumo_config))
                     (Toy.junction 0) []).
  destruct (@dqn_step_appends_episode_record
              _ _ 0 w (snd (DQN.step 0 w))
              (mkStep [1; 0; 2; 0; 1; 0; 0] (- 4) false true
                      [("episode", VInt 0);
                       ("cumulative_reward", VNum (Exact (- 4)));
                       ("avg_queue_length", VNum (Div 4 1000))]))
    as (_ & _ & Hrecord & Havg); [vm_compute; reflexivity|].
  destruct (Hrecord eq_refl) as (Hep & Hrew & Hqueue & _).
  split; [exact Hep|]. split; [exact Hrew|]. split; [exact Hqueue|].
  refine (eq_trans (Havg _) _); [vm_compute; discriminate | reflexivity].
Defined.
